(** * mgrep_hook: the PreToolUse hook that substitutes a semantic search
      for the host's Grep tool call.

    A shallow embedding of [plugins/mgrep/hooks/mgrep_hook.py] and the
    properties of its request-normalisation and response-shaping pipeline.

    Modelling conventions.
    - Python [str] values are Rocq strings read as sequences of code points
      below 256 (the Latin-1 block of Unicode); the character classes below
      are Python's own restricted to that block.
    - Paths follow [pathlib.PurePosixPath]. [Path.resolve()] asks the file
      system: it is [resolve] below, which goes through the host's
      [realpath] and raises on an embedded null character.
    - Library and operating-system services the script calls ([json.loads],
      [fnmatch.fnmatch], [repr], [shlex], [subprocess.run], [os.path.realpath],
      the environment, the file system) are fields of a [Host] record.
    - An uncaught Python exception is a value of [exn]; functions that can
      raise return [exn + A]. *)

From Stdlib Require Import ZArith Ascii String List Lia Bool.
From Stdlib Require Import Numbers.DecimalString Floats.SpecFloat.
From stdpp Require Import base gmap strings list.

Set Warnings "-register-all".
Set Default Proof Using "Type".
Local Open Scope Z_scope.

(** ** Python text *)

Module Py.

Definition code (c : ascii) : N := N_of_ascii c.

(** [str.isspace] on one code point below 256. *)
Definition isspace (c : ascii) : bool :=
  let n := code c in
  ((9 <=? n) && (n <=? 13) || (28 <=? n) && (n <=? 32)
   || (n =? 133) || (n =? 160))%N.

(** [\d] of a [str] pattern, and what [int] accepts as a digit:
    the decimal digits. *)
Definition isdecimal (c : ascii) : bool :=
  let n := code c in ((48 <=? n) && (n <=? 57))%N.

(** [str.isdigit] on one code point: the decimal digits and the
    superscript digits U+00B2, U+00B3 and U+00B9. *)
Definition isdigit_char (c : ascii) : bool :=
  let n := code c in
  (isdecimal c || (n =? 178) || (n =? 179) || (n =? 185))%N.

Definition truthy (s : string) : bool :=
  match s with EmptyString => false | String _ _ => true end.

Fixpoint lstrip (s : string) : string :=
  match s with
  | EmptyString => EmptyString
  | String c r => if isspace c then lstrip r else s
  end.

Fixpoint rstrip (s : string) : string :=
  match s with
  | EmptyString => EmptyString
  | String c r =>
      match rstrip r with
      | EmptyString => if isspace c then EmptyString else String c EmptyString
      | r' => String c r'
      end
  end.

Definition strip (s : string) : string := rstrip (lstrip s).

Fixpoint all_chars (p : ascii -> bool) (s : string) : bool :=
  match s with
  | EmptyString => true
  | String c r => p c && all_chars p r
  end.

(** [str.isdigit]: at least one character, and all of them digits. *)
Definition isdigit (s : string) : bool := truthy s && all_chars isdigit_char s.

Definition startswith (s p : string) : bool := String.prefix p s.

(** [s[n:]] for [0 <= n]. *)
Fixpoint slice_from (n : nat) (s : string) : string :=
  match n, s with
  | O, _ => s
  | S n', String _ r => slice_from n' r
  | S _, EmptyString => EmptyString
  end.

(** [s[:n]] for [0 <= n]. *)
Definition slice_to (n : nat) (s : string) : string := String.substring 0 n s.

(** [str.find] of a one-character needle: [None] stands for [-1]. *)
Definition find (c : ascii) (s : string) : option nat :=
  String.index 0 (String c EmptyString) s.

(** The string holds the null character. *)
Definition has_nul (s : string) : bool :=
  negb (all_chars (fun c => negb (code c =? 0)%N) s).

Definition digit_value (c : ascii) : Z := Z.of_N (code c) - 48.

(** The body of a decimal numeral: digits, with single underscores
    allowed between two digits. [prev] tells whether the character just
    read was a digit. *)
Fixpoint int_body (prev : bool) (acc : Z) (s : string) : option Z :=
  match s with
  | EmptyString => if prev then Some acc else None
  | String c r =>
      if isdecimal c then int_body true (10 * acc + digit_value c) r
      else if Ascii.eqb c "_" && prev then int_body false acc r
      else None
  end.

(** The white space [int] drops around a numeral. A code point below 127
    is white space for the C parser only if it is a blank, a tab or one of
    the four line controls 10 to 13; above it, the Unicode white space
    (U+0085, U+00A0) is first turned into blanks. The separators U+001C
    to U+001F, which [str.strip] drops, are not dropped here. *)
Definition int_space (c : ascii) : bool :=
  let n := code c in
  ((9 <=? n) && (n <=? 13) || (n =? 32) || (n =? 133) || (n =? 160))%N.

Fixpoint int_lstrip (s : string) : string :=
  match s with
  | EmptyString => EmptyString
  | String c r => if int_space c then int_lstrip r else s
  end.

Fixpoint int_rstrip (s : string) : string :=
  match s with
  | EmptyString => EmptyString
  | String c r =>
      match int_rstrip r with
      | EmptyString => if int_space c then EmptyString else String c EmptyString
      | r' => String c r'
      end
  end.

(** How many digits [int] scans: those of the leading run of digits and
    underscores. *)
Fixpoint scanned_digits (s : string) : nat :=
  match s with
  | EmptyString => O
  | String c r =>
      if isdecimal c then S (scanned_digits r)
      else if Ascii.eqb c "_" then scanned_digits r
      else O
  end.

(** The numeral after white space and sign. *)
Definition int_digits (s : string) : string :=
  match int_rstrip (int_lstrip s) with
  | String c r => if Ascii.eqb c "-" || Ascii.eqb c "+" then r else String c r
  | EmptyString => EmptyString
  end.

(** The limit on integer string conversion: with [limit] the value of
    [sys.get_int_max_str_digits()] (4300 unless configured, 0 for none), a
    numeral of more than 640 digits and more than [limit] digits is
    refused. *)
Definition over_limit (limit : nat) (s : string) : bool :=
  let digits := scanned_digits (int_digits s) in
  ((640 <? digits) && (0 <? limit) && (limit <? digits))%nat.

(** [int(s)] in base ten: surrounding white space is dropped, one sign is
    allowed; [None] stands for [ValueError]. *)
Definition int (limit : nat) (s : string) : option Z :=
  if over_limit limit s then None
  else
    match int_rstrip (int_lstrip s) with
    | String c r =>
        if Ascii.eqb c "-" then option_map Z.opp (int_body false 0 r)
        else if Ascii.eqb c "+" then int_body false 0 r
        else int_body false 0 (String c r)
    | EmptyString => None
    end.

(** [str.lower] on one code point below 256. *)
Definition lower_char (c : ascii) : ascii :=
  let n := code c in
  if ((65 <=? n) && (n <=? 90)
      || (192 <=? n) && (n <=? 222) && negb (n =? 215))%N
  then ascii_of_N (n + 32) else c.

Fixpoint lower (s : string) : string :=
  match s with
  | EmptyString => EmptyString
  | String c r => String (lower_char c) (lower r)
  end.

(** [str(n)] for an integer. *)
Definition str_of_int (n : Z) : string := NilZero.string_of_int (Z.to_int n).

Definition join (sep : string) (l : list string) : string := String.concat sep l.

(** [max(1, min(100, v))]. *)
Definition clamp (v : Z) : Z := Z.max 1 (Z.min 100 v).

End Py.

(** ** Pure POSIX paths *)

Module Path.

(** A parsed path: [root] is the empty string, ["/"] or ["//"]; [parts]
    are the components after the root; empty and ["."] components are
    dropped on parsing and [".."] is kept, as [pathlib] does. *)
Record t : Type := mk { root : string; parts : list string }.

Definition slash : ascii := "/"%char.

(** [str.split("/")]. *)
Fixpoint split_slash (s : string) : list string :=
  match s with
  | EmptyString => [EmptyString]
  | String c r =>
      if Ascii.eqb c slash then EmptyString :: split_slash r
      else match split_slash r with
           | h :: tl => String c h :: tl
           | [] => [String c EmptyString]
           end
  end.

(** [posixpath.splitroot]. *)
Definition splitroot (p : string) : string * string :=
  match p with
  | String c0 r0 =>
      if Ascii.eqb c0 slash then
        match r0 with
        | String c1 r1 =>
            if Ascii.eqb c1 slash then
              match r1 with
              | String c2 _ =>
                  if Ascii.eqb c2 slash then ("/", r0) else ("//", r1)
              | EmptyString => ("//", r1)
              end
            else ("/", r0)
        | EmptyString => ("/", r0)
        end
      else ("", p)
  | EmptyString => ("", p)
  end.

Definition is_name (x : string) : bool :=
  negb (String.eqb x "") && negb (String.eqb x ".").

(** [PurePosixPath(s)]. *)
Definition parse (s : string) : t :=
  let '(rt, rel) := splitroot s in
  mk rt (List.filter is_name (split_slash rel)).

Definition is_absolute (p : t) : bool := Py.truthy (root p).

(** [p.as_posix()], which is [str(p)] here. *)
Definition as_posix (p : t) : string :=
  match root p, parts p with
  | EmptyString, [] => "."
  | rt, ps => rt +:+ Py.join "/" ps
  end.

(** [p / q]. *)
Definition join (p q : t) : t :=
  if is_absolute q then q else mk (root p) (parts p ++ parts q).

(** [p / s] for a string [s]. *)
Definition join_str (p : t) (s : string) : t := join p (parse s).

Definition pop (stack : list string) : list string := removelast stack.

Definition step (stack : list string) (name : string) : list string :=
  if String.eqb name ".." then pop stack else stack ++ [name].

Definition collapse (ps : list string) : list string := fold_left step ps [].

(** The normal form of [p] taken from the directory [cwd] (itself
    absolute): the components are walked from the root, [".."] stepping
    back and staying at the root when there is nothing to step back to.
    This is [os.path.abspath]; it is the real path only where no component
    on the way is a symbolic link. *)
Definition normalize (cwd p : t) : t :=
  mk "/" (collapse (if is_absolute p then parts p else parts cwd ++ parts p)).

Fixpoint strip_prefix (pre l : list string) : option (list string) :=
  match pre, l with
  | [], _ => Some l
  | a :: pre', b :: l' => if String.eqb a b then strip_prefix pre' l' else None
  | _ :: _, [] => None
  end.

(** [p.relative_to(base)]: [None] stands for [ValueError]. *)
Definition relative_to (p base : t) : option t :=
  if String.eqb (root p) (root base) then
    match strip_prefix (parts base) (parts p) with
    | Some rest => Some (mk "" rest)
    | None => None
    end
  else None.

Definition no_slash (x : string) : bool :=
  Py.all_chars (fun c => negb (Ascii.eqb c slash)) x.

(** What a component of a parsed path is: not empty, not ["."], and
    without a separator. *)
Definition component (x : string) : Prop :=
  is_name x = true /\ no_slash x = true.

(** The paths [pathlib] builds. *)
Definition wf (p : t) : Prop :=
  (root p = "" \/ root p = "/" \/ root p = "//") /\ Forall component (parts p).

(** A path as [Path.resolve()] returns it. *)
Definition resolved (p : t) : Prop :=
  root p = "/" /\ Forall (fun x => component x /\ x <> "..") (parts p).

End Path.


(** ** Values, exceptions and the host *)

(** A decoded JSON document, as [json.loads] returns it. An object keeps
    its members in document order, as a Python [dict] does. *)
Inductive json : Type :=
  | JNull
  | JBool (b : bool)
  | JInt (n : Z)
  | JFloat (f : spec_float)
  | JStr (s : string)
  | JList (items : list json)
  | JDict (members : list (string * json)).

Abbreviation dict := (list (string * json)).

(** [d.get(key)]: an absent key gives [None], which is [JNull]. *)
Fixpoint dict_get (d : dict) (key : string) : json :=
  match d with
  | [] => JNull
  | (k, v) :: rest => if String.eqb k key then v else dict_get rest key
  end.

(** [bool(v)]. *)
Definition truthy (v : json) : bool :=
  match v with
  | JNull => false
  | JBool b => b
  | JInt n => negb (n =? 0)
  | JFloat (S754_zero _) => false
  | JFloat _ => true
  | JStr s => Py.truthy s
  | JList items => match items with [] => false | _ => true end
  | JDict members => match members with [] => false | _ => true end
  end.

(** [a or b]. *)
Definition py_or (a b : json) : json := if truthy a then a else b.

Inductive exn_kind : Type :=
  | AttributeError | TypeError | ValueError | RuntimeError
  | FileNotFoundError | TimeoutExpired
  | PermissionError | NotADirectoryError | OtherOSError.

(** An exception and its message, [str(exc)]. *)
Record exn : Type := Exn { kind : exn_kind; text : string }.

(** What [json.loads] does with the text of standard input: it decodes
    it, rejects it with [json.JSONDecodeError], or raises something else (a
    plain [ValueError] for an integer literal beyond the digit limit, a
    [RecursionError] for a document nested too deep). *)
Inductive loads_result : Type :=
  | Decoded (v : json)
  | DecodeError (message : string)
  | LoadsRaised (e : exn).

(** What [subprocess.run(..., check=False)] does: it completes with a
    return code and the captured streams, or raises. *)
Inductive run_result : Type :=
  | Completed (returncode : Z) (stdout stderr : string)
  | RunRaised (e : exn).

(** The services of the interpreter and of the operating system. The
    timeout of [subprocess.run] is part of [subprocess_run]: an expired
    timeout is [RunRaised] with [TimeoutExpired]. *)
Record Host : Type := {
  environ : gmap string string;
  stdin : string;
  getcwd : Path.t;
  exists_ : string -> bool;               (* Path.exists, by posix name *)
  expanduser : string -> string;          (* os.path.expanduser *)
  which : string -> option string;        (* shutil.which *)
  subprocess_run : list string -> Path.t -> run_result;
  realpath : string -> exn + string;      (* os.path.realpath of a text without NUL *)
  int_max_str_digits : nat;               (* sys.get_int_max_str_digits() *)
  json_loads : string -> loads_result;
  fnmatch : string -> string -> bool;     (* fnmatch.fnmatch name pattern *)
  repr : string -> string;
  shlex_split : string -> exn + list string;
  shlex_join : list string -> string
}.

(** ** Effects: a trace of what the process did, and exceptions *)

Inductive event : Type :=
  | Log (message : string)                      (* debug_log, best effort *)
  | Run (command : list string) (cwd : Path.t)  (* subprocess.run *)
  | Stderr (document : json).                   (* print(json.dumps(d), file=sys.stderr) *)

Definition M (A : Type) : Type := list event -> (exn + A) * list event.

Definition ret {A} (a : A) : M A := fun tr => (inr a, tr).

Definition raise {A} (e : exn) : M A := fun tr => (inl e, tr).

Definition bind {A B} (m : M A) (k : A -> M B) : M B :=
  fun tr => match m tr with
            | (inr a, tr') => k a tr'
            | (inl e, tr') => (inl e, tr')
            end.

Definition emit (e : event) : M unit := fun tr => (inr tt, tr ++ [e]).

(** A pure computation that may raise. *)
Definition lift {A} (r : exn + A) : M A :=
  match r with inr a => ret a | inl e => raise e end.

(** A [for] loop over [items] that updates [state] and stops at the first
    exception. *)
Fixpoint for_each {A S} (body : S -> A -> exn + S) (items : list A) (state : S)
  : exn + S :=
  match items with
  | [] => inr state
  | item :: rest =>
      match body state item with
      | inl e => inl e
      | inr state' => for_each body rest state'
      end
  end.

Declare Scope hook_scope.
Delimit Scope hook_scope with hook.
Notation "x <- c1 ;; c2" := (bind c1 (fun x => c2))
  (at level 100, c1 at next level, right associativity) : hook_scope.
Notation "c1 ;;; c2" := (bind c1 (fun _ => c2))
  (at level 100, right associativity) : hook_scope.

(** [debug_log]: appends a line to the log file; any failure is swallowed,
    so it never raises. *)
Definition debug_log (message : string) : M unit := emit (Log message).

(** ** The script *)

(** The module-level constants, computed once when the script is loaded.
    [DEBUG_LOG_FILE] only names where [debug_log] writes and
    [DEFAULT_TIMEOUT] only bounds [subprocess.run]; both live in the host. *)
Record Globals : Type := {
  TOKEN_FILE : Path.t;
  DEFAULT_MAX_RESULTS : Z
}.

(** [v == s] for a string literal [s]. *)
Definition eq_str (v : json) (s : string) : bool :=
  match v with JStr s' => String.eqb s' s | _ => false end.

Definition opt_truthy (o : option string) : bool :=
  match o with Some s => Py.truthy s | None => false end.

(** [a or b] on a string. *)
Definition str_or (a b : string) : string := if Py.truthy a then a else b.

Definition newline : ascii := ascii_of_N 10.
Definition colon : ascii := ":"%char.

(** The lookahead [(?=:\d)]. *)
Definition colon_digit (s : string) : bool :=
  match s with
  | String c1 (String c2 _) => Ascii.eqb c1 colon && Py.isdecimal c2
  | _ => false
  end.

(** How many more characters the lazy [.+?] takes before the lookahead
    holds; [.] matches anything but a newline. *)
Fixpoint lazy_more (s : string) : option nat :=
  if colon_digit s then Some O
  else match s with
       | EmptyString => None
       | String c r =>
           if Ascii.eqb c newline then None else option_map S (lazy_more r)
       end.

(** [PATH_TOKEN.search(line)] and the group [path] of the match:
    [^(?P<path>.+?)(?=:\d)], anchored at the start of [line]. *)
Definition PATH_TOKEN (line : string) : option string :=
  match line with
  | EmptyString => None
  | String c r =>
      if Ascii.eqb c newline then None
      else match lazy_more r with
           | Some k => Some (Py.slice_to (S k) line)
           | None => None
           end
  end.

Section Hook.

Variable h : Host.

Definition _env_int (name : string) (default : Z) : Z :=
  match environ h !! name with
  | None => default
  | Some value =>
      match Py.int (int_max_str_digits h) value with
      | Some n => n
      | None => default
      end
  end.

(** [Path.resolve()]. The text of the path goes to [os.path.realpath],
    which follows symbolic links and raises [ValueError] when the text
    holds a null character; what it returns is an absolute path in normal
    form and is read as one. Any other exception of the call (a loop of
    symbolic links) is the host's. *)
Definition resolve (p : Path.t) : exn + Path.t :=
  if Py.has_nul (Path.as_posix p)
  then inl (Exn ValueError "embedded null byte")
  else match realpath h (Path.as_posix p) with
       | inl e => inl e
       | inr real => inr (Path.normalize (Path.mk "/" []) (Path.parse real))
       end.

(** [Path.expanduser]. *)
Definition path_expanduser (p : Path.t) : exn + Path.t :=
  match Path.root p, Path.parts p with
  | EmptyString, first :: rest =>
      if Py.startswith first "~" then
        let homedir := expanduser h first in
        if Py.startswith homedir "~"
        then inl (Exn RuntimeError "Could not determine home directory.")
        else let q := Path.parse homedir in
             inr (Path.mk (Path.root q) (Path.parts q ++ rest))
      else inr p
  | _, _ => inr p
  end.

(** Loading the module: [Path.home()] is [Path("~").expanduser()]. *)
Definition load_globals : exn + Globals :=
  match path_expanduser (Path.parse "~") with
  | inl e => inl e
  | inr home =>
      inr {| TOKEN_FILE := Path.join_str (Path.join_str home ".mgrep") "token.json";
             DEFAULT_MAX_RESULTS := _env_int "MGREP_HOOK_MAX_RESULTS" 20 |}
  end.

Definition read_hook_input : M (option json) :=
  let raw := stdin h in
  if negb (Py.truthy (Py.strip raw)) then ret None
  else match json_loads h raw with
       | Decoded v => ret (Some v)
       | DecodeError exc =>
           (debug_log ("Failed to decode JSON: " +:+ exc) ;;; ret None)%hook
       | LoadsRaised e => raise e
       end.

Fixpoint normalize_entries (entries : list json) (patterns : list string)
  : list string :=
  match entries with
  | [] => patterns
  | JStr entry :: rest =>
      let entry := Py.strip entry in
      normalize_entries rest
        (if Py.truthy entry then patterns ++ [entry] else patterns)
  | _ :: rest => normalize_entries rest patterns
  end.

(** A [dict] is iterable too: iterating it yields its keys. *)
Definition normalize_globs (value : json) : list string :=
  match value with
  | JStr value =>
      let pattern := Py.strip value in
      if Py.truthy pattern then [pattern] else []
  | JList entries => normalize_entries entries []
  | JDict members => normalize_entries (map (fun kv => JStr (fst kv)) members) []
  | _ => []
  end.

Definition resolve_workspace (payload : dict) : exn + Path.t :=
  match dict_get payload "cwd" with
  | JStr cwd_value =>
      if Py.truthy (Py.strip cwd_value) then
        match path_expanduser (Path.parse cwd_value) with
        | inl e => inl e
        | inr cwd_path =>
            if exists_ h (Path.as_posix cwd_path)
            then resolve cwd_path
            else resolve (getcwd h)
        end
      else resolve (getcwd h)
  | _ => resolve (getcwd h)
  end.

Definition resolve_scope_path (tool_input : dict) (workspace : Path.t)
  : exn + Path.t :=
  match dict_get tool_input "path" with
  | JStr raw_path =>
      if Py.truthy (Py.strip raw_path) then
        match path_expanduser (Path.parse raw_path) with
        | inl e => inl e
        | inr candidate =>
            if negb (Path.is_absolute candidate)
            then resolve (Path.join workspace candidate)
            else inr candidate
        end
      else inr workspace
  | _ => inr workspace
  end.

Definition describe_scope (scope workspace : Path.t) : string :=
  match Path.relative_to scope workspace with
  | Some rel => str_or (Path.as_posix rel) "."
  | None => Path.as_posix scope
  end.

Definition compute_cli_path_arg (scope workspace : Path.t) : option string :=
  match Path.relative_to scope workspace with
  | Some rel =>
      let rel_text := Path.as_posix rel in
      if negb (Py.truthy rel_text) || String.eqb rel_text "." then None
      else Some rel_text
  | None => Some (Path.as_posix scope)
  end.

(** [p.parent]. *)
Definition parent (p : Path.t) : Path.t :=
  Path.mk (Path.root p) (removelast (Path.parts p)).

Definition resolve_mgrep_command : exn + option (list string) :=
  match environ h !! "MGREP_BIN" with
  | Some (String c r as override) =>
      match shlex_split h override with
      | inl e => inl e
      | inr words => inr (Some words)
      end
  | _ =>
      match which h "mgrep" with
      | Some (String c r as binary) => inr (Some [binary])
      | _ =>
          match environ h !! "CLAUDE_PLUGIN_ROOT" with
          | Some (String c r as plugin_root) =>
              match resolve (Path.parse plugin_root) with
              | inl e => inl e
              | inr plugin_path =>
                  let repo_root := parent (parent plugin_path) in
                  let candidate :=
                    Path.join_str (Path.join_str repo_root "dist") "index.js" in
                  if exists_ h (Path.as_posix candidate)
                  then inr (Some ["node"; Path.as_posix candidate])
                  else inr None
              end
          | _ => inr None
          end
      end
  end.

Variable g : Globals.

(** The text of the [ValueError] that [int(value)] raises. *)
Definition int_error (value : string) : string :=
  if Py.over_limit (int_max_str_digits h) value then
    "Exceeds the limit ("
    +:+ Py.str_of_int (Z.of_nat (int_max_str_digits h))
    +:+ " digits) for integer string conversion: value has "
    +:+ Py.str_of_int (Z.of_nat (Py.scanned_digits (Py.int_digits value)))
    +:+ " digits; use sys.set_int_max_str_digits() to increase the limit"
  else "invalid literal for int() with base 10: " +:+ repr h value.

Fixpoint parse_max_results_keys (keys : list string) (tool_input : dict)
  : exn + Z :=
  match keys with
  | [] => inr (DEFAULT_MAX_RESULTS g)
  | key :: rest =>
      match dict_get tool_input key with
      | JInt value => inr (Py.clamp value)
      | JBool value => inr (Py.clamp (if value then 1 else 0))
      | JStr value =>
          if Py.isdigit value then
            match Py.int (int_max_str_digits h) value with
            | Some n => inr (Py.clamp n)
            | None => inl (Exn ValueError (int_error value))
            end
          else parse_max_results_keys rest tool_input
      | _ => parse_max_results_keys rest tool_input
      end
  end.

(** A [bool] is an [int] for [isinstance]. *)
Definition parse_max_results (tool_input : dict) : exn + Z :=
  parse_max_results_keys ["--max-count"; "-m"; "max_count"] tool_input.

(** [re.match(r"^[A-Za-z]:", rel)]. *)
Definition drive_letter (rel : string) : bool :=
  match rel with
  | String c1 (String c2 _) =>
      let n := Py.code c1 in
      ((65 <=? n) && (n <=? 90) || (97 <=? n) && (n <=? 122))%N
      && Ascii.eqb c2 colon
  | _ => false
  end.

(** Lines 152-155: the path the token names. An absolute token is taken
    as it is written; a relative one is joined to the workspace and
    resolved, which can raise. *)
Definition absolute_of (rel : string) (workspace : Path.t) : exn + Path.t :=
  if Py.startswith rel "/" || drive_letter rel then inr (Path.parse rel)
  else resolve (Path.join_str workspace rel).

(** Lines 157-160: that path relative to the workspace when it lies
    under it, the path itself otherwise. *)
Definition relative_text (abs_path workspace : Path.t) : string :=
  match Path.relative_to abs_path workspace with
  | Some rel => Path.as_posix rel
  | None => Path.as_posix abs_path
  end.

(** Lines 145-150: the token without its leading ["./"] or ["."]. *)
Definition undotted (cleaned : string) : string :=
  if Py.startswith cleaned "./" then str_or (Py.slice_from 2 cleaned) "."
  else if Py.startswith cleaned "." then str_or (Py.slice_from 1 cleaned) "."
  else cleaned.

(** Lines 135-140: the text of the leading path token, if any. *)
Definition raw_token (line : string) : option string :=
  let raw_path := PATH_TOKEN line in
  if negb (opt_truthy raw_path) then
    match Py.find colon line with
    | Some colon_idx => Some (Py.slice_to colon_idx line)
    | None => raw_path
    end
  else raw_path.

Definition extract_paths (line : string) (workspace : Path.t)
  : exn + (option string * option string * option string) :=
  let raw_path := raw_token line in
  if negb (opt_truthy raw_path) then inr (None, None, None)
  else
    let cleaned := Py.strip (default "" raw_path) in
    let rel := undotted cleaned in
    match absolute_of rel workspace with
    | inl e => inl e
    | inr abs_path =>
        let rel_path := relative_text abs_path workspace in
        let display_path :=
          if Py.startswith cleaned "." then cleaned else rel_path in
        inr (Some display_path, Some rel_path, Some (Path.as_posix abs_path))
    end.

(** [any(val and fnmatch.fnmatch(val, pattern)
         for pattern in patterns for val in values)]. *)
Definition any_match (values : list (option string)) (patterns : list string)
  : bool :=
  existsb (fun pattern =>
    existsb (fun val =>
      match val with
      | Some val => Py.truthy val && fnmatch h val pattern
      | None => false
      end) values) patterns.

(** The body of the loop of [filter_by_glob], on the list built so far. *)
Definition filter_step (patterns : list string) (workspace : Path.t)
    (filtered : list string) (line : string) : exn + list string :=
  match extract_paths line workspace with
  | inl e => inl e
  | inr (_, rel_path, abs_path) =>
      if negb (opt_truthy rel_path) && negb (opt_truthy abs_path)
      then inr (filtered ++ [line])
      else if any_match [rel_path; abs_path] patterns
           then inr (filtered ++ [line])
           else inr filtered
  end.

Definition filter_by_glob (lines patterns : list string) (workspace : Path.t)
  : exn + list string :=
  match patterns with
  | [] => inr lines
  | _ => for_each (filter_step patterns workspace) lines []
  end.

(** [display_path or rel_path or abs_path or line]. *)
Definition best_value (line : string) (workspace : Path.t) : exn + string :=
  match extract_paths line workspace with
  | inl e => inl e
  | inr (display_path, rel_path, abs_path) =>
      inr (if opt_truthy display_path then default "" display_path
           else if opt_truthy rel_path then default "" rel_path
           else if opt_truthy abs_path then default "" abs_path
           else line)
  end.

(** The body of the loop of [build_payload], on the values seen so far. *)
Definition seen_step (workspace : Path.t) (seen : list string) (line : string)
  : exn + list string :=
  match best_value line workspace with
  | inl e => inl e
  | inr value =>
      inr (if existsb (String.eqb value) seen then seen else seen ++ [value])
  end.

Definition header_of (pattern scope_label : string) : string :=
  "MGrep semantic search for " +:+ repr h pattern +:+ " in " +:+ scope_label.

Definition build_payload (lines : list string) (pattern scope_label output_mode : string)
    (workspace : Path.t) : exn + string :=
  let header := header_of pattern scope_label in
  match lines with
  | [] => inr (header +:+ String newline "No semantic matches found.")
  | _ =>
      if String.eqb output_mode "paths" then
        match for_each (seen_step workspace) lines [] with
        | inl e => inl e
        | inr seen => inr (header +:+ String newline (Py.join (String newline "") seen))
        end
      else inr (header +:+ String newline (Py.join (String newline "") lines))
  end.

Definition run_mgrep (command : list string) (cwd : Path.t) : M (option string) :=
  (emit (Run command cwd) ;;;
   match subprocess_run h command cwd with
   | RunRaised exc =>
       match kind exc with
       | FileNotFoundError | TimeoutExpired =>
           debug_log ("mgrep execution failed: " +:+ text exc) ;;; ret None
       | _ => raise exc
       end
   | Completed returncode stdout stderr =>
       if negb (returncode =? 0) then
         debug_log ("mgrep exited with " +:+ Py.str_of_int returncode
                    +:+ ": " +:+ Py.strip stderr) ;;; ret None
       else ret (Some stdout)
   end)%hook.

Definition is_disabled : bool :=
  match environ h !! "MGREP_HOOK_DISABLE" with
  | Some value =>
      Py.truthy value
      && existsb (String.eqb (Py.lower value)) ["1"; "true"; "yes"; "on"]
  | None => false
  end.

(** [str.splitlines] boundaries among the code points below 256. *)
Definition is_linebreak (c : ascii) : bool :=
  let n := Py.code c in
  ((10 <=? n) && (n <=? 13) || (28 <=? n) && (n <=? 30) || (n =? 133))%N.

Definition carriage_return : ascii := ascii_of_N 13.

Fixpoint splitlines (s : string) : list string :=
  match s with
  | EmptyString => []
  | String c r =>
      if is_linebreak c then
        match r with
        | String c2 r2 =>
            if Ascii.eqb c carriage_return && Ascii.eqb c2 newline
            then EmptyString :: splitlines r2
            else EmptyString :: splitlines r
        | EmptyString => [EmptyString]
        end
      else match splitlines r with
           | [] => [String c EmptyString]
           | l :: ls => String c l :: ls
           end
  end.

(** Lines 260-262. Testing membership in a set hashes the value, and a
    list or a dict cannot be hashed. *)
Definition resolve_output_mode (tool_input : dict) : exn + string :=
  match py_or (dict_get tool_input "output_mode") (JStr "content") with
  | JStr output_mode =>
      if String.eqb output_mode "content" || String.eqb output_mode "paths"
      then inr output_mode else inr "content"
  | JList _ => inl (Exn TypeError "unhashable type: 'list'")
  | JDict _ => inl (Exn TypeError "unhashable type: 'dict'")
  | _ => inr "content"
  end.

(** Lines 267-276: the argument vector, built by appending in place. *)
Definition build_command (command_prefix : list string) (case_insensitive : bool)
    (max_results : Z) (store_override : option string) (pattern : string)
    (path_arg : option string) : list string :=
  let command := command_prefix ++ ["search"] in
  let command := if case_insensitive then command ++ ["-i"] else command in
  let command :=
    if negb (max_results =? 0)
    then command ++ ["-m"; Py.str_of_int max_results] else command in
  let command :=
    if opt_truthy store_override
    then command ++ ["--store"; default "" store_override] else command in
  let command := command ++ [pattern] in
  let command :=
    if opt_truthy path_arg then command ++ [default "" path_arg] else command in
  command.

Definition hook_response (payload_text : string) : json :=
  JDict [("hookSpecificOutput",
          JDict [("hookEventName", JStr "PreToolUse");
                 ("permissionDecision", JStr "deny");
                 ("permissionDecisionReason", JStr "Semantic search completed by mgrep");
                 ("additionalContext", JStr payload_text)])].

(** Lines 240-297: what [main] does once the request has been accepted. *)
Definition intercept (payload tool_input : dict) (pattern : string) : M Z :=
  (if is_disabled then
     debug_log "MGREP_HOOK_DISABLE is set; skipping" ;;; ret 0
   else if negb (exists_ h (Path.as_posix (TOKEN_FILE g))) then
     debug_log "No ~/.mgrep/token.json found; skipping mgrep" ;;; ret 0
   else
     command_prefix <- lift resolve_mgrep_command ;;
     match command_prefix with
     | None | Some [] =>
         debug_log "Cannot resolve mgrep binary; skipping" ;;; ret 0
     | Some command_prefix =>
         workspace <- lift (resolve_workspace payload) ;;
         scope <- lift (resolve_scope_path tool_input workspace) ;;
         let scope_label := describe_scope scope workspace in
         let path_arg := compute_cli_path_arg scope workspace in
         let case_insensitive :=
           truthy (py_or (dict_get tool_input "-i")
                         (dict_get tool_input "--ignore-case")) in
         max_results <- lift (parse_max_results tool_input) ;;
         output_mode <- lift (resolve_output_mode tool_input) ;;
         let glob_patterns := normalize_globs (dict_get tool_input "glob") in
         let store_override := environ h !! "MGREP_STORE" in
         let command :=
           build_command command_prefix case_insensitive max_results
                         store_override pattern path_arg in
         debug_log ("Running command: " +:+ shlex_join h command
                    +:+ " (cwd=" +:+ Path.as_posix workspace +:+ ")") ;;;
         stdout <- run_mgrep command workspace ;;
         match stdout with
         | None => ret 0
         | Some stdout =>
             let lines :=
               List.filter (fun line => Py.truthy (Py.strip line))
                           (splitlines stdout) in
             lines <- lift (filter_by_glob lines glob_patterns workspace) ;;
             payload_text <-
               lift (build_payload lines pattern scope_label output_mode workspace) ;;
             emit (Stderr (hook_response payload_text)) ;;; ret 2
         end
     end)%hook.

(** Lines 226-238: the request is read and checked; [None] is a skip. *)
Definition accept (payload : option json) : exn + option (dict * dict * string) :=
  match payload with
  | None => inr None
  | Some payload =>
      if negb (truthy payload) then inr None
      else match payload with
           | JDict payload =>
               if negb (eq_str (dict_get payload "tool_name") "Grep") then inr None
               else match dict_get payload "tool_input" with
                    | JDict tool_input =>
                        match dict_get tool_input "pattern" with
                        | JStr pattern =>
                            if negb (Py.truthy (Py.strip pattern)) then inr None
                            else inr (Some (payload, tool_input, pattern))
                        | _ => inr None
                        end
                    | _ => inr None
                    end
           | _ => inl (Exn AttributeError "object has no attribute 'get'")
           end
  end.

Definition main : M Z :=
  (payload <- read_hook_input ;;
   request <- lift (accept payload) ;;
   match request with
   | None => ret 0
   | Some (payload, tool_input, pattern) => intercept payload tool_input pattern
   end)%hook.

End Hook.

(** How the process ends: [sys.exit(main())], or an uncaught exception. *)
Inductive outcome : Type :=
  | Exit (code : Z)
  | Crash (e : exn).

(** Running the script: the module is loaded, then [main] runs. *)
Definition run_script (h : Host) : outcome * list event :=
  match load_globals h with
  | inl e => (Crash e, [])
  | inr g =>
      match main h g [] with
      | (inr code, tr) => (Exit code, tr)
      | (inl e, tr) => (Crash e, tr)
      end
  end.

(** ** Concrete hosts for examples *)

(** [fnmatch.fnmatchcase] for patterns without brackets: [*] matches any
    run of characters and [?] any one character. *)
Fixpoint wildcard (pattern : string) : string -> bool :=
  match pattern with
  | EmptyString => fun name => negb (Py.truthy name)
  | String c rest =>
      if Ascii.eqb c "*" then
        fix star (name : string) : bool :=
          wildcard rest name
          || match name with
             | EmptyString => false
             | String _ name' => star name'
             end
      else if Ascii.eqb c "?" then
        fun name => match name with
                    | EmptyString => false
                    | String _ name' => wildcard rest name'
                    end
      else
        fun name => match name with
                    | EmptyString => false
                    | String d name' => Ascii.eqb c d && wildcard rest name'
                    end
  end.

(** A host in which the token file exists, [mgrep] is on the search path,
    the home directory is [/home/u], the current directory is [/ws] and no
    file is a symbolic link, so that the real path is the normal form:
    [env] is the environment, [request] what standard input decodes to and
    [result] what running the command does. *)
Definition demo_host (env : gmap string string) (request : json)
    (result : run_result) : Host :=
  {| environ := env;
     stdin := "{}";
     getcwd := Path.parse "/ws";
     exists_ := fun _ => true;
     expanduser := fun s =>
       match s with
       | String "~" EmptyString => "/home/u"
       | _ => s
       end;
     which := fun name => Some ("/usr/bin/" +:+ name);
     subprocess_run := fun _ _ => result;
     realpath := fun s =>
       inr (Path.as_posix (Path.normalize (Path.parse "/ws") (Path.parse s)));
     int_max_str_digits := 4300;
     json_loads := fun _ => Decoded request;
     fnmatch := fun name pattern => wildcard pattern name;
     repr := fun s => "'" +:+ s +:+ "'";
     shlex_split := fun s => inr [s];
     shlex_join := Py.join " " |}.

Definition grep_request (tool_input : dict) : json :=
  JDict [("tool_name", JStr "Grep"); ("tool_input", JDict tool_input)].

Definition demo_globals : Globals :=
  {| TOKEN_FILE := Path.parse "/home/u/.mgrep/token.json";
     DEFAULT_MAX_RESULTS := 20 |}.

Definition ws : Path.t := Path.parse "/ws".

Definition nl : string := String newline EmptyString.

(** ** The specification's wording, as definitions *)

(** The path token of the line can be resolved: [extract_paths] returns. *)
Definition extracts (h : Host) (workspace : Path.t) (line : string) : Prop :=
  exists paths, extract_paths h line workspace = inr paths.

(** What the first line whose token cannot be resolved raises. *)
Fixpoint first_raise (h : Host) (workspace : Path.t) (lines : list string)
  : option exn :=
  match lines with
  | [] => None
  | line :: rest =>
      match extract_paths h line workspace with
      | inl e => Some e
      | inr _ => first_raise h workspace rest
      end
  end.

(** A line has an extractable path when it has a path token. *)
Definition has_path (line : string) : bool := opt_truthy (raw_token line).

(** The relative path or the absolute path of the line matches [pattern]. *)
Definition path_matches (h : Host) (line : string) (workspace : Path.t)
    (pattern : string) : bool :=
  match extract_paths h line workspace with
  | inr (_, rel_path, abs_path) =>
      match rel_path with Some r => fnmatch h r pattern | None => false end
      || match abs_path with Some a => fnmatch h a pattern | None => false end
  | inl _ => false
  end.

(** A line survives glob filtering when it has no extractable path, or one
    of its two path forms matches at least one configured pattern. *)
Definition survives (h : Host) (patterns : list string) (workspace : Path.t)
    (line : string) : bool :=
  negb (has_path line) || existsb (path_matches h line workspace) patterns.

(** The best display value of a line whose token can be resolved; the raw
    line stands for the others. *)
Definition value_of (h : Host) (workspace : Path.t) (line : string) : string :=
  match best_value h line workspace with
  | inr value => value
  | inl _ => line
  end.

(** Resolving is stable: a path that [resolve] has returned resolves to
    itself, as on a file system that does not change between the calls. *)
Definition stable_resolve (h : Host) : Prop :=
  forall p q, resolve h p = inr q -> resolve h q = inr q.

(** The string of [n] copies of a character. *)
Fixpoint replicate_char (n : nat) (c : ascii) : string :=
  match n with
  | O => EmptyString
  | S n' => String c (replicate_char n' c)
  end.

(** The null character, and a result line whose path token holds it. *)
Definition NUL : ascii := ascii_of_N 0.

Definition null_token : string := String "a" (String NUL ".go").

Definition null_line : string := null_token +:+ ":1:hit".

Definition differs (x : string) : string -> bool :=
  fun y => negb (String.eqb y x).

Definition not_in (seen : list string) : string -> bool :=
  fun y => negb (existsb (String.eqb y) seen).

(** The values of a list, each kept at its first occurrence only. *)
Fixpoint first_occurrences (l : list string) : list string :=
  match l with
  | [] => []
  | x :: rest => x :: List.filter (differs x) (first_occurrences rest)
  end.

(** The four-field shape of the specification's [HookResponse]. *)
Definition is_HookResponse (d : json) : bool :=
  match d with
  | JDict [(k1, JStr v1); (k2, JStr v2); (k3, JStr _); (k4, JStr _)] =>
      String.eqb k1 "hookEventName" && String.eqb v1 "PreToolUse"
      && String.eqb k2 "permissionDecision" && String.eqb v2 "deny"
      && String.eqb k3 "permissionDecisionReason"
      && String.eqb k4 "additionalContext"
  | _ => false
  end.

(** The documents written to standard error, in order. *)
Fixpoint stderr_of (tr : list event) : list json :=
  match tr with
  | [] => []
  | Stderr d :: rest => d :: stderr_of rest
  | _ :: rest => stderr_of rest
  end.

(** The commands run, in order. *)
Fixpoint commands_of (tr : list event) : list (list string) :=
  match tr with
  | [] => []
  | Run command _ :: rest => command :: commands_of rest
  | _ :: rest => commands_of rest
  end.

(** The aliases of [max_results], in the order they are consulted. *)
Definition ALIASES : list string := ["--max-count"; "-m"; "max_count"].

(** An alias holds the number [n]: an integer (a JSON boolean is one for
    [isinstance]) or a digit-only string that [int] reads. *)
Inductive holds_number (limit : nat) : json -> Z -> Prop :=
  | holds_int n : holds_number limit (JInt n) n
  | holds_bool b : holds_number limit (JBool b) (if b then 1 else 0)
  | holds_digits s n :
      Py.isdigit s = true -> Py.int limit s = Some n ->
      holds_number limit (JStr s) n.

(** An alias holds a digit-only string that [int] does not read: one with
    a superscript digit, or with more digits than the conversion limit. *)
Definition holds_unreadable (limit : nat) (v : json) : Prop :=
  match v with
  | JStr s => Py.isdigit s = true /\ Py.int limit s = None
  | _ => False
  end.

(** An alias holds nothing usable: it is absent, or neither an integer
    nor a digit-only string. *)
Definition unusable (v : json) : Prop :=
  match v with
  | JInt _ | JBool _ => False
  | JStr s => Py.isdigit s = false
  | _ => True
  end.

(** A host whose environment sets the default of [max_results]. *)
Definition env_max_results (value : string) : gmap string string :=
  {[ "MGREP_HOOK_MAX_RESULTS" := value ]}.

(** The [pattern] member of the request's [tool_input], [JNull] when there
    is no such member or [tool_input] is not an object. *)
Definition pattern_of (payload : dict) : json :=
  match dict_get payload "tool_input" with
  | JDict tool_input => dict_get tool_input "pattern"
  | _ => JNull
  end.

(** The pattern is absent, not a string, or whitespace only. *)
Definition blank_pattern (v : json) : Prop :=
  match v with
  | JStr s => Py.strip s = ""
  | _ => True
  end.

(** ** Notions used by the further properties *)

(** The request [main] accepts from standard input, if any: what lines
    226-238 leave in [payload], [tool_input] and [pattern]. *)
Definition request_of (h : Host) : option (dict * dict * string) :=
  if negb (Py.truthy (Py.strip (stdin h))) then None
  else match json_loads h (stdin h) with
       | Decoded v =>
           match accept (Some v) with
           | inr (Some request) => Some request
           | _ => None
           end
       | _ => None
       end.

(** The command failed in one of the ways [run_mgrep] recognises: the
    binary was not found, the timeout expired, or the return code is not
    zero. *)
Definition recognised_failure (res : run_result) : Prop :=
  match res with
  | Completed rc _ _ => rc <> 0
  | RunRaised exc => kind exc = FileNotFoundError \/ kind exc = TimeoutExpired
  end.

(** The working directories of the commands run, in order. *)
Fixpoint cwds_of (tr : list event) : list Path.t :=
  match tr with
  | [] => []
  | Run _ cwd :: rest => cwd :: cwds_of rest
  | _ :: rest => cwds_of rest
  end.

(** [h] with another file system: [present] tells which paths exist. *)
Definition with_files (present : string -> bool) (h : Host) : Host :=
  {| environ := environ h; stdin := stdin h; getcwd := getcwd h;
     exists_ := present; expanduser := expanduser h; which := which h;
     subprocess_run := subprocess_run h; realpath := realpath h;
     int_max_str_digits := int_max_str_digits h; json_loads := json_loads h;
     fnmatch := fnmatch h; repr := repr h; shlex_split := shlex_split h;
     shlex_join := shlex_join h |}.

(** [h] with another search path: [lookup] is [shutil.which]. *)
Definition with_which (lookup : string -> option string) (h : Host) : Host :=
  {| environ := environ h; stdin := stdin h; getcwd := getcwd h;
     exists_ := exists_ h; expanduser := expanduser h; which := lookup;
     subprocess_run := subprocess_run h; realpath := realpath h;
     int_max_str_digits := int_max_str_digits h; json_loads := json_loads h;
     fnmatch := fnmatch h; repr := repr h; shlex_split := shlex_split h;
     shlex_join := shlex_join h |}.

(** The request of the examples, as [main] accepts it. *)
Definition foo_payload : dict :=
  [("tool_name", JStr "Grep"); ("tool_input", JDict [("pattern", JStr "foo")])].

(** A string that does not begin with white space. *)
Definition no_leading_space (s : string) : Prop :=
  match s with
  | EmptyString => True
  | String c _ => Py.isspace c = false
  end.

(** The string entries of a list of JSON values, in order. *)
Fixpoint strings_of (entries : list json) : list string :=
  match entries with
  | [] => []
  | JStr s :: rest => s :: strings_of rest
  | _ :: rest => strings_of rest
  end.

(** The string holds no colon. *)
Definition no_colon (s : string) : bool :=
  Py.all_chars (fun c => negb (Ascii.eqb c colon)) s.

(** The string holds no newline. *)
Definition no_newline (s : string) : bool :=
  Py.all_chars (fun c => negb (Ascii.eqb c newline)) s.

(** The string holds no line boundary of [str.splitlines]. *)
Definition one_line (s : string) : bool :=
  Py.all_chars (fun c => negb (is_linebreak c)) s.

(** Line 283: the lines of the command's output that are not blank. *)
Definition output_lines (stdout : string) : list string :=
  List.filter (fun line => Py.truthy (Py.strip line)) (splitlines stdout).

(** A case-insensitive request, and a host whose command fails with 1. *)
Definition ci_input : dict := [("pattern", JStr "foo"); ("-i", JBool true)].

Definition ci_payload : dict :=
  [("tool_name", JStr "Grep"); ("tool_input", JDict ci_input)].

Definition ci_host : Host := demo_host ∅ (JDict ci_payload) (Completed 1 "" "boom").
(** ** Sanity checks of the text and path layers *)

Example int_plain : Py.int 4300 "42" = Some 42.
Proof. reflexivity. Qed.

Example int_blank_sign_underscore : Py.int 4300 " -1_000 " = Some (-1000).
Proof. reflexivity. Qed.

Example int_superscript_two :
  Py.isdigit (String (ascii_of_N 178) "") = true
  /\ Py.int 4300 (String (ascii_of_N 178) "") = None.
Proof. split; reflexivity. Qed.

(** [str.strip] drops the unit separator U+001F, [int] does not; both
    drop the no-break space U+00A0. *)
Example int_unit_separator :
  Py.strip (String (ascii_of_N 31) "12") = "12"
  /\ Py.int 4300 (String (ascii_of_N 31) "12") = None
  /\ Py.int 4300 (String (ascii_of_N 160) "12") = Some 12.
Proof. repeat split; reflexivity. Qed.

(** A numeral of 4301 digits is over the default limit of 4300, one of
    4300 digits is not, and without a limit both are read. *)
Example int_digit_limit :
  Py.isdigit (replicate_char 4301 "1") = true
  /\ Py.int 4300 (replicate_char 4301 "1") = None
  /\ Py.int 4300 (replicate_char 4300 "1") <> None
  /\ Py.int 0 (replicate_char 4301 "1") <> None.
Proof. repeat split; vm_compute; congruence. Qed.

Example str_of_int_examples :
  Py.str_of_int 20 = "20" /\ Py.str_of_int 0 = "0" /\ Py.str_of_int (-3) = "-3".
Proof. repeat split; reflexivity. Qed.

Example strip_example : Py.strip "  a b  " = "a b" /\ Py.strip "   " = "".
Proof. split; reflexivity. Qed.

Example parse_ws : Path.parse "/ws//a/./b/" = Path.mk "/" ["ws"; "a"; "b"].
Proof. reflexivity. Qed.

Example parse_two_slashes : Path.parse "//srv/x" = Path.mk "//" ["srv"; "x"].
Proof. reflexivity. Qed.

Example normalize_dotdot :
  Path.as_posix (Path.normalize (Path.parse "/home/u")
                   (Path.join_str (Path.parse "/ws") "a/../../b.py")) = "/b.py".
Proof. reflexivity. Qed.

Example relative_to_ok :
  Path.relative_to (Path.parse "/ws/a/b.py") (Path.parse "/ws")
  = Some (Path.mk "" ["a"; "b.py"]).
Proof. reflexivity. Qed.

Example wildcard_examples :
  wildcard "*.go" "a.go" = true /\ wildcard "*.go" "b.ts" = false
  /\ wildcard "?.go" "/ws/a.go" = false /\ wildcard "*/a.go" "/ws/a.go" = true.
Proof. repeat split; reflexivity. Qed.

Example load_globals_demo :
  load_globals (demo_host ∅ JNull (Completed 0 "" "")) = inr demo_globals.
Proof. reflexivity. Qed.

(** Where no file is a symbolic link, resolving is taking the normal
    form; a null character in the path raises whatever the file system. *)
Example resolve_examples :
  resolve (demo_host ∅ JNull (Completed 0 "" "")) (Path.parse "/ws/a/../b.py")
  = inr (Path.parse "/ws/b.py")
  /\ resolve (demo_host ∅ JNull (Completed 0 "" ""))
       (Path.join_str ws (String "a" (String NUL "b")))
     = inl (Exn ValueError "embedded null byte").
Proof. split; reflexivity. Qed.

(** A relative [path] of the request that holds a null character makes
    [resolve_scope_path] raise, as line 87 does. *)
Example resolve_scope_path_null :
  resolve_scope_path (demo_host ∅ JNull (Completed 0 "" ""))
    [("path", JStr (String "a" (String NUL "b")))] ws
  = inl (Exn ValueError "embedded null byte").
Proof. reflexivity. Qed.

(** With [MGREP_HOOK_MAX_RESULTS] set to a numeral behind the separator
    U+001F, [int] raises and the default stays 20. *)
Example env_int_unit_separator :
  _env_int (demo_host (env_max_results (String (ascii_of_N 31) "12")) JNull
              (Completed 0 "" ""))
    "MGREP_HOOK_MAX_RESULTS" 20 = 20.
Proof. reflexivity. Qed.

Example extract_paths_plain :
  extract_paths (demo_host ∅ JNull (Completed 0 "" "")) "src/a.go:12:3:func main" ws
  = inr (Some "src/a.go", Some "src/a.go", Some "/ws/src/a.go").
Proof. reflexivity. Qed.

Example extract_paths_dot_slash :
  extract_paths (demo_host ∅ JNull (Completed 0 "" "")) "./src/a.go:12:x" ws
  = inr (Some "./src/a.go", Some "src/a.go", Some "/ws/src/a.go").
Proof. reflexivity. Qed.

Example extract_paths_fallback :
  extract_paths (demo_host ∅ JNull (Completed 0 "" "")) "README: see docs" ws
  = inr (Some "README", Some "README", Some "/ws/README").
Proof. reflexivity. Qed.

Example extract_paths_none :
  extract_paths (demo_host ∅ JNull (Completed 0 "" "")) "no path here" ws
  = inr (None, None, None)
  /\ extract_paths (demo_host ∅ JNull (Completed 0 "" "")) ":3:x" ws
     = inr (None, None, None).
Proof. split; reflexivity. Qed.

Example extract_paths_outside :
  extract_paths (demo_host ∅ JNull (Completed 0 "" "")) "/etc/hosts:1:x" ws
  = inr (Some "/etc/hosts", Some "/etc/hosts", Some "/etc/hosts").
Proof. reflexivity. Qed.

Example splitlines_examples :
  splitlines ("a" +:+ nl +:+ nl +:+ "b" +:+ nl) = ["a"; ""; "b"]
  /\ splitlines "" = []
  /\ splitlines (String "a" (String carriage_return (String newline "b"))) = ["a"; "b"].
Proof. repeat split; reflexivity. Qed.

(** Scenario 1 of the specification: two result lines, content mode. *)
Example scenario_content :
  run_script (demo_host ∅ (grep_request [("pattern", JStr "foo")])
                (Completed 0 ("a.go:1:x" +:+ nl +:+ "b.ts:2:y" +:+ nl) ""))
  = (Exit 2,
     [Log "Running command: /usr/bin/mgrep search -m 20 foo (cwd=/ws)";
      Run ["/usr/bin/mgrep"; "search"; "-m"; "20"; "foo"] ws;
      Stderr (hook_response
                ("MGrep semantic search for 'foo' in ." +:+ nl
                 +:+ "a.go:1:x" +:+ nl +:+ "b.ts:2:y"))]).
Proof. vm_compute. reflexivity. Qed.

(** Scenario 6: a glob keeps only the matching file. *)
Example scenario_glob :
  filter_by_glob (demo_host ∅ JNull (Completed 0 "" ""))
    ["a.go:1:x"; "b.ts:2:y"] ["*.go"] ws = inr ["a.go:1:x"].
Proof. reflexivity. Qed.

(** ** Facts about paths *)

Lemma truthy_app_l (a b : string) : Py.truthy a = true -> Py.truthy (a +:+ b) = true.
Proof. destruct a; [discriminate | reflexivity]. Qed.

Lemma truthy_true_iff (s : string) : Py.truthy s = true <-> s <> "".
Proof. destruct s; split; intros; try reflexivity; try discriminate; congruence. Qed.

Lemma is_name_truthy (x : string) : Path.is_name x = true -> Py.truthy x = true.
Proof. destruct x; [discriminate | reflexivity]. Qed.

Lemma split_slash_not_nil (s : string) : Path.split_slash s <> [].
Proof.
  induction s as [|c r IH]; simpl; [discriminate|].
  destruct (Ascii.eqb c Path.slash); [discriminate|].
  destruct (Path.split_slash r); discriminate.
Qed.

Lemma split_slash_no_slash (s : string) :
  Forall (fun x => Path.no_slash x = true) (Path.split_slash s).
Proof.
  induction s as [|c r IH]; simpl.
  - repeat constructor.
  - destruct (Ascii.eqb c Path.slash) eqn:Hc.
    + constructor; [reflexivity | exact IH].
    + destruct (Path.split_slash r) as [|x tl].
      * constructor; [|constructor].
        unfold Path.no_slash. simpl. rewrite Hc. reflexivity.
      * inversion IH as [|? ? Hx Htl]; subst.
        constructor; [|assumption].
        unfold Path.no_slash in *. simpl. rewrite Hc. simpl. exact Hx.
Qed.

Lemma split_slash_single (x : string) :
  Path.no_slash x = true -> Path.split_slash x = [x].
Proof.
  induction x as [|c r IH]; simpl; [reflexivity|].
  unfold Path.no_slash. simpl. intros H.
  apply andb_true_iff in H as [Hc Hr].
  apply negb_true_iff in Hc. rewrite Hc.
  rewrite (IH Hr). reflexivity.
Qed.

Lemma split_slash_app (x rest : string) :
  Path.no_slash x = true ->
  Path.split_slash (x +:+ String Path.slash rest) = x :: Path.split_slash rest.
Proof.
  induction x as [|c r IH]; simpl; intros H.
  - reflexivity.
  - unfold Path.no_slash in H. simpl in H.
    apply andb_true_iff in H as [Hc Hr].
    apply negb_true_iff in Hc. rewrite Hc.
    rewrite (IH Hr). reflexivity.
Qed.

Lemma join_cons2 (sep x y : string) (l : list string) :
  Py.join sep (x :: y :: l) = x +:+ sep +:+ Py.join sep (y :: l).
Proof. reflexivity. Qed.

Lemma split_slash_join (ps : list string) :
  ps <> [] -> Forall (fun x => Path.no_slash x = true) ps ->
  Path.split_slash (Py.join "/" ps) = ps.
Proof.
  induction ps as [|x l IH]; [congruence|].
  intros _ Hall. inversion Hall as [|? ? Hx Hl]; subst.
  destruct l as [|y l'].
  - simpl. apply split_slash_single, Hx.
  - rewrite join_cons2.
    change ("/" +:+ Py.join "/" (y :: l'))
      with (String Path.slash (Py.join "/" (y :: l'))).
    rewrite split_slash_app by assumption.
    rewrite IH; [reflexivity | discriminate | assumption].
Qed.

Lemma filter_all_true {A} (f : A -> bool) (l : list A) :
  Forall (fun x => f x = true) l -> List.filter f l = l.
Proof.
  induction 1 as [|x l Hx _ IH]; simpl; [reflexivity|].
  rewrite Hx, IH. reflexivity.
Qed.

Lemma parts_of_join (ps : list string) :
  Forall Path.component ps ->
  List.filter Path.is_name (Path.split_slash (Py.join "/" ps)) = ps.
Proof.
  intros Hall. destruct ps as [|x l]; [reflexivity|].
  rewrite split_slash_join.
  - apply filter_all_true. eapply Forall_impl; [exact Hall|]. intros ? []; assumption.
  - discriminate.
  - eapply Forall_impl; [exact Hall|]. intros ? []; assumption.
Qed.

Lemma parse_wf (s : string) : Path.wf (Path.parse s).
Proof.
  unfold Path.parse.
  destruct (Path.splitroot s) as [rt rel] eqn:Hsr. split; simpl.
  - unfold Path.splitroot in Hsr.
    repeat match type of Hsr with
           | context [match ?x with _ => _ end] => destruct x
           end; inversion Hsr; auto.
  - pose proof (split_slash_no_slash rel) as Hns.
    induction Hns as [|x l Hx _ IH]; simpl; [constructor|].
    destruct (Path.is_name x) eqn:Hn; [constructor; [split; assumption | exact IH] | exact IH].
Qed.

Lemma component_first_char (x : string) :
  Path.component x -> exists c r, x = String c r /\ Ascii.eqb c Path.slash = false.
Proof.
  intros [Hn Hs]. destruct x as [|c r]; [discriminate|].
  exists c, r. split; [reflexivity|].
  unfold Path.no_slash in Hs. simpl in Hs.
  apply andb_true_iff in Hs as [Hc _]. apply negb_true_iff in Hc. exact Hc.
Qed.

Lemma join_component_first (x : string) (l : list string) :
  Path.component x ->
  exists c r, Py.join "/" (x :: l) = String c r /\ Ascii.eqb c Path.slash = false.
Proof.
  intros Hx. destruct (component_first_char x Hx) as (c & r & -> & Hc).
  destruct l as [|y l'].
  - exists c, r. split; [reflexivity | exact Hc].
  - rewrite join_cons2. exists c. eexists. split; [reflexivity | exact Hc].
Qed.

Lemma as_posix_cons (rt x : string) (l : list string) :
  Path.as_posix (Path.mk rt (x :: l)) = rt +:+ Py.join "/" (x :: l).
Proof. destruct rt; reflexivity. Qed.

Lemma splitroot_join (rt x : string) (l : list string) :
  rt = "" \/ rt = "/" \/ rt = "//" -> Path.component x ->
  Path.splitroot (rt +:+ Py.join "/" (x :: l)) = (rt, Py.join "/" (x :: l)).
Proof.
  intros Hroot Hx.
  destruct (join_component_first x l Hx) as (c & r & Hj & Hc).
  destruct Hroot as [-> | [-> | ->]]; rewrite Hj; simpl; rewrite ?Hc; reflexivity.
Qed.

(** Reading back the text of a path gives the path. *)
Lemma parse_as_posix (p : Path.t) : Path.wf p -> Path.parse (Path.as_posix p) = p.
Proof.
  destruct p as [rt ps]. intros [Hroot Hparts]. simpl in *.
  destruct ps as [|x l].
  - destruct Hroot as [-> | [-> | ->]]; reflexivity.
  - inversion Hparts as [|? ? Hx Hl]; subst.
    rewrite as_posix_cons. unfold Path.parse.
    rewrite splitroot_join by assumption.
    f_equal. apply parts_of_join, Hparts.
Qed.

Lemma fold_step_push (l acc : list string) :
  Forall (fun x => x <> "..") l -> fold_left Path.step l acc = acc ++ l.
Proof.
  revert acc. induction l as [|x l IH]; intros acc Hall; simpl.
  - rewrite app_nil_r. reflexivity.
  - inversion Hall as [|? ? Hx Hl]; subst.
    unfold Path.step at 2.
    destruct (String.eqb x "..") eqn:E; [apply String.eqb_eq in E; contradiction|].
    rewrite IH by assumption. rewrite <- app_assoc. reflexivity.
Qed.

(** A list of components without [".."] is its own collapse. *)
Lemma collapse_id (l : list string) :
  Forall (fun x => x <> "..") l -> Path.collapse l = l.
Proof. intros H. unfold Path.collapse. rewrite fold_step_push by assumption. reflexivity. Qed.

Lemma Forall_removelast {A} (P : A -> Prop) (l : list A) :
  Forall P l -> Forall P (removelast l).
Proof.
  induction 1 as [|x l Hx Hl IH]; simpl; [constructor|].
  destruct l; [constructor | constructor; assumption].
Qed.

Lemma fold_step_invariant (P : string -> Prop) (l acc : list string) :
  Forall P acc -> Forall (fun x => x <> ".." -> P x) l ->
  Forall P (fold_left Path.step l acc).
Proof.
  revert acc. induction l as [|x l IH]; intros acc Hacc Hall; simpl; [assumption|].
  inversion Hall as [|? ? Hx Hl]; subst.
  apply IH; [|assumption].
  unfold Path.step. destruct (String.eqb x "..") eqn:E.
  - apply Forall_removelast, Hacc.
  - apply Forall_app. split; [assumption|].
    constructor; [|constructor]. apply Hx.
    intros ->. discriminate.
Qed.

(** What [resolve] returns is a resolved path, whenever the components it
    starts from are well formed. *)
Lemma normalize_resolved (cwd p : Path.t) :
  Forall Path.component (if Path.is_absolute p then Path.parts p
                         else Path.parts cwd ++ Path.parts p) ->
  Path.resolved (Path.normalize cwd p).
Proof.
  intros Hall. split; [reflexivity|]. simpl.
  unfold Path.collapse. apply fold_step_invariant; [constructor|].
  eapply Forall_impl; [exact Hall|]. intros x Hx Hne. split; assumption.
Qed.

Lemma resolved_wf (p : Path.t) : Path.resolved p -> Path.wf p.
Proof.
  intros [Hr Hp]. split; [auto|].
  eapply Forall_impl; [exact Hp|]. intros ? [? _]; assumption.
Qed.

(** Resolving a resolved path changes nothing. *)
Lemma normalize_idempotent (cwd p : Path.t) :
  Path.resolved p -> Path.normalize cwd p = p.
Proof.
  destruct p as [rt ps]. intros [Hr Hp]. simpl in *. subst rt.
  unfold Path.normalize. simpl. f_equal. apply collapse_id.
  eapply Forall_impl; [exact Hp|]. intros ? [_ ?]; assumption.
Qed.

Lemma strip_prefix_spec (pre l rest : list string) :
  Path.strip_prefix pre l = Some rest <-> l = pre ++ rest.
Proof.
  revert l. induction pre as [|a pre IH]; intros l; simpl.
  - split; [intros [= ->]; reflexivity | intros ->; reflexivity].
  - destruct l as [|b l]; [split; discriminate|].
    destruct (String.eqb a b) eqn:E.
    + apply String.eqb_eq in E. subst b. rewrite IH.
      split; [intros ->; reflexivity | intros [= ->]; reflexivity].
    + apply String.eqb_neq in E. split; [discriminate | intros [= -> _]; congruence].
Qed.

Lemma relative_to_spec (p base q : Path.t) :
  Path.relative_to p base = Some q <->
  Path.root p = Path.root base /\ Path.root q = ""
  /\ Path.parts p = Path.parts base ++ Path.parts q.
Proof.
  unfold Path.relative_to. destruct (String.eqb (Path.root p) (Path.root base)) eqn:E.
  - apply String.eqb_eq in E.
    destruct (Path.strip_prefix (Path.parts base) (Path.parts p)) as [rest|] eqn:Hs.
    + apply strip_prefix_spec in Hs. split.
      * intros [= <-]. simpl. auto.
      * intros (_ & Hq & Hp). destruct q as [rq pq]. simpl in *. subst rq.
        rewrite Hs in Hp. apply app_inv_head in Hp. subst. reflexivity.
    + split; [discriminate|]. intros (_ & _ & Hp).
      apply strip_prefix_spec in Hp. congruence.
  - apply String.eqb_neq in E. split; [discriminate | intros (? & _); contradiction].
Qed.

Lemma normalize_of_wf (cwd p : Path.t) :
  Path.wf cwd -> Path.wf p -> Path.resolved (Path.normalize cwd p).
Proof.
  intros [_ Hc] [_ Hp]. apply normalize_resolved.
  destruct (Path.is_absolute p); [assumption | apply Forall_app; split; assumption].
Qed.

(** ** Facts about [resolve] *)

(** What [resolve] returns is a resolved path, whatever the host. *)
Lemma resolve_returns_resolved (h : Host) (p q : Path.t) :
  resolve h p = inr q -> Path.resolved q.
Proof.
  unfold resolve. destruct (Py.has_nul (Path.as_posix p)); [discriminate|].
  destruct (realpath h (Path.as_posix p)) as [e | real]; [discriminate|].
  intros [= <-]. apply normalize_of_wf; [|apply parse_wf].
  split; [auto | constructor].
Qed.

(** Where [os.path.realpath] answers with the text of a resolved path, as
    it does on a real file system, [resolve] returns that very path. *)
Lemma resolve_of_real (h : Host) (p q : Path.t) :
  Py.has_nul (Path.as_posix p) = false ->
  realpath h (Path.as_posix p) = inr (Path.as_posix q) ->
  Path.resolved q ->
  resolve h p = inr q.
Proof.
  intros Hnul Hreal Hq. unfold resolve. rewrite Hnul, Hreal.
  rewrite (parse_as_posix q (resolved_wf q Hq)).
  rewrite (normalize_idempotent _ q Hq). reflexivity.
Qed.

(** A null character in the text of a path makes [resolve] raise. *)
Lemma resolve_raises_on_nul (h : Host) (p : Path.t) :
  Py.has_nul (Path.as_posix p) = true ->
  resolve h p = inl (Exn ValueError "embedded null byte").
Proof. intros H. unfold resolve. rewrite H. reflexivity. Qed.

(** ** Facts about [extract_paths] *)

Lemma is_absolute_truthy (p : Path.t) :
  Path.is_absolute p = true -> Py.truthy (Path.as_posix p) = true.
Proof.
  destruct p as [rt ps]. unfold Path.is_absolute, Path.as_posix. simpl.
  destruct rt; [discriminate|]. intros _. destruct ps; reflexivity.
Qed.

Lemma as_posix_truthy (p : Path.t) :
  Forall (fun x => Py.truthy x = true) (Path.parts p) ->
  Py.truthy (Path.as_posix p) = true.
Proof.
  destruct p as [rt ps]. simpl. intros Hall.
  destruct ps as [|x l]; [destruct rt; reflexivity|].
  rewrite as_posix_cons.
  destruct rt; [change (Py.truthy (Py.join "/" (x :: l)) = true) | reflexivity].
  inversion Hall as [|? ? Hx _]; subst.
  destruct l; [exact Hx | rewrite join_cons2; apply truthy_app_l, Hx].
Qed.

Lemma letter_not_slash (c : ascii) :
  (let n := Py.code c in
   ((65 <=? n) && (n <=? 90) || (97 <=? n) && (n <=? 122))%N = true) ->
  Ascii.eqb c Path.slash = false.
Proof. destruct c as [[] [] [] [] [] [] [] []]; vm_compute; congruence. Qed.

Lemma is_name_two (c1 c2 : ascii) (r : string) :
  Path.is_name (String c1 (String c2 r)) = true.
Proof. unfold Path.is_name. simpl. destruct (Ascii.eqb c1 "."); reflexivity. Qed.

Lemma drive_letter_parse (rel : string) :
  drive_letter rel = true ->
  exists x l, Path.parse rel = Path.mk "" (x :: l) /\ Py.truthy x = true.
Proof.
  destruct rel as [|c1 [|c2 r]]; try discriminate.
  unfold drive_letter. intros H. apply andb_true_iff in H as [Hl Hc].
  apply letter_not_slash in Hl. apply Ascii.eqb_eq in Hc. subst c2.
  unfold Path.parse. simpl. rewrite Hl. simpl.
  destruct (Path.split_slash r) as [|x0 tl] eqn:Hs;
    [exfalso; eapply split_slash_not_nil; eassumption|].
  simpl. rewrite ?Hl. simpl. rewrite is_name_two.
  eexists. eexists. split; reflexivity.
Qed.

Lemma startswith_char (s : string) (c0 : ascii) :
  Py.startswith s (String c0 "") = true -> exists r, s = String c0 r.
Proof.
  destruct s as [|c r]; [discriminate|]. unfold Py.startswith.
  change (String.prefix (String c0 "") (String c r))
    with (if ascii_dec c0 c then String.prefix "" r else false).
  destruct (ascii_dec c0 c) as [<-|]; [eauto | discriminate].
Qed.

Lemma startswith_slash_absolute (rel : string) :
  Py.startswith rel "/" = true -> Path.is_absolute (Path.parse rel) = true.
Proof.
  intros H. apply startswith_char in H as [r ->].
  unfold Path.parse, Path.splitroot. simpl.
  destruct r as [|c1 r1]; [reflexivity|].
  destruct (Ascii.eqb c1 Path.slash); [|reflexivity].
  destruct r1 as [|c2 r2]; [reflexivity|].
  destruct (Ascii.eqb c2 Path.slash); reflexivity.
Qed.

(** The path a token names, when there is one, is well formed and its
    text is not empty. *)
Lemma absolute_of_good (h : Host) (rel : string) (workspace abs_path : Path.t) :
  absolute_of h rel workspace = inr abs_path ->
  Path.wf abs_path /\ Py.truthy (Path.as_posix abs_path) = true.
Proof.
  unfold absolute_of.
  destruct (Py.startswith rel "/") eqn:Hs; simpl.
  - intros [= <-]. split; [apply parse_wf|].
    apply is_absolute_truthy, startswith_slash_absolute, Hs.
  - destruct (drive_letter rel) eqn:Hd.
    + intros [= <-]. split; [apply parse_wf|].
      destruct (drive_letter_parse rel Hd) as (x & l & -> & Hx).
      rewrite as_posix_cons.
      change (Py.truthy (Py.join "/" (x :: l)) = true).
      destruct l; [exact Hx | rewrite join_cons2; apply truthy_app_l, Hx].
    + intros Hres. apply resolve_returns_resolved in Hres.
      split; [apply resolved_wf, Hres|].
      apply is_absolute_truthy. unfold Path.is_absolute.
      destruct Hres as [-> _]. reflexivity.
Qed.

(** [extract_paths] gives nothing at all, or, when the token's path can be
    resolved, all three paths of the token; it raises what resolving
    raises. *)
Lemma extract_paths_cases (h : Host) (line : string) (workspace : Path.t) :
  (opt_truthy (raw_token line) = false
   /\ extract_paths h line workspace = inr (None, None, None))
  \/ (exists raw,
        raw_token line = Some raw /\ Py.truthy raw = true /\
        extract_paths h line workspace =
          match absolute_of h (undotted (Py.strip raw)) workspace with
          | inl e => inl e
          | inr abs_path =>
              inr (Some (if Py.startswith (Py.strip raw) "." then Py.strip raw
                         else relative_text abs_path workspace),
                   Some (relative_text abs_path workspace),
                   Some (Path.as_posix abs_path))
          end).
Proof.
  unfold extract_paths.
  destruct (raw_token line) as [raw|] eqn:Hraw; simpl.
  - destruct (Py.truthy raw) eqn:Ht; simpl.
    + right. exists raw. repeat split; assumption.
    + left. split; reflexivity.
  - left. split; reflexivity.
Qed.

Lemma relative_text_truthy (abs_path workspace : Path.t) :
  Path.wf abs_path -> Py.truthy (Path.as_posix abs_path) = true ->
  Py.truthy (relative_text abs_path workspace) = true.
Proof.
  intros [_ Hparts] Ha. unfold relative_text.
  destruct (Path.relative_to abs_path workspace) as [q|] eqn:Hrel; [|exact Ha].
  apply relative_to_spec in Hrel as (_ & _ & Hp).
  apply as_posix_truthy. rewrite Hp in Hparts.
  apply Forall_app in Hparts as [_ Hq].
  eapply Forall_impl; [exact Hq|]. intros ? [? _]. apply is_name_truthy; assumption.
Qed.

Lemma existsb_pointwise {A} (f f' : A -> bool) (l : list A) :
  (forall x, f x = f' x) -> existsb f l = existsb f' l.
Proof. intros E. induction l as [|x l IH]; simpl; [reflexivity | rewrite E, IH; reflexivity]. Qed.

Lemma any_match_pair (h : Host) (r a : string) (patterns : list string) :
  Py.truthy r = true -> Py.truthy a = true ->
  any_match h [Some r; Some a] patterns
  = existsb (fun pattern => fnmatch h r pattern || fnmatch h a pattern) patterns.
Proof.
  intros Hr Ha. unfold any_match. apply existsb_pointwise. intros pattern.
  simpl. rewrite Hr, Ha. simpl. rewrite orb_false_r. reflexivity.
Qed.

(** One step of the filtering loop raises what [extract_paths] raises, and
    otherwise keeps the line exactly when the specification says it
    survives. *)
Lemma filter_step_survives (h : Host) (patterns : list string) (workspace : Path.t)
    (filtered : list string) (line : string) :
  filter_step h patterns workspace filtered line
  = match extract_paths h line workspace with
    | inl e => inl e
    | inr _ =>
        inr (if survives h patterns workspace line then filtered ++ [line]
             else filtered)
    end.
Proof.
  unfold filter_step, survives, has_path, path_matches.
  destruct (extract_paths_cases h line workspace) as [[Hraw ->] | (raw & Hraw & Ht & ->)].
  - rewrite Hraw. reflexivity.
  - destruct (absolute_of h (undotted (Py.strip raw)) workspace) as [e | abs_path] eqn:Habs;
      [reflexivity|].
    destruct (absolute_of_good _ _ _ _ Habs) as [Hwf Ha].
    pose proof (relative_text_truthy abs_path workspace Hwf Ha) as Hr.
    rewrite Hraw. simpl. rewrite Ht, Hr, Ha. simpl.
    rewrite any_match_pair by assumption.
    destruct (existsb _ patterns); reflexivity.
Qed.

Lemma first_raise_none (h : Host) (workspace : Path.t) (lines : list string) :
  first_raise h workspace lines = None <-> Forall (extracts h workspace) lines.
Proof.
  induction lines as [|line lines IH]; simpl.
  - split; [constructor | reflexivity].
  - destruct (extract_paths h line workspace) as [e | paths] eqn:E.
    + split; [discriminate|]. intros H. inversion H as [|? ? [paths Hp] _]; subst.
      unfold extracts in *. congruence.
    + rewrite IH. split.
      * intros H. constructor; [exists paths; exact E | exact H].
      * intros H. inversion H; assumption.
Qed.

Lemma first_raise_some (h : Host) (workspace : Path.t) (lines : list string) (e : exn) :
  first_raise h workspace lines = Some e ->
  exists line, In line lines /\ extract_paths h line workspace = inl e.
Proof.
  induction lines as [|line lines IH]; simpl; [discriminate|].
  destruct (extract_paths h line workspace) as [e' | paths] eqn:E.
  - intros [= <-]. exists line. auto.
  - intros H. destruct (IH H) as (l & Hin & Hl). exists l. auto.
Qed.

Lemma first_raise_app (h : Host) (workspace : Path.t) (lines1 lines2 : list string) :
  first_raise h workspace (lines1 ++ lines2)
  = match first_raise h workspace lines1 with
    | Some e => Some e
    | None => first_raise h workspace lines2
    end.
Proof.
  induction lines1 as [|line lines1 IH]; simpl; [reflexivity|].
  destruct (extract_paths h line workspace); [reflexivity | exact IH].
Qed.

Lemma first_raise_filter (h : Host) (workspace : Path.t) (f : string -> bool)
    (lines : list string) :
  first_raise h workspace lines = None ->
  first_raise h workspace (List.filter f lines) = None.
Proof.
  rewrite !first_raise_none. intros H. apply List.Forall_forall. intros line Hin.
  apply filter_In in Hin as [Hin _]. rewrite List.Forall_forall in H. apply H, Hin.
Qed.

(** The loop of [filter_by_glob], started from [acc]: it raises what the
    first unresolvable line raises, and otherwise appends the survivors. *)
Lemma for_each_filter_step (h : Host) (patterns : list string) (workspace : Path.t)
    (lines acc : list string) :
  for_each (filter_step h patterns workspace) lines acc
  = match first_raise h workspace lines with
    | Some e => inl e
    | None => inr (acc ++ List.filter (survives h patterns workspace) lines)
    end.
Proof.
  revert acc. induction lines as [|line lines IH]; intros acc;
    cbn [for_each first_raise List.filter].
  - rewrite app_nil_r. reflexivity.
  - rewrite filter_step_survives.
    destruct (extract_paths h line workspace) as [e | paths]; [reflexivity|].
    rewrite IH. destruct (first_raise h workspace lines); [reflexivity|].
    destruct (survives h patterns workspace line); [|reflexivity].
    rewrite <- app_assoc. reflexivity.
Qed.

Lemma filter_by_glob_filter (h : Host) (lines patterns : list string)
    (workspace : Path.t) :
  filter_by_glob h lines patterns workspace
  = match patterns with
    | [] => inr lines
    | _ =>
        match first_raise h workspace lines with
        | Some e => inl e
        | None => inr (List.filter (survives h patterns workspace) lines)
        end
    end.
Proof.
  unfold filter_by_glob. destruct patterns; [reflexivity|].
  apply for_each_filter_step.
Qed.

Lemma filter_sublist {A} (f : A -> bool) (l : list A) : sublist (List.filter f l) l.
Proof.
  induction l as [|x l IH]; simpl; [constructor|].
  destruct (f x); [apply sublist_skip | apply sublist_cons]; exact IH.
Qed.

(** ** A null character in a path token *)

Lemma has_nul_app_r (a b : string) :
  Py.has_nul b = true -> Py.has_nul (a +:+ b) = true.
Proof.
  intros Hb. induction a as [|c a IH]; [exact Hb|].
  change (String c a +:+ b) with (String c (a +:+ b)).
  unfold Py.has_nul in *. simpl.
  destruct (negb (Py.code c =? 0)%N); [exact IH | reflexivity].
Qed.

Lemma has_nul_join_last (ps : list string) (x : string) :
  Py.has_nul x = true -> Py.has_nul (Py.join "/" (ps ++ [x])) = true.
Proof.
  intros Hx. induction ps as [|p ps IH]; [exact Hx|].
  change ((p :: ps) ++ [x]) with (p :: (ps ++ [x])).
  destruct (ps ++ [x]) as [|y l] eqn:E; [destruct ps; discriminate|].
  rewrite join_cons2. apply has_nul_app_r, has_nul_app_r, IH.
Qed.

Lemma has_nul_as_posix (rt : string) (ps : list string) (x : string) :
  Py.has_nul x = true -> Py.has_nul (Path.as_posix (Path.mk rt (ps ++ [x]))) = true.
Proof.
  intros Hx. pose proof (has_nul_join_last ps x Hx) as Hj.
  destruct (ps ++ [x]) as [|y l] eqn:E; [destruct ps; discriminate|].
  rewrite as_posix_cons. apply has_nul_app_r, Hj.
Qed.

(** Whatever the file system and the workspace, [extract_paths] raises
    [ValueError] on a line whose relative path token holds a null
    character: line 155 resolves the token, and nothing catches what
    resolving raises. *)
Lemma extract_paths_null_token (h : Host) (workspace : Path.t) :
  raw_token null_line = Some null_token
  /\ extract_paths h null_line workspace = inl (Exn ValueError "embedded null byte").
Proof.
  assert (Hraw : raw_token null_line = Some null_token) by reflexivity.
  split; [exact Hraw|].
  assert (Hres : resolve h (Path.join_str workspace null_token)
                 = inl (Exn ValueError "embedded null byte")).
  { apply resolve_raises_on_nul.
    change (Path.join_str workspace null_token)
      with (Path.mk (Path.root workspace) (Path.parts workspace ++ [null_token])).
    apply has_nul_as_posix. reflexivity. }
  unfold extract_paths. rewrite Hraw.
  change (Py.strip (default "" (Some null_token))) with null_token.
  change (undotted null_token) with null_token.
  change (negb (opt_truthy (Some null_token))) with false. cbv iota.
  unfold absolute_of.
  change (Py.startswith null_token "/" || drive_letter null_token) with false.
  cbv iota. rewrite Hres. reflexivity.
Qed.

(** ** Glob filtering *)

(** C2. Glob filtering does not return for every list of lines: the loop
    of [filter_by_glob] calls [extract_paths] on each line, and for a line
    whose relative path token holds a null character the call raises
    [ValueError], whatever the file system, the workspace and the patterns.
    The exception is caught nowhere, so the script, having run the command,
    ends with it instead of answering. *)
Theorem filter_by_glob_raises_on_null_token :
  (forall (h : Host) (workspace : Path.t) (pattern : string) (patterns : list string),
      filter_by_glob h [null_line] (pattern :: patterns) workspace
      = inl (Exn ValueError "embedded null byte"))
  /\ run_script
       (demo_host ∅ (grep_request [("pattern", JStr "hit"); ("glob", JStr "*.go")])
          (Completed 0 (null_line +:+ nl) ""))
     = (Crash (Exn ValueError "embedded null byte"),
        [Log "Running command: /usr/bin/mgrep search -m 20 hit (cwd=/ws)";
         Run ["/usr/bin/mgrep"; "search"; "-m"; "20"; "hit"] ws]).
Proof.
  split.
  - intros h workspace pattern patterns.
    rewrite filter_by_glob_filter. cbn [first_raise].
    destruct (extract_paths_null_token h workspace) as [_ ->]. reflexivity.
  - vm_compute. reflexivity.
Qed.

(** When the path token of every line can be resolved, glob filtering
    returns a list: the lines unchanged when no pattern is configured, and
    otherwise exactly the lines that survive, a line surviving if and only
    if it has no extractable path or its relative or its absolute path
    matches at least one pattern. The result is a subsequence of the input
    and no longer than it. *)
Theorem filter_by_glob_keeps_survivors (h : Host) (lines patterns : list string)
    (workspace : Path.t) :
  Forall (extracts h workspace) lines ->
  exists kept,
    filter_by_glob h lines patterns workspace = inr kept
    /\ (patterns = [] -> kept = lines)
    /\ (patterns <> [] ->
        kept = List.filter (survives h patterns workspace) lines
        /\ forall line, In line kept
                        <-> In line lines /\ survives h patterns workspace line = true)
    /\ sublist kept lines
    /\ (length kept <= length lines)%nat.
Proof.
  intros Hall. apply first_raise_none in Hall.
  rewrite filter_by_glob_filter, Hall.
  destruct patterns as [|p ps].
  - exists lines. split; [reflexivity|]. split; [reflexivity|].
    split; [congruence|]. split; [reflexivity | lia].
  - eexists. split; [reflexivity|]. split; [discriminate|].
    split; [intros _; split; [reflexivity | intros line; apply filter_In]|].
    split; [apply filter_sublist | apply sublist_length, filter_sublist].
Qed.

Lemma filter_by_glob_keeps_survivors_witness :
  filter_by_glob (demo_host ∅ JNull (Completed 0 "" ""))
    ["a.go:1:x"; "b.ts:2:y"; "note"] ["*.go"] ws
  = inr ["a.go:1:x"; "note"].
Proof.
  destruct (filter_by_glob_keeps_survivors (demo_host ∅ JNull (Completed 0 "" ""))
              ["a.go:1:x"; "b.ts:2:y"; "note"] ["*.go"] ws)
    as (kept & -> & _ & Hkeep & _).
  - repeat constructor; eexists; reflexivity.
  - destruct (Hkeep ltac:(discriminate)) as [-> _]. reflexivity.
Defined.

(** ** Deduplication in [paths] mode *)

Lemma filter_pointwise_In {A} (f f' : A -> bool) (l : list A) :
  (forall x, In x l -> f x = f' x) -> List.filter f l = List.filter f' l.
Proof.
  induction l as [|x l IH]; simpl; intros E; [reflexivity|].
  rewrite (E x (or_introl eq_refl)), IH; [reflexivity|]. intros; apply E; auto.
Qed.

Lemma filter_not_in_differs (seen fo : list string) (v : string) :
  existsb (String.eqb v) seen = true ->
  List.filter (not_in seen) (List.filter (differs v) fo) = List.filter (not_in seen) fo.
Proof.
  intros Hseen. induction fo as [|y fo IH]; simpl; [reflexivity|].
  destruct (differs v y) eqn:E; simpl; [rewrite IH; reflexivity|].
  unfold differs in E. apply negb_false_iff, String.eqb_eq in E. subst y.
  unfold not_in at 2. rewrite Hseen. simpl. exact IH.
Qed.

Lemma filter_not_in_snoc (seen fo : list string) (v : string) :
  List.filter (not_in (seen ++ [v])) fo
  = List.filter (not_in seen) (List.filter (differs v) fo).
Proof.
  induction fo as [|y fo IH]; simpl; [reflexivity|].
  assert (E : not_in (seen ++ [v]) y = differs v y && not_in seen y).
  { unfold not_in, differs. rewrite existsb_app. simpl. rewrite orb_false_r.
    rewrite negb_orb. apply andb_comm. }
  rewrite E. destruct (differs v y); simpl; [|exact IH].
  destruct (not_in seen y); rewrite IH; reflexivity.
Qed.

Lemma best_value_cases (h : Host) (line : string) (workspace : Path.t) :
  best_value h line workspace
  = match extract_paths h line workspace with
    | inl e => inl e
    | inr _ => inr (value_of h workspace line)
    end.
Proof.
  unfold value_of, best_value.
  destruct (extract_paths h line workspace) as [e | [[d r] a]]; reflexivity.
Qed.

(** The loop of [build_payload], started from [seen]: it raises what the
    first unresolvable line raises, and otherwise appends the first
    occurrences that are not in [seen] yet. *)
Lemma for_each_seen_step (h : Host) (workspace : Path.t) (lines seen : list string) :
  for_each (seen_step h workspace) lines seen
  = match first_raise h workspace lines with
    | Some e => inl e
    | None =>
        inr (seen ++ List.filter (not_in seen)
                       (first_occurrences (map (value_of h workspace) lines)))
    end.
Proof.
  revert seen. induction lines as [|line lines IH]; intros seen.
  - simpl. rewrite app_nil_r. reflexivity.
  - cbn [for_each first_raise map first_occurrences].
    unfold seen_step at 1. rewrite best_value_cases.
    destruct (extract_paths h line workspace) as [e | paths]; [reflexivity|].
    rewrite IH. destruct (first_raise h workspace lines); [reflexivity|].
    f_equal.
    set (v := value_of h workspace line).
    set (fo := first_occurrences (map (value_of h workspace) lines)).
    cbn [List.filter].
    change (not_in seen v) with (negb (existsb (String.eqb v) seen)).
    destruct (existsb (String.eqb v) seen) eqn:Hseen; cbn [negb].
    + rewrite filter_not_in_differs by assumption. reflexivity.
    + rewrite <- app_assoc. cbn [app]. rewrite filter_not_in_snoc. reflexivity.
Qed.

Lemma first_occurrences_In (l : list string) (v : string) :
  In v (first_occurrences l) <-> In v l.
Proof.
  induction l as [|x l IH]; simpl; [tauto|].
  rewrite filter_In, IH. unfold differs. split.
  - intros [-> | [Hin _]]; auto.
  - intros [-> | Hin]; [auto|].
    destruct (String.eqb v x) eqn:E.
    + apply String.eqb_eq in E. auto.
    + right. split; [exact Hin | reflexivity].
Qed.

Lemma NoDup_filter' {A} (f : A -> bool) (l : list A) :
  List.NoDup l -> List.NoDup (List.filter f l).
Proof.
  induction 1 as [|x l Hx Hl IH]; simpl; [constructor|].
  destruct (f x); [|exact IH].
  constructor; [|exact IH]. intros Hin. apply filter_In in Hin as [Hin _]. auto.
Qed.

Lemma first_occurrences_NoDup (l : list string) : List.NoDup (first_occurrences l).
Proof.
  induction l as [|x l IH]; simpl; [constructor|].
  constructor; [|apply NoDup_filter', IH].
  intros Hin. apply filter_In in Hin as [_ Hne].
  unfold differs in Hne. rewrite String.eqb_refl in Hne. discriminate.
Qed.

Lemma filter_split_at {A} (f : A -> bool) (l s1 s2 : list A) (v : A) :
  List.filter f l = s1 ++ v :: s2 ->
  exists t1 t2, l = t1 ++ v :: t2 /\ List.filter f t1 = s1 /\ f v = true.
Proof.
  revert s1. induction l as [|x l IH]; intros s1 H; simpl in H.
  - destruct s1; discriminate.
  - destruct (f x) eqn:E.
    + destruct s1 as [|y s1]; simpl in H.
      * injection H as Hx _. subst x. exists [], l. repeat split; assumption.
      * injection H as Hx H. subst y. destruct (IH _ H) as (t1 & t2 & -> & Hf & Hv).
        exists (x :: t1), t2. simpl. rewrite E, Hf. repeat split; assumption.
    + destruct (IH _ H) as (t1 & t2 & -> & Hf & Hv).
      exists (x :: t1), t2. simpl. rewrite E. repeat split; assumption.
Qed.

(** A value stands in [first_occurrences l] after exactly the values that
    occur in [l] before its own first occurrence. *)
Lemma first_occurrences_order (l s1 s2 : list string) (v : string) :
  first_occurrences l = s1 ++ v :: s2 ->
  exists l1 l2, l = l1 ++ v :: l2 /\ ~ In v l1 /\ forall w, In w s1 <-> In w l1.
Proof.
  revert s1 s2. induction l as [|x l IH]; intros s1 s2 H; simpl in H.
  - destruct s1; discriminate.
  - destruct s1 as [|y s1]; simpl in H.
    + injection H as Hx _. subst x. exists [], l. simpl. repeat split; tauto.
    + injection H as Hx H. subst y.
      destruct (filter_split_at _ _ _ _ _ H) as (t1 & t2 & Hfo & Hf & Hv).
      destruct (IH _ _ Hfo) as (l1 & l2 & -> & Hnot & Hsame).
      exists (x :: l1), l2. split; [reflexivity|]. split.
      * simpl. intros [-> | Hin]; [|contradiction].
        unfold differs in Hv. rewrite String.eqb_refl in Hv. discriminate.
      * intros w. simpl. rewrite <- Hf, filter_In, <- Hsame. unfold differs. split.
        -- intros [-> | [Hin _]]; auto.
        -- intros [-> | Hin]; [auto|].
           destruct (String.eqb w x) eqn:E.
           ++ apply String.eqb_eq in E. auto.
           ++ right. split; [exact Hin | reflexivity].
Qed.

(** C3. In [paths] mode the response body is not produced for every
    non-empty list of lines: [build_payload] calls [extract_paths] on each
    line, and for a line whose relative path token holds a null character
    the call raises [ValueError], whatever the file system and the
    workspace. The exception is caught nowhere, so the script, having run
    the command, ends with it instead of answering. *)
Theorem build_payload_raises_on_null_token :
  (forall (h : Host) (workspace : Path.t) (pattern scope_label : string),
      build_payload h [null_line] pattern scope_label "paths" workspace
      = inl (Exn ValueError "embedded null byte"))
  /\ run_script
       (demo_host ∅ (grep_request [("pattern", JStr "hit");
                                    ("output_mode", JStr "paths")])
          (Completed 0 (null_line +:+ nl) ""))
     = (Crash (Exn ValueError "embedded null byte"),
        [Log "Running command: /usr/bin/mgrep search -m 20 hit (cwd=/ws)";
         Run ["/usr/bin/mgrep"; "search"; "-m"; "20"; "hit"] ws]).
Proof.
  split.
  - intros h workspace pattern scope_label. unfold build_payload.
    rewrite String.eqb_refl, for_each_seen_step. cbn [first_raise].
    destruct (extract_paths_null_token h workspace) as [_ ->]. reflexivity.
  - vm_compute. reflexivity.
Qed.

(** When the path token of every line can be resolved, the body of the
    response in [paths] mode, for a non-empty list of lines, is the sequence
    of the lines' best display values (display path, else relative path,
    else absolute path, else the raw line), each kept once: it has no
    duplicate, holds exactly the values of the lines, and a value stands
    after exactly those that occur in the input before its own first
    occurrence. *)
Theorem build_payload_paths_first_occurrences (h : Host) (lines : list string)
    (pattern scope_label : string) (workspace : Path.t) :
  lines <> [] -> Forall (extracts h workspace) lines ->
  let values := map (value_of h workspace) lines in
  let seen := first_occurrences values in
  build_payload h lines pattern scope_label "paths" workspace
  = inr (header_of h pattern scope_label +:+ String newline (Py.join nl seen))
  /\ (forall line, In line lines ->
        best_value h line workspace = inr (value_of h workspace line))
  /\ List.NoDup seen
  /\ (forall v, In v seen <-> In v values)
  /\ (forall s1 v s2, seen = s1 ++ v :: s2 ->
        exists l1 l2, values = l1 ++ v :: l2 /\ ~ In v l1
                      /\ forall w, In w s1 <-> In w l1).
Proof.
  intros Hne Hall values seen. split; [|split; [|split; [|split]]].
  - unfold build_payload. destruct lines as [|line lines]; [congruence|].
    rewrite String.eqb_refl, for_each_seen_step.
    apply first_raise_none in Hall. rewrite Hall.
    change (List.filter (not_in []) ?l) with (List.filter (fun _ : string => true) l).
    rewrite filter_all_true by (apply List.Forall_forall; reflexivity).
    reflexivity.
  - intros line Hin. rewrite List.Forall_forall in Hall.
    destruct (Hall line Hin) as [paths Hp].
    rewrite best_value_cases, Hp. reflexivity.
  - apply first_occurrences_NoDup.
  - intros v. apply first_occurrences_In.
  - intros s1 v s2. apply first_occurrences_order.
Qed.

Lemma build_payload_paths_first_occurrences_witness :
  build_payload (demo_host ∅ JNull (Completed 0 "" ""))
    ["a.go:1:x"; "b.ts:2:y"; "a.go:7:z"] "foo" "." "paths" ws
  = inr ("MGrep semantic search for 'foo' in ." +:+ nl +:+ "a.go" +:+ nl +:+ "b.ts").
Proof.
  destruct (build_payload_paths_first_occurrences
              (demo_host ∅ JNull (Completed 0 "" ""))
              ["a.go:1:x"; "b.ts:2:y"; "a.go:7:z"] "foo" "." ws
              ltac:(discriminate)) as [-> _].
  - repeat constructor; eexists; reflexivity.
  - reflexivity.
Defined.

(** ** [max_results] *)

Lemma clamp_range (n : Z) : 1 <= Py.clamp n <= 100.
Proof. unfold Py.clamp. lia. Qed.

Lemma clamp_in_range (n : Z) : 1 <= n <= 100 -> Py.clamp n = n.
Proof. unfold Py.clamp. lia. Qed.

Lemma parse_max_results_keys_skip (h : Host) (g : Globals) (key : string)
    (rest : list string) (tool_input : dict) :
  unusable (dict_get tool_input key) ->
  parse_max_results_keys h g (key :: rest) tool_input
  = parse_max_results_keys h g rest tool_input.
Proof.
  simpl. destruct (dict_get tool_input key); simpl; try tauto.
  intros ->. reflexivity.
Qed.

Lemma parse_max_results_keys_hit (h : Host) (g : Globals) (key : string)
    (rest : list string) (tool_input : dict) (n : Z) :
  holds_number (int_max_str_digits h) (dict_get tool_input key) n ->
  parse_max_results_keys h g (key :: rest) tool_input = inr (Py.clamp n).
Proof.
  simpl. inversion 1 as [| |s ? Hd Hi]; subst; try reflexivity.
  rewrite Hd, Hi. reflexivity.
Qed.

Lemma parse_max_results_keys_result (h : Host) (g : Globals) (keys : list string)
    (tool_input : dict) (n : Z) :
  parse_max_results_keys h g keys tool_input = inr n ->
  1 <= n <= 100 \/ n = DEFAULT_MAX_RESULTS g.
Proof.
  induction keys as [|key keys IH]; simpl.
  - intros [= <-]. right. reflexivity.
  - destruct (dict_get tool_input key) as [| b | v | f | s | items | members];
      try exact IH.
    + intros [= <-]. left. apply clamp_range.
    + intros [= <-]. left. apply clamp_range.
    + destruct (Py.isdigit s); [|exact IH].
      destruct (Py.int (int_max_str_digits h) s); [|discriminate].
      intros [= <-]. left. apply clamp_range.
Qed.

Lemma parse_max_results_keys_unreadable (h : Host) (g : Globals) (key : string)
    (rest : list string) (tool_input : dict) :
  holds_unreadable (int_max_str_digits h) (dict_get tool_input key) ->
  exists message,
    parse_max_results_keys h g (key :: rest) tool_input
    = inl (Exn ValueError message).
Proof.
  simpl. destruct (dict_get tool_input key); simpl; try tauto.
  intros [-> ->]. eexists. reflexivity.
Qed.

Lemma parse_max_results_keys_prefix (h : Host) (g : Globals) (tool_input : dict)
    (before rest : list string) :
  Forall (fun k => unusable (dict_get tool_input k)) before ->
  parse_max_results_keys h g (before ++ rest) tool_input
  = parse_max_results_keys h g rest tool_input.
Proof.
  induction before as [|k before IH]; intros Hall; [reflexivity|].
  inversion Hall as [|? ? Hk Hb]; subst.
  rewrite <- app_comm_cons, parse_max_results_keys_skip by assumption.
  apply IH; assumption.
Qed.

(** C4, as the code has it. The aliases [--max-count], [-m] and
    [max_count] are consulted in this order, and the first one that holds
    an integer or a digit-only string decides. When it holds an integer, or
    a digit-only string that [int] reads, its value is clamped into [1,100],
    an in-range value passing through unchanged. When no alias holds an
    integer or a digit-only string the configured default is returned as it
    is. So a returned value is in [1,100] or is the default, and it is
    always in [1,100] when the default is. In the one remaining case, a
    digit-only string that [int] does not read in the deciding alias,
    nothing is returned: the later aliases and the default are not used. *)
Theorem parse_max_results_resolved (h : Host) (g : Globals) (tool_input : dict) :
  (forall before key after n,
      ALIASES = before ++ key :: after ->
      Forall (fun k => unusable (dict_get tool_input k)) before ->
      holds_number (int_max_str_digits h) (dict_get tool_input key) n ->
      parse_max_results h g tool_input = inr (Py.clamp n)
      /\ 1 <= Py.clamp n <= 100
      /\ (1 <= n <= 100 -> Py.clamp n = n))
  /\ (Forall (fun k => unusable (dict_get tool_input k)) ALIASES ->
      parse_max_results h g tool_input = inr (DEFAULT_MAX_RESULTS g))
  /\ (forall n, parse_max_results h g tool_input = inr n ->
                1 <= n <= 100 \/ n = DEFAULT_MAX_RESULTS g)
  /\ (1 <= DEFAULT_MAX_RESULTS g <= 100 ->
      forall n, parse_max_results h g tool_input = inr n -> 1 <= n <= 100)
  /\ (forall before key after,
        ALIASES = before ++ key :: after ->
        Forall (fun k => unusable (dict_get tool_input k)) before ->
        holds_unreadable (int_max_str_digits h) (dict_get tool_input key) ->
        exists message,
          parse_max_results h g tool_input = inl (Exn ValueError message)).
Proof.
  unfold parse_max_results. fold ALIASES.
  split; [|split; [|split; [|split]]].
  - intros before key after n -> Hbefore Hkey.
    rewrite parse_max_results_keys_prefix by assumption.
    rewrite (parse_max_results_keys_hit h g key after tool_input n Hkey).
    split; [reflexivity|]. split; [apply clamp_range | apply clamp_in_range].
  - intros Hall. rewrite <- (app_nil_r ALIASES).
    rewrite parse_max_results_keys_prefix by assumption.
    reflexivity.
  - intros n. apply parse_max_results_keys_result.
  - intros Hd n Hn. apply parse_max_results_keys_result in Hn as [Hn | ->]; assumption.
  - intros before key after -> Hbefore Hkey.
    rewrite parse_max_results_keys_prefix by assumption.
    apply parse_max_results_keys_unreadable, Hkey.
Qed.

Lemma parse_max_results_resolved_witness :
  parse_max_results (demo_host ∅ JNull (Completed 0 "" "")) demo_globals
    [("pattern", JStr "foo"); ("-m", JStr "250"); ("max_count", JInt 7)]
  = inr 100.
Proof.
  destruct (parse_max_results_resolved (demo_host ∅ JNull (Completed 0 "" ""))
              demo_globals
              [("pattern", JStr "foo"); ("-m", JStr "250"); ("max_count", JInt 7)])
    as (Hfirst & _).
  destruct (Hfirst ["--max-count"] "-m" ["max_count"] 250) as (-> & _).
  - reflexivity.
  - repeat constructor.
  - apply holds_digits; reflexivity.
  - reflexivity.
Defined.

(** The default comes from the environment unclamped: with
    [MGREP_HOOK_MAX_RESULTS=500] and no alias in the request, the resolved
    value is 500. *)
Lemma parse_max_results_default_unclamped :
  let h := demo_host (env_max_results "500") JNull (Completed 0 "" "") in
  exists g, load_globals h = inr g
            /\ parse_max_results h g [("pattern", JStr "foo")] = inr 500
            /\ ~ (1 <= 500 <= 100).
Proof.
  eexists. split; [reflexivity|]. split; [reflexivity | lia].
Qed.

(** A digit-only string need not be a numeral: [str.isdigit] accepts the
    superscript two, which [int] rejects, and the exception is not caught. *)
Example parse_max_results_superscript_raises :
  exists message,
    parse_max_results (demo_host ∅ JNull (Completed 0 "" "")) demo_globals
      [("-m", JStr (String (ascii_of_N 178) ""))]
    = inl (Exn ValueError message).
Proof. eexists. reflexivity. Qed.

(** Nor need [int] read a string of decimal digits: one of 4301 digits is
    over the conversion limit, and the later alias is not used. *)
Example parse_max_results_over_limit_raises :
  exists message,
    parse_max_results (demo_host ∅ JNull (Completed 0 "" "")) demo_globals
      [("--max-count", JStr (replicate_char 4301 "7")); ("-m", JInt 5)]
    = inl (Exn ValueError message).
Proof. eexists. vm_compute. reflexivity. Qed.

(** ** The argument vector *)

(** C6, as the code has it. The argument vector is, in order and with
    nothing else: the prefix, ["search"], ["-i"] exactly when the search is
    case-insensitive, the pair ["-m"], [str(max_results)] exactly when
    [max_results] is not zero (so always for a value in [1,100]), the pair
    ["--store"], value exactly when the store override is set to a
    non-empty string, the pattern, and the scope argument when it is not
    empty. *)
Theorem build_command_vector (command_prefix : list string) (case_insensitive : bool)
    (max_results : Z) (store_override : option string) (pattern : string)
    (path_arg : option string) :
  build_command command_prefix case_insensitive max_results store_override
                pattern path_arg
  = command_prefix ++ ["search"]
    ++ (if case_insensitive then ["-i"] else [])
    ++ (if max_results =? 0 then [] else ["-m"; Py.str_of_int max_results])
    ++ match store_override with
       | Some (String c s) => ["--store"; String c s]
       | _ => []
       end
    ++ [pattern]
    ++ match path_arg with
       | Some (String c s) => [String c s]
       | _ => []
       end
  /\ (1 <= max_results <= 100 ->
      exists before after,
        build_command command_prefix case_insensitive max_results store_override
                      pattern path_arg
        = before ++ ["-m"; Py.str_of_int max_results] ++ after
        /\ before = command_prefix ++ ["search"]
                    ++ (if case_insensitive then ["-i"] else [])).
Proof.
  assert (Hvec :
    build_command command_prefix case_insensitive max_results store_override
                  pattern path_arg
    = command_prefix ++ ["search"]
      ++ (if case_insensitive then ["-i"] else [])
      ++ (if max_results =? 0 then [] else ["-m"; Py.str_of_int max_results])
      ++ match store_override with
         | Some (String c s) => ["--store"; String c s]
         | _ => []
         end
      ++ [pattern]
      ++ match path_arg with
         | Some (String c s) => [String c s]
         | _ => []
         end).
  { unfold build_command.
    destruct case_insensitive, (max_results =? 0),
      store_override as [[|c s]|], path_arg as [[|c' s']|]; simpl;
      repeat rewrite <- app_assoc; reflexivity. }
  split; [exact Hvec|].
  intros Hrange. rewrite Hvec.
  destruct (max_results =? 0) eqn:E; [apply Z.eqb_eq in E; lia|].
  exists (command_prefix ++ ["search"] ++ (if case_insensitive then ["-i"] else [])).
  eexists. split; [|reflexivity].
  rewrite <- !app_assoc. reflexivity.
Qed.

(** With [MGREP_HOOK_MAX_RESULTS=0] and no alias in the request the vector
    has no ["-m"] pair, and with [MGREP_STORE] set to the empty string it has
    no ["--store"] pair although the override is present. *)
Lemma build_command_pairs_omitted :
  run_script (demo_host (env_max_results "0") (grep_request [("pattern", JStr "foo")])
                (Completed 0 "" ""))
  = (Exit 2,
     [Log "Running command: /usr/bin/mgrep search foo (cwd=/ws)";
      Run ["/usr/bin/mgrep"; "search"; "foo"] ws;
      Stderr (hook_response
                ("MGrep semantic search for 'foo' in ." +:+ nl
                 +:+ "No semantic matches found."))])
  /\ run_script (demo_host {[ "MGREP_STORE" := "" ]}
                   (grep_request [("pattern", JStr "foo")]) (Completed 0 "" ""))
     = (Exit 2,
        [Log "Running command: /usr/bin/mgrep search -m 20 foo (cwd=/ws)";
         Run ["/usr/bin/mgrep"; "search"; "-m"; "20"; "foo"] ws;
         Stderr (hook_response
                   ("MGrep semantic search for 'foo' in ." +:+ nl
                    +:+ "No semantic matches found."))]).
Proof. split; vm_compute; reflexivity. Qed.

(** ** The pipeline *)

Lemma stderr_of_app (a b : list event) : stderr_of (a ++ b) = stderr_of a ++ stderr_of b.
Proof.
  induction a as [|e a IH]; simpl; [reflexivity|].
  destruct e; simpl; rewrite IH; reflexivity.
Qed.

Lemma commands_of_app (a b : list event) :
  commands_of (a ++ b) = commands_of a ++ commands_of b.
Proof.
  induction a as [|e a IH]; simpl; [reflexivity|].
  destruct e; simpl; rewrite IH; reflexivity.
Qed.

Ltac run_monad :=
  unfold bind, lift, ret, raise, emit, debug_log in *; simpl in *.

Lemma bind_lift {A B} (r : exn + A) (k : A -> M B) (tr : list event) :
  bind (lift r) k tr = match r with inl e => (inl e, tr) | inr a => k a tr end.
Proof. destruct r; reflexivity. Qed.

(** What [run_mgrep] leaves behind: one command run, nothing on standard
    error. *)
Lemma run_mgrep_trace (h : Host) (command : list string) (cwd : Path.t)
    (tr tr' : list event) (r : exn + option string) :
  run_mgrep h command cwd tr = (r, tr') ->
  stderr_of tr' = stderr_of tr /\ commands_of tr' = commands_of tr ++ [command].
Proof.
  unfold run_mgrep. run_monad.
  destruct (subprocess_run h command cwd) as [rc out err | exc].
  - destruct (negb (rc =? 0)); intros [= <- <-];
      rewrite ?stderr_of_app, ?commands_of_app; simpl;
      rewrite ?app_nil_r, <- ?app_assoc; split; reflexivity.
  - destruct (kind exc); intros [= <- <-];
      rewrite ?stderr_of_app, ?commands_of_app; simpl;
      rewrite ?app_nil_r, <- ?app_assoc; split; reflexivity.
Qed.

(** What the accepted part of [main] leaves behind: it exits with 2 after
    writing one response, or it skips (or raises) having written nothing;
    and whatever it runs carries the pattern it was given. *)
Lemma intercept_trace (h : Host) (g : Globals) (payload tool_input : dict)
    (pattern : string) (r : exn + Z) (tr : list event) :
  intercept h g payload tool_input pattern [] = (r, tr) ->
  match r with
  | inr code =>
      (code = 0 /\ stderr_of tr = [])
      \/ (code = 2 /\ exists payload_text, stderr_of tr = [hook_response payload_text])
  | inl _ => stderr_of tr = []
  end
  /\ forall command, In command (commands_of tr) -> In pattern command.
Proof.
  unfold intercept.
  destruct (is_disabled h); [run_monad; intros [= <- <-]; simpl; intuition|].
  destruct (negb (exists_ h (Path.as_posix (TOKEN_FILE g))));
    [run_monad; intros [= <- <-]; simpl; intuition|].
  unfold bind at 1. unfold lift at 1.
  destruct (resolve_mgrep_command h) as [e | [[|w words]|]];
    try (run_monad; intros [= <- <-]; simpl; intuition; fail).
  unfold ret at 1. unfold bind at 1. unfold lift at 1.
  destruct (resolve_workspace h payload) as [e | workspace];
    [run_monad; intros [= <- <-]; simpl; intuition|].
  unfold ret at 1. unfold bind at 1. unfold lift at 1.
  destruct (resolve_scope_path h tool_input workspace) as [e | scope];
    [run_monad; intros [= <- <-]; simpl; intuition|].
  unfold ret at 1. unfold bind at 1. unfold lift at 1.
  destruct (parse_max_results h g tool_input) as [e | max_results];
    [run_monad; intros [= <- <-]; simpl; intuition|].
  unfold ret at 1. unfold bind at 1. unfold lift at 1.
  destruct (resolve_output_mode tool_input) as [e | output_mode];
    [run_monad; intros [= <- <-]; simpl; intuition|].
  unfold ret at 1.
  set (command := build_command (w :: words) _ _ _ _ _).
  assert (Hpat : In pattern command).
  { unfold command, build_command.
    repeat match goal with
           | |- context [if ?b then _ else _] => destruct b
           end; rewrite ?in_app_iff; simpl; tauto. }
  unfold bind at 1. unfold debug_log at 1, emit at 1.
  unfold bind at 1.
  destruct (run_mgrep h command workspace _) as [out tr1] eqn:Hrun.
  apply run_mgrep_trace in Hrun as [Herr Hcmd]. simpl in Herr, Hcmd.
  destruct out as [e | [stdout|]]; cbv beta iota.
  - intros [= <- <-]. rewrite Herr, Hcmd. split; [reflexivity|].
    intros c [<- | []]. exact Hpat.
  - rewrite bind_lift.
    destruct (filter_by_glob h _ _ workspace) as [e | lines].
    { intros [= <- <-]. rewrite Herr, Hcmd. split; [reflexivity|].
      intros c [<- | []]. exact Hpat. }
    rewrite bind_lift.
    destruct (build_payload h lines pattern _ _ workspace) as [e | payload_text].
    { intros [= <- <-]. rewrite Herr, Hcmd. split; [reflexivity|].
      intros c [<- | []]. exact Hpat. }
    run_monad.
    intros [= <- <-]. rewrite stderr_of_app, commands_of_app, Herr, Hcmd. simpl.
    split; [right; eauto|]. intros c [<- | []]. exact Hpat.
  - run_monad. intros [= <- <-]. rewrite Herr, Hcmd. split; [left; auto|].
    intros c [<- | []]. exact Hpat.
Qed.

Lemma read_hook_input_cases (h : Host) :
  (exists tr, read_hook_input h [] = (inr None, tr) /\ stderr_of tr = []
              /\ commands_of tr = [])
  \/ (exists v, read_hook_input h [] = (inr (Some v), [])
                /\ json_loads h (stdin h) = Decoded v)
  \/ (exists e, read_hook_input h [] = (inl e, [])
                /\ json_loads h (stdin h) = LoadsRaised e).
Proof.
  unfold read_hook_input.
  destruct (negb (Py.truthy (Py.strip (stdin h)))).
  - left. exists []. repeat split.
  - destruct (json_loads h (stdin h)) as [v | exc | e] eqn:E.
    + right. left. exists v. split; reflexivity.
    + left. eexists. run_monad. repeat split.
    + right. right. exists e. split; reflexivity.
Qed.

(** The whole of [main]: the same three ways out as [intercept]. *)
Lemma main_trace (h : Host) (g : Globals) (r : exn + Z) (tr : list event) :
  main h g [] = (r, tr) ->
  match r with
  | inr code =>
      (code = 0 /\ stderr_of tr = [])
      \/ (code = 2 /\ exists payload_text, stderr_of tr = [hook_response payload_text])
  | inl _ => stderr_of tr = []
  end.
Proof.
  unfold main. unfold bind at 1.
  destruct (read_hook_input_cases h)
    as [(tr0 & -> & Herr & _) | [(v & -> & _) | (e & -> & _)]].
  - run_monad. intros [= <- <-]. left. auto.
  - unfold bind at 1. unfold lift at 1.
    destruct (accept (Some v)) as [e | [[[payload tool_input] pattern]|]].
    + run_monad. intros [= <- <-]. reflexivity.
    + unfold ret at 1. intros H. apply intercept_trace in H as [H _]. exact H.
    + run_monad. intros [= <- <-]. left. auto.
  - intros [= <- <-]. reflexivity.
Qed.

Lemma hook_response_shape (payload_text : string) :
  exists inner,
    hook_response payload_text = JDict [("hookSpecificOutput", inner)]
    /\ is_HookResponse inner = true
    /\ dict_get (match inner with JDict d => d | _ => [] end) "additionalContext"
       = JStr payload_text.
Proof. eexists. repeat split. Qed.

(** C1, as the code has it. When the script exits with the intercept code
    2 it has written exactly one JSON document to standard error: an object
    with the single member [hookSpecificOutput], whose value has the
    complete four-field [HookResponse] shape. When it exits with the neutral
    code 0 it has written nothing. It exits with no other code. *)
Theorem run_script_output (h : Host) (code : Z) (tr : list event) :
  run_script h = (Exit code, tr) ->
  (code = 2
   /\ exists inner,
        stderr_of tr = [JDict [("hookSpecificOutput", inner)]]
        /\ is_HookResponse inner = true)
  \/ (code = 0 /\ stderr_of tr = []).
Proof.
  unfold run_script.
  destruct (load_globals h) as [e | g]; [discriminate|].
  destruct (main h g []) as [[e | c] tr'] eqn:Hmain; [discriminate|].
  intros [= <- <-]. apply main_trace in Hmain as [[-> Herr] | (-> & text & Herr)].
  - right. auto.
  - left. split; [reflexivity|].
    destruct (hook_response_shape text) as (inner & Hdoc & Hshape & _).
    exists inner. rewrite Herr, Hdoc. auto.
Qed.

Lemma run_script_output_witness :
  exists inner,
    stderr_of
      [Log "Running command: /usr/bin/mgrep search -m 20 foo (cwd=/ws)";
       Run ["/usr/bin/mgrep"; "search"; "-m"; "20"; "foo"] ws;
       Stderr (hook_response
                 ("MGrep semantic search for 'foo' in ." +:+ nl +:+ "a.go:1:x"))]
    = [JDict [("hookSpecificOutput", inner)]]
    /\ is_HookResponse inner = true.
Proof.
  assert (Hrun :
    run_script (demo_host ∅ (grep_request [("pattern", JStr "foo")])
                  (Completed 0 ("a.go:1:x" +:+ nl) ""))
    = (Exit 2,
       [Log "Running command: /usr/bin/mgrep search -m 20 foo (cwd=/ws)";
        Run ["/usr/bin/mgrep"; "search"; "-m"; "20"; "foo"] ws;
        Stderr (hook_response
                  ("MGrep semantic search for 'foo' in ." +:+ nl +:+ "a.go:1:x"))]))
    by (vm_compute; reflexivity).
  destruct (run_script_output _ _ _ Hrun) as [[_ H] | [H _]].
  - exact H.
  - discriminate H.
Defined.

(** The document on standard error is not itself of the four-field shape:
    its only member is [hookSpecificOutput], and [hookEventName] is not a
    member of it. *)
Lemma stderr_document_is_wrapped :
  exists d members tr,
    run_script (demo_host ∅ (grep_request [("pattern", JStr "foo")])
                  (Completed 0 ("a.go:1:x" +:+ nl) ""))
    = (Exit 2, tr)
    /\ stderr_of tr = [d]
    /\ is_HookResponse d = false
    /\ d = JDict members
    /\ map fst members = ["hookSpecificOutput"]
    /\ dict_get members "hookEventName" = JNull.
Proof.
  eexists. eexists. eexists.
  split; [vm_compute; reflexivity|].
  split; [reflexivity|].
  repeat split.
Qed.

(** ** Requests that are not accepted *)

Lemma main_skips_unaccepted (h : Host) (g : Globals) (v : json) :
  json_loads h (stdin h) = Decoded v ->
  accept (Some v) = inr None ->
  main h g [] = (inr 0, []).
Proof.
  intros Hloads Hacc. unfold main, read_hook_input.
  destruct (negb (Py.truthy (Py.strip (stdin h)))); [reflexivity|].
  rewrite Hloads. unfold bind, ret, lift. rewrite Hacc. reflexivity.
Qed.

(** C9. Whatever [tool_input] holds, a request whose [tool_name] is not
    ["Grep"] is skipped: [main] returns the neutral code 0 and the process
    has written nothing, run nothing and logged nothing. *)
Theorem main_skips_other_tools (h : Host) (g : Globals) (payload : dict) :
  json_loads h (stdin h) = Decoded (JDict payload) ->
  dict_get payload "tool_name" <> JStr "Grep" ->
  main h g [] = (inr 0, [])
  /\ stderr_of (snd (main h g [])) = []
  /\ commands_of (snd (main h g [])) = [].
Proof.
  intros Hloads Hname.
  assert (Hmain : main h g [] = (inr 0, [])).
  { apply (main_skips_unaccepted h g (JDict payload) Hloads).
    unfold accept. destruct (negb (truthy (JDict payload))); [reflexivity|].
    assert (E : eq_str (dict_get payload "tool_name") "Grep" = false).
    { unfold eq_str. destruct (dict_get payload "tool_name") as [| | | |s| |];
        try reflexivity.
      apply String.eqb_neq. congruence. }
    rewrite E. reflexivity. }
  rewrite Hmain. repeat split.
Qed.

Lemma main_skips_other_tools_witness :
  run_script (demo_host ∅
                (JDict [("tool_name", JStr "Read");
                        ("tool_input", JDict [("pattern", JStr "foo")])])
                (Completed 0 "a.go:1:x" ""))
  = (Exit 0, []).
Proof.
  unfold run_script.
  change (load_globals _) with (@inr exn Globals demo_globals). cbv iota beta.
  destruct (main_skips_other_tools
              (demo_host ∅
                 (JDict [("tool_name", JStr "Read");
                         ("tool_input", JDict [("pattern", JStr "foo")])])
                 (Completed 0 "a.go:1:x" ""))
              demo_globals
              [("tool_name", JStr "Read");
               ("tool_input", JDict [("pattern", JStr "foo")])]
              eq_refl ltac:(discriminate)) as [-> _].
  reflexivity.
Defined.

(** ** The pattern *)

(** C5, as the code has it. A request that passes parsing carries its
    pattern exactly as the payload gave it, a string with at least one
    character that is not white space: it is not trimmed, and every command
    the script then runs has that very string among its arguments. When
    the pattern is absent, not a string, or white space only, [main] returns
    0 having run no command, written nothing and logged nothing. *)
Theorem pattern_checked_not_trimmed (h : Host) (g : Globals) :
  (forall v payload tool_input pattern,
      accept (Some v) = inr (Some (payload, tool_input, pattern)) ->
      v = JDict payload
      /\ dict_get payload "tool_input" = JDict tool_input
      /\ dict_get tool_input "pattern" = JStr pattern
      /\ Py.strip pattern <> ""
      /\ forall r tr command,
           intercept h g payload tool_input pattern [] = (r, tr) ->
           In command (commands_of tr) -> In pattern command)
  /\ (forall payload,
        json_loads h (stdin h) = Decoded (JDict payload) ->
        blank_pattern (pattern_of payload) ->
        main h g [] = (inr 0, []) /\ commands_of (snd (main h g [])) = []).
Proof.
  split.
  - intros v payload tool_input pattern. unfold accept.
    destruct (negb (truthy v)); [discriminate|].
    destruct v as [| | | | |items|p]; try discriminate.
    destruct (negb (eq_str (dict_get p "tool_name") "Grep")); [discriminate|].
    destruct (dict_get p "tool_input") as [| | | | | |ti] eqn:Hti; try discriminate.
    destruct (dict_get ti "pattern") as [| | | |s| |] eqn:Hp; try discriminate.
    destruct (Py.truthy (Py.strip s)) eqn:Hs; [|discriminate]. simpl.
    intros [= <- <- <-]. repeat split; try assumption.
    + apply truthy_true_iff, Hs.
    + intros r tr command Hrun. apply intercept_trace in Hrun as [_ Hcmd]. apply Hcmd.
  - intros payload Hloads Hblank.
    assert (Hmain : main h g [] = (inr 0, [])).
    { apply (main_skips_unaccepted h g (JDict payload) Hloads).
      unfold accept. destruct (negb (truthy (JDict payload))); [reflexivity|].
      destruct (negb (eq_str (dict_get payload "tool_name") "Grep")); [reflexivity|].
      unfold pattern_of in Hblank.
      destruct (dict_get payload "tool_input") as [| | | | | |ti]; try reflexivity.
      destruct (dict_get ti "pattern") as [| | | |s| |]; try reflexivity.
      simpl in Hblank. rewrite Hblank. reflexivity. }
    rewrite Hmain. split; reflexivity.
Qed.

(** A pattern with surrounding blanks passes parsing and is handed to the
    command with its blanks. *)
Lemma pattern_passed_untrimmed :
  Py.strip "  foo " = "foo"
  /\ accept (Some (grep_request [("pattern", JStr "  foo ")]))
     = inr (Some ([("tool_name", JStr "Grep");
                   ("tool_input", JDict [("pattern", JStr "  foo ")])],
                  [("pattern", JStr "  foo ")], "  foo "))
  /\ commands_of
       (snd (run_script (demo_host ∅ (grep_request [("pattern", JStr "  foo ")])
                           (Completed 0 "" ""))))
     = [["/usr/bin/mgrep"; "search"; "-m"; "20"; "  foo "]].
Proof. repeat split; vm_compute; reflexivity. Qed.

(** ** The command runner *)

(** What [run_mgrep] does with each outcome of [subprocess.run]: the two
    exceptions it names and any non-zero return code give [None], return
    code 0 gives the captured output as it is, and any other exception
    goes on to the caller. *)
Lemma run_mgrep_outcomes (h : Host) (command : list string) (cwd : Path.t) :
  match subprocess_run h command cwd with
  | Completed 0 stdout _ =>
      run_mgrep h command cwd [] = (inr (Some stdout), [Run command cwd])
  | Completed _ _ _ =>
      exists message,
        run_mgrep h command cwd [] = (inr None, [Run command cwd; Log message])
  | RunRaised exc =>
      match kind exc with
      | FileNotFoundError | TimeoutExpired =>
          exists message,
            run_mgrep h command cwd [] = (inr None, [Run command cwd; Log message])
      | _ => run_mgrep h command cwd [] = (inl exc, [Run command cwd])
      end
  end.
Proof.
  unfold run_mgrep. run_monad.
  destruct (subprocess_run h command cwd) as [[|p|p] out err | exc]; simpl;
    eauto.
  destruct (kind exc); simpl; eauto.
Qed.

(** C8. [run_mgrep] does raise to its caller: when the resolved binary is
    a file that cannot be executed, [subprocess.run] raises
    [PermissionError], which is neither of the two exceptions caught, so
    it leaves [run_mgrep] and [main], and the script ends with an uncaught
    exception instead of a skip. *)
Theorem run_mgrep_raises_permission_error :
  let denied := Exn PermissionError "[Errno 13] Permission denied: '/etc/passwd'" in
  let h := demo_host {[ "MGREP_BIN" := "/etc/passwd" ]}
             (grep_request [("pattern", JStr "foo")]) (RunRaised denied) in
  run_mgrep h ["/etc/passwd"; "search"; "-m"; "20"; "foo"] ws []
  = (inl denied, [Run ["/etc/passwd"; "search"; "-m"; "20"; "foo"] ws])
  /\ run_script h
     = (Crash denied,
        [Log "Running command: /etc/passwd search -m 20 foo (cwd=/ws)";
         Run ["/etc/passwd"; "search"; "-m"; "20"; "foo"] ws]).
Proof. split; vm_compute; reflexivity. Qed.

(** ** Tokens with a leading dot *)

Lemma absolute_of_str_or_dot (h : Host) (s : string) (workspace : Path.t) :
  absolute_of h (str_or s ".") workspace = absolute_of h s workspace.
Proof. destruct s; reflexivity. Qed.

Lemma any_fnmatch_pair (h : Host) (line : string) (workspace : Path.t)
    (d r a : string) (patterns : list string) :
  extract_paths h line workspace = inr (Some d, Some r, Some a) ->
  existsb (path_matches h line workspace) patterns
  = existsb (fun pattern => fnmatch h r pattern || fnmatch h a pattern) patterns.
Proof.
  intros Hext. apply existsb_pointwise. intros pattern.
  unfold path_matches. rewrite Hext. reflexivity.
Qed.

(** C10. When the path token of a line begins with ['.'] but not with
    ['./'], [extract_paths] drops that one dot before it resolves the token:
    what is resolved is the rest of the token, the relative and the absolute
    path are those of the rest of the token, and the display path is the
    token with its dot. Glob filtering of such a line therefore matches the
    patterns against the two paths of the dot-stripped name. Where
    resolving the dot-stripped name raises, that exception is the outcome
    of both. *)
Theorem extract_paths_strips_leading_dot (h : Host) (line raw : string)
    (workspace : Path.t) :
  raw_token line = Some raw ->
  Py.startswith (Py.strip raw) "." = true ->
  Py.startswith (Py.strip raw) "./" = false ->
  let cleaned := Py.strip raw in
  extract_paths h line workspace
  = match absolute_of h (Py.slice_from 1 cleaned) workspace with
    | inl e => inl e
    | inr abs_path =>
        inr (Some cleaned, Some (relative_text abs_path workspace),
             Some (Path.as_posix abs_path))
    end
  /\ forall patterns, patterns <> [] ->
       filter_by_glob h [line] patterns workspace
       = match absolute_of h (Py.slice_from 1 cleaned) workspace with
         | inl e => inl e
         | inr abs_path =>
             inr (if existsb
                       (fun pattern =>
                          fnmatch h (relative_text abs_path workspace) pattern
                          || fnmatch h (Path.as_posix abs_path) pattern)
                       patterns
                  then [line] else [])
         end.
Proof.
  intros Hraw Hdot Hslash cleaned.
  assert (Htruthy : Py.truthy raw = true).
  { destruct raw; [discriminate Hdot | reflexivity]. }
  assert (Hext : extract_paths h line workspace
                 = match absolute_of h (Py.slice_from 1 cleaned) workspace with
                   | inl e => inl e
                   | inr abs_path =>
                       inr (Some cleaned, Some (relative_text abs_path workspace),
                            Some (Path.as_posix abs_path))
                   end).
  { assert (Hund : undotted (Py.strip raw) = str_or (Py.slice_from 1 (Py.strip raw)) ".").
    { unfold undotted. rewrite Hslash, Hdot. reflexivity. }
    unfold extract_paths. rewrite Hraw. simpl. rewrite Htruthy. simpl.
    rewrite Hdot, Hund, absolute_of_str_or_dot. reflexivity. }
  split; [exact Hext|].
  intros patterns Hne. rewrite filter_by_glob_filter.
  destruct patterns as [|p ps]; [congruence|].
  cbn [first_raise List.filter].
  destruct (absolute_of h (Py.slice_from 1 cleaned) workspace) as [e | abs_path].
  - rewrite Hext. reflexivity.
  - rewrite Hext. unfold survives, has_path. rewrite Hraw.
    cbn [opt_truthy]. rewrite Htruthy. cbn [negb orb].
    rewrite (any_fnmatch_pair h line workspace _ _ _ (p :: ps) Hext).
    destruct (existsb _ (p :: ps)); reflexivity.
Qed.

Lemma extract_paths_strips_leading_dot_witness :
  let h := demo_host ∅ JNull (Completed 0 "" "") in
  extract_paths h ".env:3:match" ws = inr (Some ".env", Some "env", Some "/ws/env")
  /\ filter_by_glob h [".env:3:match"] [".env"] ws = inr []
  /\ filter_by_glob h [".env:3:match"] ["env"] ws = inr [".env:3:match"].
Proof.
  intros h.
  destruct (extract_paths_strips_leading_dot h ".env:3:match" ".env" ws
              eq_refl eq_refl eq_refl) as [Hext Hglob].
  split; [exact Hext|].
  split.
  - rewrite (Hglob [".env"]) by discriminate. reflexivity.
  - rewrite (Hglob ["env"]) by discriminate. reflexivity.
Defined.

(** ** Relative and absolute path of a line *)

(** A path under [base] is [base] joined with its relative form. *)
Lemma join_relative_to (p base q : Path.t) :
  Path.wf p -> Path.relative_to p base = Some q ->
  Path.join_str base (Path.as_posix q) = p.
Proof.
  intros [_ Hparts] Hrel. apply relative_to_spec in Hrel as (Hroot & Hq & Hp).
  assert (Hwfq : Path.wf q).
  { split; [auto|]. rewrite Hp in Hparts. apply Forall_app in Hparts as [_ ?]. assumption. }
  unfold Path.join_str. rewrite (parse_as_posix q Hwfq).
  unfold Path.join, Path.is_absolute. rewrite Hq. simpl.
  destruct p as [rt ps]. simpl in *. subst. reflexivity.
Qed.

(** *** Stability of [resolve] where the real path is the normal form *)

Lemma all_chars_app (P : ascii -> bool) (a b : string) :
  Py.all_chars P (a +:+ b) = Py.all_chars P a && Py.all_chars P b.
Proof.
  induction a as [|c a IH]; [reflexivity|].
  change (String c a +:+ b) with (String c (a +:+ b)).
  simpl. rewrite IH, andb_assoc. reflexivity.
Qed.

Lemma all_chars_join (P : ascii -> bool) (sep : string) (l : list string) :
  Py.all_chars P sep = true ->
  Forall (fun x => Py.all_chars P x = true) l ->
  Py.all_chars P (Py.join sep l) = true.
Proof.
  intros Hsep. induction 1 as [|x l Hx Hl IH]; [reflexivity|].
  destruct l as [|y l']; [exact Hx|].
  rewrite join_cons2, !all_chars_app, Hx, Hsep, IH. reflexivity.
Qed.

Lemma split_slash_all_chars (P : ascii -> bool) (s : string) :
  Py.all_chars P s = true ->
  Forall (fun x => Py.all_chars P x = true) (Path.split_slash s).
Proof.
  induction s as [|c r IH]; simpl; intros H.
  - repeat constructor.
  - apply andb_true_iff in H as [Hc Hr]. specialize (IH Hr).
    destruct (Ascii.eqb c Path.slash).
    + constructor; [reflexivity | exact IH].
    + destruct (Path.split_slash r) as [|x tl].
      * repeat constructor. simpl. rewrite Hc. reflexivity.
      * inversion IH as [|? ? Hx Htl]; subst.
        constructor; [|assumption]. simpl. rewrite Hc. exact Hx.
Qed.

Lemma parse_all_chars (P : ascii -> bool) (s : string) :
  Py.all_chars P s = true ->
  Forall (fun x => Py.all_chars P x = true) (Path.parts (Path.parse s)).
Proof.
  intros H.
  assert (Hrel : Py.all_chars P (snd (Path.splitroot s)) = true).
  { unfold Path.splitroot.
    destruct s as [|c0 [|c1 [|c2 r2]]]; simpl in *;
      repeat match goal with
             | |- context [if ?b then _ else _] => destruct b
             end; simpl;
      repeat match goal with
             | H : _ && _ = true |- _ => apply andb_true_iff in H as [? ?]
             end;
      rewrite ?andb_true_iff; auto. }
  unfold Path.parse. destruct (Path.splitroot s) as [rt rel]. simpl in *.
  apply split_slash_all_chars in Hrel.
  apply List.Forall_forall. intros x Hin. apply filter_In in Hin as [Hin _].
  rewrite List.Forall_forall in Hrel. apply Hrel, Hin.
Qed.

Lemma normalize_all_chars (P : ascii -> bool) (cwd p : Path.t) :
  Forall (fun x => Py.all_chars P x = true) (Path.parts cwd) ->
  Forall (fun x => Py.all_chars P x = true) (Path.parts p) ->
  Forall (fun x => Py.all_chars P x = true) (Path.parts (Path.normalize cwd p)).
Proof.
  intros Hc Hp. simpl. unfold Path.collapse.
  apply fold_step_invariant; [constructor|].
  apply Forall_impl with (P := fun x => Py.all_chars P x = true); [|auto].
  destruct (Path.is_absolute p); [assumption | apply Forall_app; split; assumption].
Qed.

Lemma as_posix_all_chars (P : ascii -> bool) (p : Path.t) :
  Path.root p = "/" -> P "/"%char = true ->
  Forall (fun x => Py.all_chars P x = true) (Path.parts p) ->
  Py.all_chars P (Path.as_posix p) = true.
Proof.
  destruct p as [rt ps]. simpl. intros -> Hs Hall.
  destruct ps as [|x l]; [simpl; rewrite Hs; reflexivity|].
  rewrite as_posix_cons, all_chars_app, all_chars_join.
  - simpl. rewrite Hs. reflexivity.
  - simpl. rewrite Hs. reflexivity.
  - exact Hall.
Qed.

(** On the hosts of the examples [resolve] takes the normal form from the
    current directory. *)
Lemma demo_host_resolve (env : gmap string string) (request : json)
    (result : run_result) (p : Path.t) :
  Path.wf p -> Py.has_nul (Path.as_posix p) = false ->
  resolve (demo_host env request result) p
  = inr (Path.normalize (Path.parse "/ws") p).
Proof.
  intros Hwf Hnul. unfold resolve. rewrite Hnul.
  change (realpath (demo_host env request result) (Path.as_posix p))
    with (@inr exn string
            (Path.as_posix (Path.normalize (Path.parse "/ws")
                              (Path.parse (Path.as_posix p))))).
  rewrite (parse_as_posix p Hwf).
  assert (Hres : Path.resolved (Path.normalize (Path.parse "/ws") p))
    by (apply normalize_of_wf; [apply parse_wf | exact Hwf]).
  rewrite (parse_as_posix _ (resolved_wf _ Hres)).
  rewrite (normalize_idempotent _ _ Hres). reflexivity.
Qed.

(** They are stable: what [resolve] has returned resolves to itself. *)
Lemma demo_host_stable (env : gmap string string) (request : json)
    (result : run_result) :
  stable_resolve (demo_host env request result).
Proof.
  intros p q Hres.
  pose proof (resolve_returns_resolved _ _ _ Hres) as Hq.
  assert (Hnul : Py.has_nul (Path.as_posix q) = false).
  { revert Hres. unfold resolve.
    destruct (Py.has_nul (Path.as_posix p)) eqn:Hp; [discriminate|].
    change (realpath (demo_host env request result) (Path.as_posix p))
      with (@inr exn string
              (Path.as_posix (Path.normalize (Path.parse "/ws")
                                (Path.parse (Path.as_posix p))))).
    intros [= <-].
    set (P := fun c => negb (Py.code c =? 0)%N).
    assert (Hp' : Py.all_chars P (Path.as_posix p) = true).
    { unfold Py.has_nul in Hp. apply negb_false_iff in Hp. exact Hp. }
    unfold Py.has_nul. apply negb_false_iff.
    apply as_posix_all_chars; [reflexivity | reflexivity|].
    apply normalize_all_chars; [constructor|].
    apply parse_all_chars, as_posix_all_chars; [reflexivity | reflexivity|].
    apply normalize_all_chars; [repeat constructor|].
    apply parse_all_chars, Hp'. }
  rewrite (demo_host_resolve env request result q (resolved_wf _ Hq) Hnul).
  rewrite (normalize_idempotent _ _ Hq). reflexivity.
Qed.

(** C7, as the code has it. For a line whose path lies under the
    workspace, joining [relative_path] onto the workspace gives the very
    path that [absolute_path] names, so resolving the one is resolving the
    other. For a relative token [absolute_path] is what resolving the token
    gave, a resolved path, and the join resolves back to it whenever
    resolving is stable. An absolute token is returned as it was written,
    unresolved. *)
Theorem relative_path_round_trip (h : Host) (line d r a : string)
    (workspace : Path.t) :
  extract_paths h line workspace = inr (Some d, Some r, Some a) ->
  Path.relative_to (Path.parse a) workspace <> None ->
  Path.join_str workspace r = Path.parse a
  /\ resolve h (Path.join_str workspace r) = resolve h (Path.parse a)
  /\ (forall raw,
        raw_token line = Some raw ->
        Py.startswith (undotted (Py.strip raw)) "/"
        || drive_letter (undotted (Py.strip raw)) = false ->
        resolve h (Path.join_str workspace (undotted (Py.strip raw)))
        = inr (Path.parse a)
        /\ Path.resolved (Path.parse a)
        /\ (stable_resolve h ->
            resolve h (Path.join_str workspace r) = inr (Path.parse a)))
  /\ (forall raw,
        raw_token line = Some raw ->
        Py.startswith (undotted (Py.strip raw)) "/"
        || drive_letter (undotted (Py.strip raw)) = true ->
        Path.parse a = Path.parse (undotted (Py.strip raw))).
Proof.
  intros Hext Hunder.
  destruct (extract_paths_cases h line workspace) as [[_ Hnone] | (raw & Hraw & _ & Hsome)];
    [congruence|].
  rewrite Hsome in Hext.
  destruct (absolute_of h (undotted (Py.strip raw)) workspace) as [e | p] eqn:Habs;
    [discriminate|].
  injection Hext as _ Hr Ha.
  destruct (absolute_of_good _ _ _ _ Habs) as [Hpwf _].
  assert (Hparse : Path.parse a = p) by (rewrite <- Ha; apply parse_as_posix, Hpwf).
  rewrite Hparse in *.
  destruct (Path.relative_to p workspace) as [q|] eqn:Hq; [clear Hunder | congruence].
  assert (Hjoin : Path.join_str workspace r = p).
  { rewrite <- Hr. unfold relative_text. rewrite Hq.
    apply join_relative_to; assumption. }
  rewrite Hjoin.
  split; [reflexivity|]. split; [reflexivity|]. split.
  - intros raw' Hraw' Hbranch. rewrite Hraw in Hraw'. injection Hraw' as <-.
    unfold absolute_of in Habs. rewrite Hbranch in Habs.
    split; [exact Habs|].
    split; [eapply resolve_returns_resolved; exact Habs|].
    intros Hstable. eapply Hstable. exact Habs.
  - intros raw' Hraw' Hbranch. rewrite Hraw in Hraw'. injection Hraw' as <-.
    unfold absolute_of in Habs. rewrite Hbranch in Habs. congruence.
Qed.

Lemma relative_path_round_trip_witness :
  let h := demo_host ∅ JNull (Completed 0 "" "") in
  resolve h (Path.join_str ws "src/a.go") = inr (Path.parse "/ws/src/a.go").
Proof.
  intros h.
  destruct (relative_path_round_trip h "./src/../src/a.go:12:x" "./src/../src/a.go"
              "src/a.go" "/ws/src/a.go" ws eq_refl ltac:(discriminate))
    as (_ & _ & Hrel & _).
  destruct (Hrel "./src/../src/a.go" eq_refl eq_refl) as (_ & _ & Hback).
  apply Hback, demo_host_stable.
Defined.

(** An absolute token is returned as it was written: with a [".."] inside
    it, joining the relative path onto the workspace and resolving gives a
    path other than [absolute_path]. *)
Lemma absolute_token_not_resolved :
  let h := demo_host ∅ JNull (Completed 0 "" "") in
  extract_paths h "/ws/a/../b.py:1:x" ws
  = inr (Some "a/../b.py", Some "a/../b.py", Some "/ws/a/../b.py")
  /\ Path.relative_to (Path.parse "/ws/a/../b.py") ws = Some (Path.mk "" ["a"; ".."; "b.py"])
  /\ resolve h (Path.join_str ws "a/../b.py") = inr (Path.parse "/ws/b.py")
  /\ Path.as_posix (Path.parse "/ws/b.py") = "/ws/b.py"
  /\ "/ws/b.py" <> "/ws/a/../b.py".
Proof. repeat split; try reflexivity. discriminate. Qed.

(** * Further properties of the script *)

(** ** Ways out of [main] before the command *)

Lemma main_of_request (h : Host) (g : Globals) (payload tool_input : dict)
    (pattern : string) :
  request_of h = Some (payload, tool_input, pattern) ->
  main h g [] = intercept h g payload tool_input pattern [].
Proof.
  unfold request_of, main, read_hook_input.
  destruct (negb (Py.truthy (Py.strip (stdin h)))); [discriminate|].
  destruct (json_loads h (stdin h)) as [v | exc | e]; try discriminate.
  unfold bind, ret, lift.
  destruct (accept (Some v)) as [e | [request|]]; try discriminate.
  intros [= ->]. reflexivity.
Qed.

(** Standard input that is blank, or that [json.loads] rejects with
    [JSONDecodeError], is a skip: [main] returns 0, runs nothing and writes
    nothing to standard error; blank input is not even logged. Any other
    exception of [json.loads] is not caught: [main] ends with it, having
    done nothing. *)
Theorem main_skips_unreadable_input (h : Host) (g : Globals) :
  (Py.strip (stdin h) = "" -> main h g [] = (inr 0, []))
  /\ (forall message,
        Py.strip (stdin h) <> "" -> json_loads h (stdin h) = DecodeError message ->
        main h g [] = (inr 0, [Log ("Failed to decode JSON: " +:+ message)]))
  /\ (forall e,
        Py.strip (stdin h) <> "" -> json_loads h (stdin h) = LoadsRaised e ->
        main h g [] = (inl e, [])).
Proof.
  unfold main, read_hook_input. split; [|split].
  - intros ->. reflexivity.
  - intros message Hne Hloads.
    apply truthy_true_iff in Hne. rewrite Hne, Hloads. reflexivity.
  - intros e Hne Hloads.
    apply truthy_true_iff in Hne. rewrite Hne, Hloads. reflexivity.
Qed.

(** A JSON document that is truthy but not an object (a non-empty list or
    string, a non-zero number, [true]) is not a skip: [payload.get] raises
    [AttributeError] and [main] ends with it, having done nothing else. *)
Theorem main_raises_on_non_object (h : Host) (g : Globals) (v : json) :
  Py.strip (stdin h) <> "" ->
  json_loads h (stdin h) = Decoded v ->
  truthy v = true ->
  (forall payload, v <> JDict payload) ->
  exists message, main h g [] = (inl (Exn AttributeError message), []).
Proof.
  intros Hne Hloads Htruthy Hobj.
  assert (Hacc : exists message, accept (Some v) = inl (Exn AttributeError message)).
  { unfold accept. rewrite Htruthy. simpl.
    destruct v; try (eexists; reflexivity).
    exfalso. eapply Hobj. reflexivity. }
  destruct Hacc as [message Hacc]. exists message.
  unfold main, read_hook_input.
  apply truthy_true_iff in Hne. rewrite Hne. cbn [negb]. rewrite Hloads.
  unfold bind, ret, lift, raise. rewrite Hacc. reflexivity.
Qed.

Lemma main_raises_on_non_object_witness :
  exists message,
    main (demo_host ∅ (JList [JInt 1]) (Completed 0 "" "")) demo_globals []
    = (inl (Exn AttributeError message), []).
Proof.
  apply (main_raises_on_non_object
           (demo_host ∅ (JList [JInt 1]) (Completed 0 "" "")) demo_globals
           (JList [JInt 1])).
  - discriminate.
  - reflexivity.
  - reflexivity.
  - discriminate.
Defined.

(** With [MGREP_HOOK_DISABLE] set to [1], [true], [yes] or [on] in any
    letter case, an accepted request is skipped: [main] returns 0 after one
    log entry, without looking for the token file or the binary and
    without running anything. *)
Theorem main_skips_when_disabled (h : Host) (g : Globals) (payload tool_input : dict)
    (pattern value : string) :
  request_of h = Some (payload, tool_input, pattern) ->
  environ h !! "MGREP_HOOK_DISABLE" = Some value ->
  In (Py.lower value) ["1"; "true"; "yes"; "on"] ->
  main h g [] = (inr 0, [Log "MGREP_HOOK_DISABLE is set; skipping"]).
Proof.
  intros Hreq Henv Hin. rewrite (main_of_request _ _ _ _ _ Hreq).
  unfold intercept.
  assert (Hdis : is_disabled h = true).
  { unfold is_disabled. rewrite Henv.
    assert (Ht : Py.truthy value = true).
    { destruct value; [|reflexivity]. simpl in Hin.
      destruct Hin as [H | [H | [H | [H | []]]]]; discriminate H. }
    rewrite Ht. simpl in Hin |- *.
    destruct Hin as [<- | [<- | [<- | [<- | []]]]]; reflexivity. }
  rewrite Hdis. reflexivity.
Qed.

Lemma main_skips_when_disabled_witness :
  main (demo_host {[ "MGREP_HOOK_DISABLE" := "Yes" ]}
          (grep_request [("pattern", JStr "foo")]) (Completed 0 "a:1:x" ""))
       demo_globals []
  = (inr 0, [Log "MGREP_HOOK_DISABLE is set; skipping"]).
Proof.
  apply (main_skips_when_disabled _ _
           [("tool_name", JStr "Grep"); ("tool_input", JDict [("pattern", JStr "foo")])]
           [("pattern", JStr "foo")] "foo" "Yes").
  - reflexivity.
  - reflexivity.
  - simpl. auto.
Defined.

(** Without the token file an accepted request is skipped: [main] returns
    0 after one log entry and runs nothing. *)
Theorem main_skips_without_token (h : Host) (g : Globals) (payload tool_input : dict)
    (pattern : string) :
  request_of h = Some (payload, tool_input, pattern) ->
  is_disabled h = false ->
  exists_ h (Path.as_posix (TOKEN_FILE g)) = false ->
  main h g [] = (inr 0, [Log "No ~/.mgrep/token.json found; skipping mgrep"]).
Proof.
  intros Hreq Hdis Htok. rewrite (main_of_request _ _ _ _ _ Hreq).
  unfold intercept. rewrite Hdis, Htok. reflexivity.
Qed.

Lemma main_skips_without_token_witness :
  main (with_files (fun _ => false)
          (demo_host ∅ (grep_request [("pattern", JStr "foo")]) (Completed 0 "a:1:x" "")))
       demo_globals []
  = (inr 0, [Log "No ~/.mgrep/token.json found; skipping mgrep"]).
Proof.
  apply (main_skips_without_token _ _ foo_payload [("pattern", JStr "foo")] "foo");
    reflexivity.
Defined.

(** ** Finding the binary *)

(** A non-empty [MGREP_BIN] decides the command prefix: it is the override
    split into words, whatever the search path and the plugin root hold,
    and a split that fails is an uncaught exception. An empty override
    counts as none. *)
Theorem resolve_mgrep_command_override (h : Host) (override : string) :
  environ h !! "MGREP_BIN" = Some override ->
  (override <> "" ->
   resolve_mgrep_command h
   = match shlex_split h override with
     | inl e => inl e
     | inr words => inr (Some words)
     end)
  /\ (override = "" ->
      forall binary, which h "mgrep" = Some binary -> binary <> "" ->
      resolve_mgrep_command h = inr (Some [binary])).
Proof.
  intros Henv. unfold resolve_mgrep_command. rewrite Henv. split.
  - destruct override; [congruence | reflexivity].
  - intros -> binary -> Hne. destruct binary; [congruence | reflexivity].
Qed.

Lemma resolve_mgrep_command_override_witness :
  resolve_mgrep_command
    (demo_host {[ "MGREP_BIN" := "node /opt/mgrep/index.js" ]} JNull (Completed 0 "" ""))
  = inr (Some ["node /opt/mgrep/index.js"]).
Proof.
  assert (Henv : environ (demo_host {[ "MGREP_BIN" := "node /opt/mgrep/index.js" ]}
                            JNull (Completed 0 "" ""))
                 !! "MGREP_BIN" = Some "node /opt/mgrep/index.js") by reflexivity.
  destruct (resolve_mgrep_command_override _ _ Henv) as [H _].
  rewrite H by discriminate. reflexivity.
Defined.

(** With no usable [MGREP_BIN] and no [mgrep] on the search path, the
    plugin root decides. When [CLAUDE_PLUGIN_ROOT] is set to a non-empty
    text that can be resolved, the script [<root>/dist/index.js], [<root>]
    being two levels above the resolved plugin root, is looked for: if it
    exists the prefix is [node] followed by that script, and if it does not
    there is no command. There is no command either when the variable is
    unset or empty, and an exception of resolving is not caught. *)
Theorem resolve_mgrep_command_fallback (h : Host) :
  (environ h !! "MGREP_BIN" = None \/ environ h !! "MGREP_BIN" = Some "") ->
  (which h "mgrep" = None \/ which h "mgrep" = Some "") ->
  (forall plugin_root plugin_path,
      environ h !! "CLAUDE_PLUGIN_ROOT" = Some plugin_root -> plugin_root <> "" ->
      resolve h (Path.parse plugin_root) = inr plugin_path ->
      let script :=
        Path.as_posix
          (Path.mk "/" (removelast (removelast (Path.parts plugin_path))
                        ++ ["dist"; "index.js"])) in
      (exists_ h script = true ->
       resolve_mgrep_command h = inr (Some ["node"; script]))
      /\ (exists_ h script = false -> resolve_mgrep_command h = inr None))
  /\ (forall plugin_root e,
        environ h !! "CLAUDE_PLUGIN_ROOT" = Some plugin_root -> plugin_root <> "" ->
        resolve h (Path.parse plugin_root) = inl e ->
        resolve_mgrep_command h = inl e)
  /\ (environ h !! "CLAUDE_PLUGIN_ROOT" = None
      \/ environ h !! "CLAUDE_PLUGIN_ROOT" = Some "" ->
      resolve_mgrep_command h = inr None).
Proof.
  intros Hbin Hwhich.
  assert (Hcmd : resolve_mgrep_command h
                 = match environ h !! "CLAUDE_PLUGIN_ROOT" with
                   | Some (String c r) =>
                       match resolve h (Path.parse (String c r)) with
                       | inl e => inl e
                       | inr plugin_path =>
                           let candidate :=
                             Path.join_str
                               (Path.join_str (parent (parent plugin_path)) "dist")
                               "index.js" in
                           if exists_ h (Path.as_posix candidate)
                           then inr (Some ["node"; Path.as_posix candidate])
                           else inr None
                       end
                   | _ => inr None
                   end).
  { unfold resolve_mgrep_command.
    destruct Hbin as [-> | ->]; destruct Hwhich as [-> | ->];
      destruct (environ h !! "CLAUDE_PLUGIN_ROOT") as [[|c r]|]; reflexivity. }
  split; [|split].
  - intros plugin_root plugin_path Hroot Hne Hres script.
    rewrite Hcmd, Hroot. destruct plugin_root as [|c r]; [congruence|].
    rewrite Hres. cbv zeta.
    assert (Hcand : Path.join_str
                      (Path.join_str (parent (parent plugin_path)) "dist") "index.js"
                    = Path.mk "/" (removelast (removelast (Path.parts plugin_path))
                                   ++ ["dist"; "index.js"])).
    { destruct (resolve_returns_resolved _ _ _ Hres) as [Hrt _].
      unfold Path.join_str, parent.
      change (Path.parse "dist") with (Path.mk "" ["dist"]).
      change (Path.parse "index.js") with (Path.mk "" ["index.js"]).
      unfold Path.join, Path.is_absolute. simpl.
      rewrite Hrt, <- app_assoc. reflexivity. }
    rewrite Hcand. fold script.
    split; intros ->; reflexivity.
  - intros plugin_root e Hroot Hne Hres.
    rewrite Hcmd, Hroot. destruct plugin_root as [|c r]; [congruence|].
    rewrite Hres. reflexivity.
  - intros [Hroot | Hroot]; rewrite Hcmd, Hroot; reflexivity.
Qed.

Lemma resolve_mgrep_command_fallback_witness :
  resolve_mgrep_command
    (with_which (fun _ => None)
       (demo_host {[ "CLAUDE_PLUGIN_ROOT" := "/repo/plugins/mgrep" ]} JNull
          (Completed 0 "" "")))
  = inr (Some ["node"; "/repo/dist/index.js"]).
Proof.
  set (h := with_which (fun _ => None)
              (demo_host {[ "CLAUDE_PLUGIN_ROOT" := "/repo/plugins/mgrep" ]} JNull
                 (Completed 0 "" ""))).
  assert (Hbin : environ h !! "MGREP_BIN" = None) by reflexivity.
  assert (Hroot : environ h !! "CLAUDE_PLUGIN_ROOT" = Some "/repo/plugins/mgrep")
    by reflexivity.
  destruct (resolve_mgrep_command_fallback h (or_introl Hbin) (or_introl eq_refl))
    as (Hscript & _).
  destruct (Hscript "/repo/plugins/mgrep" (Path.parse "/repo/plugins/mgrep") Hroot
              ltac:(discriminate) eq_refl) as [Hyes _].
  apply Hyes. reflexivity.
Defined.

(** When no binary can be resolved an accepted request is skipped: [main]
    returns 0 after one log entry and runs nothing. *)
Theorem main_skips_without_binary (h : Host) (g : Globals) (payload tool_input : dict)
    (pattern : string) :
  request_of h = Some (payload, tool_input, pattern) ->
  is_disabled h = false ->
  exists_ h (Path.as_posix (TOKEN_FILE g)) = true ->
  (resolve_mgrep_command h = inr None \/ resolve_mgrep_command h = inr (Some [])) ->
  main h g [] = (inr 0, [Log "Cannot resolve mgrep binary; skipping"]).
Proof.
  intros Hreq Hdis Htok Hcmd. rewrite (main_of_request _ _ _ _ _ Hreq).
  unfold intercept. rewrite Hdis, Htok. cbn [negb].
  unfold bind at 1. unfold lift at 1.
  destruct Hcmd as [-> | ->]; reflexivity.
Qed.

Lemma main_skips_without_binary_witness :
  main (with_which (fun _ => None)
          (demo_host ∅ (grep_request [("pattern", JStr "foo")]) (Completed 0 "a:1:x" "")))
       demo_globals []
  = (inr 0, [Log "Cannot resolve mgrep binary; skipping"]).
Proof.
  apply (main_skips_without_binary _ _ foo_payload [("pattern", JStr "foo")] "foo");
    try reflexivity.
  left. reflexivity.
Defined.

(** ** The one command *)

(** [run_mgrep] after the trace [tr]: what it returns and what it adds. *)
Lemma run_mgrep_from (h : Host) (command : list string) (cwd : Path.t)
    (tr : list event) :
  run_mgrep h command cwd tr
  = match subprocess_run h command cwd with
    | Completed returncode stdout stderr =>
        if negb (returncode =? 0)
        then (inr None,
              tr ++ [Run command cwd;
                     Log ("mgrep exited with " +:+ Py.str_of_int returncode
                          +:+ ": " +:+ Py.strip stderr)])
        else (inr (Some stdout), tr ++ [Run command cwd])
    | RunRaised exc =>
        match kind exc with
        | FileNotFoundError | TimeoutExpired =>
            (inr None,
             tr ++ [Run command cwd; Log ("mgrep execution failed: " +:+ text exc)])
        | _ => (inl exc, tr ++ [Run command cwd])
        end
    end.
Proof.
  unfold run_mgrep. run_monad.
  destruct (subprocess_run h command cwd) as [rc out err | exc].
  - destruct (negb (rc =? 0)); rewrite <- ?app_assoc; reflexivity.
  - destruct (kind exc); rewrite <- ?app_assoc; reflexivity.
Qed.

Lemma main_no_request (h : Host) (g : Globals) (r : exn + Z) (tr : list event) :
  request_of h = None -> main h g [] = (r, tr) ->
  commands_of tr = [] /\ cwds_of tr = [] /\ stderr_of tr = []
  /\ (r = inr 0 \/ exists e, r = inl e).
Proof.
  unfold request_of, main, read_hook_input.
  destruct (negb (Py.truthy (Py.strip (stdin h)))).
  - intros _. run_monad. intros [= <- <-]. auto.
  - destruct (json_loads h (stdin h)) as [v | exc | e].
    + unfold bind, ret, lift, raise.
      destruct (accept (Some v)) as [e | [request|]]; try discriminate;
        intros _ [= <- <-]; eauto 6.
    + intros _. run_monad. intros [= <- <-]. auto.
    + intros _. run_monad. intros [= <- <-]. eauto 6.
Qed.

(** The accepted part of [main] stops before running anything, or runs
    one command in the workspace and ends as that command's outcome says;
    after a command that returned 0 it answers, unless shaping the answer
    raises. *)
Lemma intercept_run (h : Host) (g : Globals) (payload tool_input : dict)
    (pattern : string) (r : exn + Z) (tr : list event) :
  intercept h g payload tool_input pattern [] = (r, tr) ->
  (commands_of tr = [] /\ cwds_of tr = [] /\ stderr_of tr = []
   /\ (r = inr 0 \/ exists e, r = inl e))
  \/ (exists command workspace,
        commands_of tr = [command] /\ cwds_of tr = [workspace]
        /\ resolve_workspace h payload = inr workspace
        /\ match subprocess_run h command workspace with
           | Completed rc _ _ =>
               if rc =? 0
               then (r = inr 2 /\ exists text, stderr_of tr = [hook_response text])
                    \/ ((exists e, r = inl e) /\ stderr_of tr = [])
               else r = inr 0 /\ stderr_of tr = []
           | RunRaised exc =>
               stderr_of tr = []
               /\ match kind exc with
                  | FileNotFoundError | TimeoutExpired => r = inr 0
                  | _ => r = inl exc
                  end
           end).
Proof.
  unfold intercept.
  destruct (is_disabled h); [run_monad; intros [= <- <-]; left; auto|].
  destruct (negb (exists_ h (Path.as_posix (TOKEN_FILE g))));
    [run_monad; intros [= <- <-]; left; auto|].
  unfold bind at 1. unfold lift at 1.
  destruct (resolve_mgrep_command h) as [e | [[|w words]|]];
    try (run_monad; intros [= <- <-]; left; eauto 6; fail).
  unfold ret at 1. unfold bind at 1. unfold lift at 1.
  destruct (resolve_workspace h payload) as [e | workspace];
    [run_monad; intros [= <- <-]; left; eauto 6|].
  unfold ret at 1. unfold bind at 1. unfold lift at 1.
  destruct (resolve_scope_path h tool_input workspace) as [e | scope];
    [run_monad; intros [= <- <-]; left; eauto 6|].
  unfold ret at 1. unfold bind at 1. unfold lift at 1.
  destruct (parse_max_results h g tool_input) as [e | max_results];
    [run_monad; intros [= <- <-]; left; eauto 6|].
  unfold ret at 1. unfold bind at 1. unfold lift at 1.
  destruct (resolve_output_mode tool_input) as [e | output_mode];
    [run_monad; intros [= <- <-]; left; eauto 6|].
  unfold ret at 1.
  set (command := build_command (w :: words) _ _ _ _ _).
  unfold bind at 1. unfold debug_log at 1, emit at 1. unfold bind at 1.
  intros Hrun. right. exists command, workspace.
  rewrite run_mgrep_from in Hrun.
  destruct (subprocess_run h command workspace) as [rc out err | exc].
  - destruct (rc =? 0); cbn [negb] in Hrun; cbv beta iota in Hrun.
    + rewrite bind_lift in Hrun.
      destruct (filter_by_glob h _ _ workspace) as [e | lines].
      { injection Hrun as <- <-. simpl. eauto 8. }
      rewrite bind_lift in Hrun.
      destruct (build_payload h lines pattern _ _ workspace) as [e | payload_text].
      { injection Hrun as <- <-. simpl. eauto 8. }
      run_monad. injection Hrun as <- <-. simpl. eauto 8.
    + injection Hrun as <- <-. simpl. auto.
  - destruct (kind exc); injection Hrun as <- <-; simpl; auto.
Qed.

(** [main] runs at most one command; when it does, the working directory
    is the resolved workspace, and an exit with code 2 means exactly one
    command was run and returned 0. *)
Theorem main_runs_one_command (h : Host) (g : Globals) (r : exn + Z)
    (tr : list event) :
  main h g [] = (r, tr) ->
  (length (commands_of tr) <= 1)%nat
  /\ (forall workspace, In workspace (cwds_of tr) ->
        exists payload tool_input pattern,
          request_of h = Some (payload, tool_input, pattern)
          /\ resolve_workspace h payload = inr workspace)
  /\ (r = inr 2 ->
      exists command workspace stdout stderr,
        commands_of tr = [command] /\ cwds_of tr = [workspace]
        /\ subprocess_run h command workspace = Completed 0 stdout stderr).
Proof.
  intros Hmain.
  destruct (request_of h) as [[[payload tool_input] pattern]|] eqn:Hreq.
  - rewrite (main_of_request _ _ _ _ _ Hreq) in Hmain.
    apply intercept_run in Hmain
      as [(Hc & Hw & _ & Hr) | (command & workspace & Hc & Hw & Hws & Hout)].
    + rewrite Hc, Hw. split; [simpl; lia|]. split; [intros ? []|].
      intros ->. destruct Hr as [H | [e H]]; discriminate H.
    + rewrite Hc, Hw. split; [simpl; lia|]. split.
      * intros ? [<- | []]. eauto.
      * intros ->. exists command, workspace.
        destruct (subprocess_run h command workspace) as [rc out err | exc].
        -- destruct (rc =? 0) eqn:E; [|destruct Hout as [H _]; discriminate H].
           apply Z.eqb_eq in E. subst rc. eauto.
        -- destruct Hout as [_ H]. destruct (kind exc); discriminate H.
  - destruct (main_no_request _ _ _ _ Hreq Hmain) as (Hc & Hw & _ & Hr).
    rewrite Hc, Hw. split; [simpl; lia|]. split; [intros ? []|].
    intros ->. destruct Hr as [H | [e H]]; discriminate H.
Qed.

Lemma main_runs_one_command_witness :
  (length (commands_of
             [Log "Running command: /usr/bin/mgrep search -m 20 foo (cwd=/ws)";
              Run ["/usr/bin/mgrep"; "search"; "-m"; "20"; "foo"] ws;
              Stderr (hook_response
                        ("MGrep semantic search for 'foo' in ." +:+ nl +:+ "a.go:1:x"))])
   <= 1)%nat.
Proof.
  assert (Hmain :
    main (demo_host ∅ (grep_request [("pattern", JStr "foo")])
            (Completed 0 ("a.go:1:x" +:+ nl) "")) demo_globals []
    = (inr 2,
       [Log "Running command: /usr/bin/mgrep search -m 20 foo (cwd=/ws)";
        Run ["/usr/bin/mgrep"; "search"; "-m"; "20"; "foo"] ws;
        Stderr (hook_response
                  ("MGrep semantic search for 'foo' in ." +:+ nl +:+ "a.go:1:x"))]))
    by (vm_compute; reflexivity).
  exact (proj1 (main_runs_one_command _ _ _ _ Hmain)).
Defined.

(** Fail-open on a failing command: when the command can only fail in a
    way [run_mgrep] recognises (binary not found, timeout, non-zero return
    code), [main] never intercepts: it writes nothing to standard error and
    does not return 2. *)
Theorem main_fails_open (h : Host) (g : Globals) (r : exn + Z) (tr : list event) :
  (forall command cwd, recognised_failure (subprocess_run h command cwd)) ->
  main h g [] = (r, tr) ->
  stderr_of tr = [] /\ r <> inr 2
  /\ (commands_of tr <> [] -> r = inr 0).
Proof.
  intros Hfail Hmain.
  destruct (request_of h) as [[[payload tool_input] pattern]|] eqn:Hreq.
  - rewrite (main_of_request _ _ _ _ _ Hreq) in Hmain.
    apply intercept_run in Hmain
      as [(Hc & _ & He & Hr) | (command & workspace & Hc & _ & _ & Hout)].
    + split; [exact He|]. split; [|congruence].
      destruct Hr as [-> | [e ->]]; discriminate.
    + specialize (Hfail command workspace).
      destruct (subprocess_run h command workspace) as [rc out err | exc];
        simpl in Hfail.
      * destruct (rc =? 0) eqn:E; [apply Z.eqb_eq in E; contradiction|].
        destruct Hout as [-> He]. repeat split; [exact He | discriminate].
      * destruct Hout as [He Hr].
        destruct Hfail as [Hk | Hk]; rewrite Hk in Hr; subst r;
          repeat split; try exact He; discriminate.
  - destruct (main_no_request _ _ _ _ Hreq Hmain) as (Hc & _ & He & Hr).
    split; [exact He|]. split; [|congruence].
    destruct Hr as [-> | [e ->]]; discriminate.
Qed.

Lemma main_fails_open_witness :
  stderr_of
    (snd (main (demo_host ∅ (grep_request [("pattern", JStr "foo")])
                  (RunRaised (Exn TimeoutExpired "timed out after 25.0 seconds")))
               demo_globals []))
  = [].
Proof.
  refine (proj1 (main_fails_open
                   (demo_host ∅ (grep_request [("pattern", JStr "foo")])
                      (RunRaised (Exn TimeoutExpired "timed out after 25.0 seconds")))
                   demo_globals _ _ _ _)).
  - intros command cwd. right. reflexivity.
  - apply surjective_pairing.
Defined.

(** ** Glob patterns of the request *)

Lemma lstrip_no_leading_space (s : string) : no_leading_space (Py.lstrip s).
Proof.
  induction s as [|c r IH]; simpl; [exact I|].
  destruct (Py.isspace c) eqn:E; [exact IH | simpl; exact E].
Qed.

Lemma lstrip_fixed (s : string) : no_leading_space s -> Py.lstrip s = s.
Proof. destruct s as [|c r]; simpl; [reflexivity|]. intros ->. reflexivity. Qed.

Lemma rstrip_no_leading_space (s : string) :
  no_leading_space s -> no_leading_space (Py.rstrip s).
Proof.
  destruct s as [|c r]; simpl; [exact id|]. intros Hc.
  destruct (Py.rstrip r); [rewrite Hc|]; simpl; exact Hc.
Qed.

Lemma rstrip_idempotent (s : string) : Py.rstrip (Py.rstrip s) = Py.rstrip s.
Proof.
  induction s as [|c r IH]; simpl; [reflexivity|].
  destruct (Py.rstrip r) as [|c' r'] eqn:E.
  - destruct (Py.isspace c) eqn:Hc; simpl; [reflexivity | rewrite Hc; reflexivity].
  - simpl in IH |- *. rewrite IH. reflexivity.
Qed.

(** Stripping a stripped string changes nothing. *)
Lemma strip_idempotent (s : string) : Py.strip (Py.strip s) = Py.strip s.
Proof.
  unfold Py.strip.
  rewrite (lstrip_fixed (Py.rstrip (Py.lstrip s)))
    by apply rstrip_no_leading_space, lstrip_no_leading_space.
  apply rstrip_idempotent.
Qed.

Lemma normalize_entries_acc (entries : list json) (patterns : list string) :
  normalize_entries entries patterns = patterns ++ normalize_entries entries [].
Proof.
  revert patterns. induction entries as [|e entries IH]; intros patterns; simpl.
  - rewrite app_nil_r. reflexivity.
  - destruct e; try apply IH.
    destruct (Py.truthy (Py.strip s)).
    + rewrite IH, (IH [Py.strip s]). rewrite <- app_assoc. reflexivity.
    + apply IH.
Qed.

Lemma normalize_entries_spec (entries : list json) :
  normalize_entries entries []
  = List.filter Py.truthy (map Py.strip (strings_of entries)).
Proof.
  induction entries as [|e entries IH]; simpl; [reflexivity|].
  destruct e; try exact IH. simpl.
  destruct (Py.truthy (Py.strip s)); [|exact IH].
  rewrite normalize_entries_acc, IH. reflexivity.
Qed.

Lemma filter_truthy_strip_fixed (l : list string) :
  List.filter Py.truthy (map Py.strip (List.filter Py.truthy (map Py.strip l)))
  = List.filter Py.truthy (map Py.strip l).
Proof.
  induction l as [|s l IH]; simpl; [reflexivity|].
  destruct (Py.truthy (Py.strip s)) eqn:E; simpl; [|exact IH].
  rewrite strip_idempotent, E, IH. reflexivity.
Qed.

Lemma strings_of_JStr (l : list string) : strings_of (map JStr l) = l.
Proof. induction l as [|s l IH]; simpl; [reflexivity | rewrite IH; reflexivity]. Qed.

(** [normalize_globs] gives clean patterns: for a list it is the string
    entries, stripped, without the empty ones and in their order; every
    pattern it returns is non-empty and has no surrounding white space;
    normalising its own result changes nothing; and a value that is neither
    a string nor iterable gives no pattern. *)
Theorem normalize_globs_clean (value : json) :
  (forall entries, value = JList entries ->
     normalize_globs value
     = List.filter Py.truthy (map Py.strip (strings_of entries)))
  /\ Forall (fun pattern => pattern <> "" /\ Py.strip pattern = pattern)
            (normalize_globs value)
  /\ normalize_globs (JList (map JStr (normalize_globs value))) = normalize_globs value
  /\ match value with
     | JNull | JBool _ | JInt _ | JFloat _ => normalize_globs value = []
     | _ => True
     end.
Proof.
  assert (Hclean : forall l,
             Forall (fun pattern => pattern <> "" /\ Py.strip pattern = pattern)
                    (List.filter Py.truthy (map Py.strip l))).
  { intros l. apply List.Forall_forall. intros p Hp.
    apply filter_In in Hp as [Hin Ht]. apply in_map_iff in Hin as (s & <- & _).
    split; [apply truthy_true_iff, Ht | apply strip_idempotent]. }
  assert (Hidem : forall l,
             normalize_globs (JList (map JStr (List.filter Py.truthy (map Py.strip l))))
             = List.filter Py.truthy (map Py.strip l)).
  { intros l. simpl. rewrite normalize_entries_spec, strings_of_JStr.
    apply filter_truthy_strip_fixed. }
  split; [intros entries ->; apply normalize_entries_spec|].
  destruct value as [| b | n | f | s | entries | members]; simpl;
    try (split; [constructor | split; [reflexivity | exact I || reflexivity]]).
  - replace (if Py.truthy (Py.strip s) then [Py.strip s] else [])
      with (List.filter Py.truthy (map Py.strip [s])) by reflexivity.
    split; [apply Hclean | split; [apply Hidem | exact I]].
  - rewrite normalize_entries_spec.
    split; [apply Hclean | split; [apply Hidem | exact I]].
  - rewrite normalize_entries_spec.
    split; [apply Hclean | split; [apply Hidem | exact I]].
Qed.

(** ** Workspace and scope *)

(** Whatever the payload's [cwd], the workspace [resolve_workspace]
    returns is a resolved absolute path: rooted at [/], without empty,
    ["."] or [".."] components. Without a usable [cwd] string it is the
    resolved current directory. *)
Theorem resolve_workspace_resolved (h : Host) (payload : dict) (workspace : Path.t) :
  resolve_workspace h payload = inr workspace ->
  Path.resolved workspace
  /\ ((forall s, dict_get payload "cwd" = JStr s -> Py.strip s = "") ->
      resolve h (getcwd h) = inr workspace).
Proof.
  unfold resolve_workspace.
  destruct (dict_get payload "cwd") as [| | | |s| |];
    try (intros Hres; split;
         [eapply resolve_returns_resolved; exact Hres | intros _; exact Hres]).
  destruct (Py.truthy (Py.strip s)) eqn:Ht;
    [|intros Hres; split;
      [eapply resolve_returns_resolved; exact Hres | intros _; exact Hres]].
  destruct (path_expanduser h (Path.parse s)) as [e | cwd_path] eqn:Hex; [discriminate|].
  destruct (exists_ h (Path.as_posix cwd_path)); intros Hres.
  - split; [eapply resolve_returns_resolved; exact Hres|].
    intros Hblank. specialize (Hblank s eq_refl). rewrite Hblank in Ht. discriminate.
  - split; [eapply resolve_returns_resolved; exact Hres | intros _; exact Hres].
Qed.

Lemma resolve_workspace_resolved_witness :
  Path.resolved (Path.parse "/srv/repo").
Proof.
  refine (proj1 (resolve_workspace_resolved
                   (demo_host ∅ JNull (Completed 0 "" ""))
                   [("cwd", JStr "/srv/./repo/sub/..")] (Path.parse "/srv/repo")
                   eq_refl)).
Defined.

Lemma strip_prefix_self (l : list string) : Path.strip_prefix l l = Some [].
Proof. apply strip_prefix_spec. rewrite app_nil_r. reflexivity. Qed.

(** A request without a usable [path] searches the workspace itself: the
    scope is the workspace, its label is ["."] and no scope argument is
    passed to the command. *)
Theorem scope_defaults_to_workspace (h : Host) (tool_input : dict) (workspace : Path.t) :
  (forall s, dict_get tool_input "path" = JStr s -> Py.strip s = "") ->
  resolve_scope_path h tool_input workspace = inr workspace
  /\ describe_scope workspace workspace = "."
  /\ compute_cli_path_arg workspace workspace = None.
Proof.
  intros Hblank.
  assert (Hrel : Path.relative_to workspace workspace = Some (Path.mk "" [])).
  { unfold Path.relative_to. rewrite String.eqb_refl, strip_prefix_self. reflexivity. }
  split; [|split].
  - unfold resolve_scope_path.
    destruct (dict_get tool_input "path") as [| | | |s| |]; try reflexivity.
    rewrite (Hblank s eq_refl). reflexivity.
  - unfold describe_scope. rewrite Hrel. reflexivity.
  - unfold compute_cli_path_arg. rewrite Hrel. reflexivity.
Qed.

Lemma scope_defaults_to_workspace_witness :
  resolve_scope_path (demo_host ∅ JNull (Completed 0 "" ""))
    [("pattern", JStr "foo"); ("path", JStr "  ")] ws = inr ws.
Proof.
  refine (proj1 (scope_defaults_to_workspace _ _ ws _)).
  intros s [= <-]. reflexivity.
Defined.

Lemma as_posix_absolute_not_dot (p : Path.t) :
  Path.wf p -> Path.is_absolute p = true -> Path.as_posix p <> ".".
Proof.
  destruct p as [rt ps]. intros [Hroot _] Habs. simpl in Hroot.
  destruct Hroot as [-> | [-> | ->]]; [discriminate Habs| |];
    (destruct ps as [|x l]; [vm_compute; discriminate|]);
    rewrite as_posix_cons; intros H.
  - change (String "/" (Py.join "/" (x :: l)) = ".") in H. discriminate H.
  - change (String "/" (String "/" (Py.join "/" (x :: l))) = ".") in H. discriminate H.
Qed.

(** For an absolute scope the argument passed to the command is the scope
    label, except that the label ["."] (the workspace itself) passes no
    argument. *)
Theorem cli_arg_is_label (scope workspace : Path.t) :
  Path.wf scope -> Path.is_absolute scope = true ->
  compute_cli_path_arg scope workspace
  = if String.eqb (describe_scope scope workspace) "." then None
    else Some (describe_scope scope workspace).
Proof.
  intros Hwf Habs. unfold compute_cli_path_arg, describe_scope.
  destruct (Path.relative_to scope workspace) as [rel|].
  - destruct (Path.as_posix rel) as [|c r] eqn:E; [reflexivity|].
    simpl. destruct (String.eqb (String c r) "."); reflexivity.
  - pose proof (as_posix_absolute_not_dot scope Hwf Habs) as Hne.
    apply String.eqb_neq in Hne. rewrite Hne. reflexivity.
Qed.

Lemma cli_arg_is_label_witness :
  compute_cli_path_arg (Path.parse "/ws/src/lib") ws = Some "src/lib"
  /\ describe_scope (Path.parse "/ws/src/lib") ws = "src/lib".
Proof.
  pose proof (cli_arg_is_label (Path.parse "/ws/src/lib") ws
                (parse_wf "/ws/src/lib") eq_refl) as H.
  split; [exact H | reflexivity].
Defined.

(** The scope argument names the scope: joined onto the workspace, which
    is the command's working directory, it gives back the scope path; and
    when no argument is passed the scope is the workspace. *)
Theorem cli_arg_names_scope (scope workspace : Path.t) :
  Path.wf scope -> Path.is_absolute scope = true ->
  match compute_cli_path_arg scope workspace with
  | Some arg => Path.join_str workspace arg = scope
  | None => scope = workspace
  end.
Proof.
  intros Hwf Habs. unfold compute_cli_path_arg.
  destruct (Path.relative_to scope workspace) as [rel|] eqn:Hrel.
  - pose proof (join_relative_to scope workspace rel Hwf Hrel) as Hjoin.
    destruct (negb (Py.truthy (Path.as_posix rel)) || String.eqb (Path.as_posix rel) ".")
      eqn:E; [|exact Hjoin].
    rewrite <- Hjoin.
    assert (Hdot : Path.parse (Path.as_posix rel) = Path.mk "" []).
    { apply orb_true_iff in E as [E | E].
      - apply negb_true_iff in E. destruct (Path.as_posix rel); [reflexivity | discriminate].
      - apply String.eqb_eq in E. rewrite E. reflexivity. }
    unfold Path.join_str. rewrite Hdot. unfold Path.join. simpl.
    rewrite app_nil_r. destruct workspace; reflexivity.
  - unfold Path.join_str. rewrite (parse_as_posix scope Hwf).
    unfold Path.join. rewrite Habs. reflexivity.
Qed.

Lemma cli_arg_names_scope_witness :
  Path.join_str ws "src/lib" = Path.parse "/ws/src/lib".
Proof.
  exact (cli_arg_names_scope (Path.parse "/ws/src/lib") ws
           (parse_wf "/ws/src/lib") eq_refl).
Defined.

(** ** Path tokens *)

Lemma find_no_colon (s : string) : no_colon s = true -> Py.find colon s = None.
Proof.
  unfold Py.find. induction s as [|c r IH]; [reflexivity|].
  unfold no_colon. simpl Py.all_chars. intros H.
  apply andb_true_iff in H as [Hc Hr]. apply negb_true_iff in Hc.
  change (String.index 0 (String colon "") (String c r))
    with (if String.prefix (String colon "") (String c r) then Some O
          else match String.index 0 (String colon "") r with
               | Some n => Some (S n)
               | None => None
               end).
  change (String.prefix (String colon "") (String c r))
    with (if ascii_dec colon c then String.prefix "" r else false).
  destruct (ascii_dec colon c) as [<-|_].
  - rewrite Ascii.eqb_refl in Hc. discriminate.
  - rewrite (IH Hr). reflexivity.
Qed.

Lemma lazy_more_no_colon (s : string) : no_colon s = true -> lazy_more s = None.
Proof.
  induction s as [|c r IH]; [reflexivity|].
  unfold no_colon. simpl Py.all_chars. intros H.
  apply andb_true_iff in H as [Hc Hr]. apply negb_true_iff in Hc.
  specialize (IH Hr). simpl. destruct r as [|c2 r2].
  - destruct (Ascii.eqb c newline); reflexivity.
  - rewrite Hc. cbn [andb]. rewrite IH.
    destruct (Ascii.eqb c newline); reflexivity.
Qed.

(** A line without a colon has no path token: [extract_paths] gives
    nothing, so the line is kept by every glob filter and shows as itself
    in [paths] mode. *)
Theorem line_without_colon (h : Host) (line : string) (workspace : Path.t)
    (patterns : list string) :
  no_colon line = true ->
  extract_paths h line workspace = inr (None, None, None)
  /\ filter_by_glob h [line] patterns workspace = inr [line]
  /\ best_value h line workspace = inr line.
Proof.
  intros Hnc.
  assert (Hraw : raw_token line = None).
  { unfold raw_token, PATH_TOKEN. rewrite (find_no_colon line Hnc).
    destruct line as [|c r]; [reflexivity|].
    unfold no_colon in Hnc. simpl in Hnc. apply andb_true_iff in Hnc as [_ Hr].
    rewrite (lazy_more_no_colon r Hr).
    destruct (Ascii.eqb c newline); reflexivity. }
  assert (Hext : extract_paths h line workspace = inr (None, None, None)).
  { unfold extract_paths. rewrite Hraw. reflexivity. }
  split; [exact Hext|]. split.
  - unfold filter_by_glob. destruct patterns; [reflexivity|].
    cbn [for_each]. unfold filter_step. rewrite Hext. reflexivity.
  - unfold best_value. rewrite Hext. reflexivity.
Qed.

Lemma line_without_colon_witness :
  filter_by_glob (demo_host ∅ JNull (Completed 0 "" ""))
    ["Binary file matches"] ["*.go"] ws = inr ["Binary file matches"].
Proof.
  exact (proj1 (proj2 (line_without_colon (demo_host ∅ JNull (Completed 0 "" ""))
                         "Binary file matches" ws ["*.go"] eq_refl))).
Defined.

Lemma lazy_more_prefix (p rest : string) (d : ascii) :
  no_colon p = true -> no_newline p = true -> Py.isdecimal d = true ->
  lazy_more (p +:+ String colon (String d rest)) = Some (String.length p).
Proof.
  intros Hc Hn Hd. induction p as [|c r IH].
  - change (lazy_more (String colon (String d rest)) = Some 0%nat).
    unfold lazy_more, colon_digit. rewrite Ascii.eqb_refl, Hd. reflexivity.
  - unfold no_colon in Hc. unfold no_newline in Hn. simpl in Hc, Hn.
    apply andb_true_iff in Hc as [Hc Hcr]. apply andb_true_iff in Hn as [Hn Hnr].
    apply negb_true_iff in Hc. apply negb_true_iff in Hn.
    change (String c r +:+ String colon (String d rest))
      with (String c (r +:+ String colon (String d rest))).
    cbn [lazy_more String.length].
    assert (Hcd : colon_digit (String c (r +:+ String colon (String d rest))) = false).
    { unfold colon_digit. destruct (r +:+ String colon (String d rest));
        [reflexivity | rewrite Hc; reflexivity]. }
    rewrite Hcd, Hn, (IH Hcr Hnr). reflexivity.
Qed.

Lemma substring_prefix (p rest : string) :
  String.substring 0 (String.length p) (p +:+ rest) = p.
Proof.
  induction p as [|c r IH]; simpl.
  - destruct rest; reflexivity.
  - change (String c r +:+ rest) with (String c (r +:+ rest)).
    simpl. rewrite IH. reflexivity.
Qed.

(** The conventional result line [path:digit...]: when the text before
    the first colon is not empty and holds no newline, and a decimal digit
    follows that colon, the token is that text. *)
Theorem raw_token_before_line_number (p rest : string) (d : ascii) :
  p <> "" -> no_colon p = true -> no_newline p = true -> Py.isdecimal d = true ->
  raw_token (p +:+ String colon (String d rest)) = Some p.
Proof.
  intros Hne Hc Hn Hd. destruct p as [|c r]; [congruence|].
  unfold raw_token, PATH_TOKEN.
  change (String c r +:+ String colon (String d rest))
    with (String c (r +:+ String colon (String d rest))).
  assert (Hc' := Hc). assert (Hn' := Hn).
  unfold no_colon in Hc'. unfold no_newline in Hn'. simpl in Hc', Hn'.
  apply andb_true_iff in Hc' as [_ Hcr]. apply andb_true_iff in Hn' as [Hnc Hnr].
  apply negb_true_iff in Hnc. rewrite Hnc.
  rewrite (lazy_more_prefix r rest d Hcr Hnr Hd).
  unfold Py.slice_to.
  change (String c (r +:+ String colon (String d rest)))
    with (String c r +:+ String colon (String d rest)).
  change (S (String.length r)) with (String.length (String c r)).
  rewrite substring_prefix. reflexivity.
Qed.

Lemma raw_token_before_line_number_witness :
  raw_token "src/a.go:12:3:func main" = Some "src/a.go".
Proof.
  exact (raw_token_before_line_number "src/a.go" "2:3:func main" "1"
           ltac:(discriminate) eq_refl eq_refl eq_refl).
Defined.

Lemma startswith_dot_slash (s : string) :
  Py.startswith s "./" = true -> Py.startswith s "." = true.
Proof.
  destruct s as [|c r]; [discriminate|]. unfold Py.startswith.
  change (String.prefix "./" (String c r))
    with (if ascii_dec "." c then String.prefix "/" r else false).
  change (String.prefix "." (String c r))
    with (if ascii_dec "." c then String.prefix "" r else false).
  destruct (ascii_dec "." c); [|discriminate]. intros _. destruct r; reflexivity.
Qed.

(** [extract_paths] gives all three paths or none of them, and a path it
    gives is never the empty string. It gives none exactly when the line
    has no path token, and it raises only what resolving the token, joined
    to the workspace, raises. *)
Theorem extract_paths_all_or_nothing (h : Host) (line : string) (workspace : Path.t) :
  match extract_paths h line workspace with
  | inr (None, None, None) => has_path line = false
  | inr (Some d, Some r, Some a) =>
      has_path line = true /\ d <> "" /\ r <> "" /\ a <> ""
  | inr _ => False
  | inl e =>
      exists raw,
        raw_token line = Some raw
        /\ resolve h (Path.join_str workspace (undotted (Py.strip raw))) = inl e
  end.
Proof.
  unfold has_path.
  destruct (extract_paths_cases h line workspace) as [[Hraw ->] | (raw & Hraw & Ht & ->)];
    [exact Hraw|].
  destruct (absolute_of h (undotted (Py.strip raw)) workspace) as [e | abs_path] eqn:Habs.
  - exists raw. split; [exact Hraw|].
    unfold absolute_of in Habs.
    destruct (Py.startswith _ "/" || drive_letter _); [discriminate | exact Habs].
  - destruct (absolute_of_good _ _ _ _ Habs) as [Hwf Ha].
    pose proof (relative_text_truthy abs_path workspace Hwf Ha) as Hr.
    apply truthy_true_iff in Hr. apply truthy_true_iff in Ha.
    rewrite Hraw. split; [exact Ht|].
    split; [|split; assumption].
    destruct (Py.startswith (Py.strip raw) ".") eqn:E; [|exact Hr].
    intros Hempty. rewrite Hempty in E. discriminate.
Qed.

(** A token that begins with ["./"] keeps that form as its display path,
    while what is resolved is the token without the ["./"]: the relative
    and the absolute path are those of the rest of the token, and an
    exception of resolving it is the outcome. *)
Theorem extract_paths_dot_slash_token (h : Host) (line raw : string)
    (workspace : Path.t) :
  raw_token line = Some raw ->
  Py.startswith (Py.strip raw) "./" = true ->
  let cleaned := Py.strip raw in
  extract_paths h line workspace
  = match absolute_of h (Py.slice_from 2 cleaned) workspace with
    | inl e => inl e
    | inr abs_path =>
        inr (Some cleaned, Some (relative_text abs_path workspace),
             Some (Path.as_posix abs_path))
    end.
Proof.
  intros Hraw Hslash cleaned.
  pose proof (startswith_dot_slash _ Hslash) as Hdot.
  assert (Htruthy : Py.truthy raw = true).
  { destruct raw; [discriminate Hdot | reflexivity]. }
  assert (Hund : undotted (Py.strip raw) = str_or (Py.slice_from 2 (Py.strip raw)) ".").
  { unfold undotted. rewrite Hslash. reflexivity. }
  unfold extract_paths. rewrite Hraw. simpl. rewrite Htruthy. simpl.
  rewrite Hdot, Hund, absolute_of_str_or_dot. reflexivity.
Qed.

Lemma extract_paths_dot_slash_token_witness :
  extract_paths (demo_host ∅ JNull (Completed 0 "" "")) "./src/a.go:12:x" ws
  = inr (Some "./src/a.go", Some "src/a.go", Some "/ws/src/a.go").
Proof.
  exact (extract_paths_dot_slash_token (demo_host ∅ JNull (Completed 0 "" ""))
           "./src/a.go:12:x" "./src/a.go" ws eq_refl eq_refl).
Defined.

Lemma parse_relative (s : string) :
  Py.startswith s "/" = false -> Path.root (Path.parse s) = "".
Proof.
  destruct s as [|c r]; [reflexivity|]. unfold Py.startswith.
  change (String.prefix "/" (String c r))
    with (if ascii_dec "/" c then String.prefix "" r else false).
  destruct (ascii_dec "/" c) as [<-|Hne]; [destruct r; discriminate|].
  intros _. unfold Path.parse, Path.splitroot.
  assert (E : Ascii.eqb c Path.slash = false).
  { apply Ascii.eqb_neq. intros ->. apply Hne. reflexivity. }
  rewrite E. reflexivity.
Qed.

(** A plain relative token is taken relative to the workspace: when the
    token neither begins with a dot, a slash or a drive letter, and the
    token joined to the workspace resolves to itself (no symbolic link and
    no [".."] on the way), the relative path and the display path are the
    token in normal form and the absolute path is the workspace joined
    with it. *)
Theorem extract_paths_relative_token (h : Host) (line raw : string)
    (workspace : Path.t) :
  raw_token line = Some raw -> raw <> "" ->
  Py.startswith (Py.strip raw) "." = false ->
  Py.startswith (Py.strip raw) "/" = false ->
  drive_letter (Py.strip raw) = false ->
  resolve h (Path.join_str workspace (Py.strip raw))
  = inr (Path.join_str workspace (Py.strip raw)) ->
  extract_paths h line workspace
  = inr (Some (Path.as_posix (Path.parse (Py.strip raw))),
         Some (Path.as_posix (Path.parse (Py.strip raw))),
         Some (Path.as_posix (Path.join_str workspace (Py.strip raw)))).
Proof.
  intros Hraw Hne Hdot Hslash Hdrive Hres.
  set (cleaned := Py.strip raw) in *.
  assert (Hund : undotted cleaned = cleaned).
  { unfold undotted. rewrite Hdot.
    destruct (Py.startswith cleaned "./") eqn:E; [|reflexivity].
    apply startswith_dot_slash in E. congruence. }
  pose proof (parse_relative cleaned Hslash) as Hq.
  assert (Hjoin : Path.join_str workspace cleaned
                  = Path.mk (Path.root workspace)
                      (Path.parts workspace ++ Path.parts (Path.parse cleaned))).
  { unfold Path.join_str, Path.join, Path.is_absolute. rewrite Hq. reflexivity. }
  assert (Habs : absolute_of h cleaned workspace = inr (Path.join_str workspace cleaned)).
  { unfold absolute_of. rewrite Hslash, Hdrive. exact Hres. }
  assert (Hrel : relative_text (Path.join_str workspace cleaned) workspace
                 = Path.as_posix (Path.parse cleaned)).
  { unfold relative_text.
    assert (E : Path.relative_to (Path.join_str workspace cleaned) workspace
                = Some (Path.mk "" (Path.parts (Path.parse cleaned)))).
    { apply relative_to_spec. rewrite Hjoin. simpl. auto. }
    rewrite E. destruct (Path.parse cleaned) as [rt ps]. simpl in Hq. subst rt.
    reflexivity. }
  unfold extract_paths. rewrite Hraw. simpl.
  assert (Htruthy : Py.truthy raw = true) by (apply truthy_true_iff, Hne).
  rewrite Htruthy. simpl. fold cleaned. rewrite Hund, Habs, Hdot, Hrel. reflexivity.
Qed.

Lemma extract_paths_relative_token_witness :
  extract_paths (demo_host ∅ JNull (Completed 0 "" "")) "src//lib/./a.go:12:x" ws
  = inr (Some "src/lib/a.go", Some "src/lib/a.go", Some "/ws/src/lib/a.go").
Proof.
  refine (extract_paths_relative_token (demo_host ∅ JNull (Completed 0 "" ""))
            "src//lib/./a.go:12:x" "src//lib/./a.go" ws eq_refl _ eq_refl
            eq_refl eq_refl eq_refl).
  discriminate.
Defined.

(** A path outside the workspace has no relative form: [relative_path]
    is then the text of [absolute_path], and so is the display path unless
    the token began with a dot. *)
Theorem extract_paths_outside_workspace (h : Host) (line d r a : string)
    (workspace : Path.t) :
  extract_paths h line workspace = inr (Some d, Some r, Some a) ->
  Path.relative_to (Path.parse a) workspace = None ->
  r = a /\ (Py.startswith d "." = false -> d = a).
Proof.
  intros Hext Hout.
  destruct (extract_paths_cases h line workspace) as [[_ Hnone] | (raw & _ & _ & Hsome)];
    [congruence|].
  rewrite Hsome in Hext.
  destruct (absolute_of h (undotted (Py.strip raw)) workspace) as [e | p] eqn:Habs;
    [discriminate|].
  injection Hext as Hd Hr Ha.
  destruct (absolute_of_good _ _ _ _ Habs) as [Hpwf _].
  assert (Hparse : Path.parse a = p).
  { rewrite <- Ha. apply parse_as_posix, Hpwf. }
  rewrite Hparse in Hout.
  assert (Hra : r = a).
  { rewrite <- Hr, <- Ha. unfold relative_text. rewrite Hout. reflexivity. }
  split; [exact Hra|].
  intros Hdot. destruct (Py.startswith (Py.strip raw) ".") eqn:E.
  - subst d. congruence.
  - congruence.
Qed.

Lemma extract_paths_outside_workspace_witness :
  "/etc/hosts" = "/etc/hosts" /\ (Py.startswith "/etc/hosts" "." = false ->
                                  "/etc/hosts" = "/etc/hosts").
Proof.
  exact (extract_paths_outside_workspace (demo_host ∅ JNull (Completed 0 "" ""))
           "/etc/hosts:1:x" "/etc/hosts" "/etc/hosts" "/etc/hosts" ws
           eq_refl eq_refl).
Defined.

(** ** Algebra of glob filtering *)

Lemma filter_idempotent {A} (f : A -> bool) (l : list A) :
  List.filter f (List.filter f l) = List.filter f l.
Proof.
  induction l as [|x l IH]; simpl; [reflexivity|].
  destruct (f x) eqn:E; simpl; rewrite ?E, IH; reflexivity.
Qed.

(** Glob filtering works line by line: filtering a concatenation is
    concatenating the filtered parts, an exception of the first part or
    else of the second being that of the whole; and filtering again what a
    filter returned, with the same patterns, returns it unchanged. *)
Theorem filter_by_glob_linewise (h : Host) (lines1 lines2 patterns : list string)
    (workspace : Path.t) :
  filter_by_glob h (lines1 ++ lines2) patterns workspace
  = match filter_by_glob h lines1 patterns workspace with
    | inl e => inl e
    | inr kept1 =>
        match filter_by_glob h lines2 patterns workspace with
        | inl e => inl e
        | inr kept2 => inr (kept1 ++ kept2)
        end
    end
  /\ (forall kept,
        filter_by_glob h lines1 patterns workspace = inr kept ->
        filter_by_glob h kept patterns workspace = inr kept).
Proof.
  rewrite !filter_by_glob_filter.
  destruct patterns as [|p ps].
  - split; [reflexivity|]. intros kept [= <-]. apply filter_by_glob_filter.
  - split.
    + rewrite first_raise_app, List.filter_app.
      destruct (first_raise h workspace lines1); [reflexivity|].
      destruct (first_raise h workspace lines2); reflexivity.
    + destruct (first_raise h workspace lines1) eqn:E; [discriminate|].
      intros kept [= <-]. rewrite filter_by_glob_filter.
      rewrite first_raise_filter by exact E.
      rewrite filter_idempotent. reflexivity.
Qed.

Lemma filter_by_glob_linewise_witness :
  filter_by_glob (demo_host ∅ JNull (Completed 0 "" ""))
    (["a.go:1:x"; "b.ts:2:y"] ++ ["c.go:3:z"]) ["*.go"] ws
  = inr (["a.go:1:x"] ++ ["c.go:3:z"]).
Proof.
  destruct (filter_by_glob_linewise (demo_host ∅ JNull (Completed 0 "" ""))
              ["a.go:1:x"; "b.ts:2:y"] ["c.go:3:z"] ["*.go"] ws)
    as [-> _].
  reflexivity.
Defined.

Lemma existsb_incl {A} (f : A -> bool) (l l' : list A) :
  (forall x, In x l -> In x l') -> existsb f l = true -> existsb f l' = true.
Proof.
  intros Hincl H. apply existsb_exists in H as (x & Hin & Hx).
  apply existsb_exists. exists x. split; [apply Hincl, Hin | exact Hx].
Qed.

Lemma filter_sublist_weaker {A} (f f' : A -> bool) (l : list A) :
  (forall x, f x = true -> f' x = true) ->
  sublist (List.filter f l) (List.filter f' l).
Proof.
  intros Himp. induction l as [|x l IH]; simpl; [constructor|].
  destruct (f x) eqn:E.
  - rewrite (Himp x E). apply sublist_skip, IH.
  - destruct (f' x); [apply sublist_cons, IH | exact IH].
Qed.

(** Only the set of patterns matters, and more patterns keep more lines:
    when every pattern of a non-empty list is also in a second list, the two
    filters raise the same exception or both return, and what the first
    keeps is a subsequence of what the second keeps; two lists with the same
    patterns, in any order and with any repetitions, give the same
    outcome. *)
Theorem filter_by_glob_pattern_set (h : Host) (lines patterns patterns' : list string)
    (workspace : Path.t) :
  (patterns <> [] -> (forall p, In p patterns -> In p patterns') ->
   match filter_by_glob h lines patterns workspace,
         filter_by_glob h lines patterns' workspace with
   | inr kept, inr kept' => sublist kept kept'
   | inl e, inl e' => e = e'
   | _, _ => False
   end)
  /\ ((forall p, In p patterns <-> In p patterns') ->
      filter_by_glob h lines patterns workspace
      = filter_by_glob h lines patterns' workspace).
Proof.
  rewrite !filter_by_glob_filter. split.
  - intros Hne Hincl.
    destruct patterns as [|p ps]; [congruence|].
    destruct patterns' as [|p' ps']; [destruct (Hincl p (or_introl eq_refl))|].
    destruct (first_raise h workspace lines); [reflexivity|].
    apply filter_sublist_weaker. intros line. unfold survives.
    intros H. apply orb_true_iff in H as [H | H]; apply orb_true_iff; [left; exact H|].
    right. eapply existsb_incl; eassumption.
  - intros Hsame.
    destruct patterns as [|p ps], patterns' as [|p' ps']; try reflexivity.
    + destruct (proj2 (Hsame p') (or_introl eq_refl)).
    + destruct (proj1 (Hsame p) (or_introl eq_refl)).
    + destruct (first_raise h workspace lines); [reflexivity|]. f_equal.
      apply filter_pointwise_In. intros line _. unfold survives. f_equal.
      destruct (existsb (path_matches h line workspace) (p :: ps)) eqn:E.
      * symmetry. eapply existsb_incl; [|exact E]. intros x. apply Hsame.
      * destruct (existsb (path_matches h line workspace) (p' :: ps')) eqn:E';
          [|reflexivity].
        rewrite <- E. eapply existsb_incl; [|exact E']. intros x. apply Hsame.
Qed.

Lemma filter_by_glob_pattern_set_witness :
  filter_by_glob (demo_host ∅ JNull (Completed 0 "" ""))
    ["a.go:1:x"; "b.ts:2:y"] ["*.go"; "*.ts"] ws
  = filter_by_glob (demo_host ∅ JNull (Completed 0 "" ""))
      ["a.go:1:x"; "b.ts:2:y"] ["*.ts"; "*.go"; "*.ts"] ws.
Proof.
  apply (filter_by_glob_pattern_set (demo_host ∅ JNull (Completed 0 "" ""))
           ["a.go:1:x"; "b.ts:2:y"] ["*.go"; "*.ts"] ["*.ts"; "*.go"; "*.ts"] ws).
  intros p. simpl. tauto.
Defined.

(** ** More on the request fields *)

(** A digit-only string that [int] cannot read (one with a superscript
    digit, or with more digits than the conversion limit) in the first
    alias that is consulted makes [parse_max_results] raise [ValueError]:
    the later aliases and the default are not used. *)
Theorem parse_max_results_raises (h : Host) (g : Globals) (tool_input : dict)
    (before after : list string) (key s : string) :
  ALIASES = before ++ key :: after ->
  Forall (fun k => unusable (dict_get tool_input k)) before ->
  dict_get tool_input key = JStr s ->
  Py.isdigit s = true -> Py.int (int_max_str_digits h) s = None ->
  exists message, parse_max_results h g tool_input = inl (Exn ValueError message).
Proof.
  intros Hkeys Hbefore Hkey Hdigit Hint.
  unfold parse_max_results. fold ALIASES. rewrite Hkeys. clear Hkeys.
  rewrite parse_max_results_keys_prefix by assumption.
  apply parse_max_results_keys_unreadable. rewrite Hkey. split; assumption.
Qed.

Lemma parse_max_results_raises_witness :
  exists message,
    parse_max_results (demo_host ∅ JNull (Completed 0 "" "")) demo_globals
      [("--max-count", JNull); ("-m", JStr (String (ascii_of_N 179) "")); ("max_count", JInt 5)]
    = inl (Exn ValueError message).
Proof.
  apply (parse_max_results_raises _ _ _ ["--max-count"] ["max_count"] "-m"
           (String (ascii_of_N 179) "")).
  - reflexivity.
  - repeat constructor.
  - reflexivity.
  - reflexivity.
  - reflexivity.
Defined.

(** The output mode is always ["content"] or ["paths"]: it is ["paths"]
    exactly when the request says so with that very string, every other
    value that can be hashed gives ["content"], and a non-empty list or
    object raises [TypeError]. *)
Theorem resolve_output_mode_cases (tool_input : dict) :
  (forall mode, resolve_output_mode tool_input = inr mode ->
     (mode = "content" \/ mode = "paths")
     /\ (mode = "paths" <-> dict_get tool_input "output_mode" = JStr "paths"))
  /\ (forall e, resolve_output_mode tool_input = inl e ->
        kind e = TypeError
        /\ truthy (dict_get tool_input "output_mode") = true
        /\ ((exists items, dict_get tool_input "output_mode" = JList items)
            \/ (exists members, dict_get tool_input "output_mode" = JDict members))).
Proof.
  unfold resolve_output_mode, py_or.
  destruct (dict_get tool_input "output_mode") as [| b | n | f | s | items | members];
    simpl.
  - split; [intros md [= <-] | intros exc [=]]. split; [auto|]. split; discriminate.
  - destruct b; simpl;
      (split; [intros md [= <-] | intros exc [=]]; split; [auto|]; split; discriminate).
  - destruct (negb (n =? 0)); simpl;
      (split; [intros md [= <-] | intros exc [=]]; split; [auto|]; split; discriminate).
  - destruct f; simpl;
      (split; [intros md [= <-] | intros exc [=]]; split; [auto|]; split; discriminate).
  - destruct (Py.truthy s) eqn:Ht; simpl.
    + destruct (String.eqb s "content") eqn:Ec; simpl.
      * apply String.eqb_eq in Ec. subst s.
        split; [intros md [= <-] | intros exc [=]]. split; [auto|]. split; discriminate.
      * destruct (String.eqb s "paths") eqn:Ep.
        -- apply String.eqb_eq in Ep. subst s.
           split; [intros md [= <-] | intros exc [=]]. split; [auto|]. split; reflexivity.
        -- apply String.eqb_neq in Ep.
           split; [intros md [= <-] | intros exc [=]]. split; [auto|].
           split; [discriminate | intros [= ->]; congruence].
    + split; [intros md [= <-] | intros exc [=]]. split; [auto|].
      split; [discriminate|]. intros [= ->]. discriminate Ht.
  - destruct items; simpl.
    + split; [intros md [= <-] | intros exc [=]]. split; [auto|]. split; discriminate.
    + split; [intros md [=] | intros exc [= <-]]. simpl. eauto.
  - destruct members; simpl.
    + split; [intros md [= <-] | intros exc [=]]. split; [auto|]. split; discriminate.
    + split; [intros md [=] | intros exc [= <-]]. simpl. eauto.
Qed.

(** With [MGREP_HOOK_MAX_RESULTS] unset, or set to something [int] cannot
    read, the default is 20, and then every value [parse_max_results]
    returns lies in [1,100]. What [int] cannot read includes a numeral
    behind a separator U+001C to U+001F, which [int] does not take for
    white space. *)
Theorem max_results_in_range_by_default (h : Host) (g : Globals) (tool_input : dict)
    (n : Z) :
  load_globals h = inr g ->
  (environ h !! "MGREP_HOOK_MAX_RESULTS" = None
   \/ exists value, environ h !! "MGREP_HOOK_MAX_RESULTS" = Some value
                    /\ Py.int (int_max_str_digits h) value = None) ->
  parse_max_results h g tool_input = inr n ->
  DEFAULT_MAX_RESULTS g = 20 /\ 1 <= n <= 100.
Proof.
  intros Hload Henv Hn.
  assert (Hdef : DEFAULT_MAX_RESULTS g = 20).
  { unfold load_globals in Hload.
    destruct (path_expanduser h (Path.parse "~")); [discriminate|].
    injection Hload as <-. simpl. unfold _env_int.
    destruct Henv as [-> | (value & -> & ->)]; reflexivity. }
  split; [exact Hdef|].
  apply parse_max_results_keys_result in Hn as [Hn | Hn]; [exact Hn | lia].
Qed.

Lemma max_results_in_range_by_default_witness :
  1 <= 100 <= 100.
Proof.
  set (value := String (ascii_of_N 31) "12").
  assert (Henv : environ (demo_host (env_max_results value) JNull (Completed 0 "" ""))
                 !! "MGREP_HOOK_MAX_RESULTS" = Some value) by reflexivity.
  refine (proj2 (max_results_in_range_by_default
                   (demo_host (env_max_results value) JNull (Completed 0 "" ""))
                   demo_globals [("-m", JInt 5000)] 100 eq_refl _ eq_refl)).
  right. exists value. split; [exact Henv | reflexivity].
Defined.

(** ** From the request to the command and the response *)

(** The command [main] runs is the one [build_command] builds from the
    request: the resolved prefix, [-i] when either [-i] or [--ignore-case]
    is truthy, the resolved [max_results], the [MGREP_STORE] override, the
    pattern as given, and the scope argument of the resolved scope. *)
Theorem main_command_of_request (h : Host) (g : Globals) (payload tool_input : dict)
    (pattern : string) (r : exn + Z) (tr : list event) (command : list string) :
  request_of h = Some (payload, tool_input, pattern) ->
  main h g [] = (r, tr) ->
  In command (commands_of tr) ->
  exists command_prefix workspace scope max_results,
    resolve_mgrep_command h = inr (Some command_prefix)
    /\ resolve_workspace h payload = inr workspace
    /\ resolve_scope_path h tool_input workspace = inr scope
    /\ parse_max_results h g tool_input = inr max_results
    /\ command
       = build_command command_prefix
           (truthy (dict_get tool_input "-i")
            || truthy (dict_get tool_input "--ignore-case"))
           max_results (environ h !! "MGREP_STORE") pattern
           (compute_cli_path_arg scope workspace).
Proof.
  intros Hreq Hmain. rewrite (main_of_request _ _ _ _ _ Hreq) in Hmain.
  revert Hmain. unfold intercept.
  destruct (is_disabled h); [run_monad; intros [= <- <-] []|].
  destruct (negb (exists_ h (Path.as_posix (TOKEN_FILE g))));
    [run_monad; intros [= <- <-] []|].
  unfold bind at 1. unfold lift at 1.
  destruct (resolve_mgrep_command h) as [e | [[|w words]|]] eqn:Hprefix;
    try (run_monad; intros [= <- <-] []; fail).
  unfold ret at 1. unfold bind at 1. unfold lift at 1.
  destruct (resolve_workspace h payload) as [e | workspace] eqn:Hws;
    [run_monad; intros [= <- <-] []|].
  unfold ret at 1. unfold bind at 1. unfold lift at 1.
  destruct (resolve_scope_path h tool_input workspace) as [e | scope] eqn:Hscope;
    [run_monad; intros [= <- <-] []|].
  unfold ret at 1. unfold bind at 1. unfold lift at 1.
  destruct (parse_max_results h g tool_input) as [e | max_results] eqn:Hmax;
    [run_monad; intros [= <- <-] []|].
  unfold ret at 1. unfold bind at 1. unfold lift at 1.
  destruct (resolve_output_mode tool_input) as [e | output_mode];
    [run_monad; intros [= <- <-] []|].
  unfold ret at 1.
  assert (Hci : truthy (py_or (dict_get tool_input "-i")
                              (dict_get tool_input "--ignore-case"))
                = truthy (dict_get tool_input "-i")
                  || truthy (dict_get tool_input "--ignore-case")).
  { unfold py_or. destruct (truthy (dict_get tool_input "-i")) eqn:E;
      [exact E | reflexivity]. }
  rewrite Hci.
  set (cmd := build_command (w :: words) _ _ _ _ _).
  unfold bind at 1. unfold debug_log at 1, emit at 1. unfold bind at 1.
  destruct (run_mgrep h cmd workspace _) as [out tr1] eqn:Hrun.
  apply run_mgrep_trace in Hrun as [_ Hcmd]. simpl in Hcmd.
  assert (Hdone : In command (commands_of tr1) ->
                  exists command_prefix workspace0 scope0 max_results0,
                    @inr exn _ (Some (w :: words)) = inr (Some command_prefix)
                    /\ @inr exn _ workspace = inr workspace0
                    /\ resolve_scope_path h tool_input workspace0 = inr scope0
                    /\ @inr exn _ max_results = inr max_results0
                    /\ command
                       = build_command command_prefix
                           (truthy (dict_get tool_input "-i")
                            || truthy (dict_get tool_input "--ignore-case"))
                           max_results0 (environ h !! "MGREP_STORE") pattern
                           (compute_cli_path_arg scope0 workspace0)).
  { rewrite Hcmd. intros [<- | []].
    exists (w :: words), workspace, scope, max_results.
    repeat split; try assumption. }
  destruct out as [e | [stdout|]]; cbv beta iota.
  - intros [= <- <-]. exact Hdone.
  - rewrite bind_lift.
    destruct (filter_by_glob h _ _ workspace) as [e | lines];
      [intros [= <- <-]; exact Hdone|].
    rewrite bind_lift.
    destruct (build_payload h lines pattern _ _ workspace) as [e | payload_text];
      [intros [= <- <-]; exact Hdone|].
    run_monad. intros [= <- <-].
    rewrite commands_of_app in *. simpl. rewrite app_nil_r. exact Hdone.
  - run_monad. intros [= <- <-]. exact Hdone.
Qed.

Lemma main_command_of_request_witness :
  exists command_prefix workspace scope max_results,
    resolve_mgrep_command ci_host = inr (Some command_prefix)
    /\ resolve_workspace ci_host ci_payload = inr workspace
    /\ resolve_scope_path ci_host ci_input workspace = inr scope
    /\ parse_max_results ci_host demo_globals ci_input = inr max_results
    /\ ["/usr/bin/mgrep"; "search"; "-i"; "-m"; "20"; "foo"]
       = build_command command_prefix
           (truthy (dict_get ci_input "-i") || truthy (dict_get ci_input "--ignore-case"))
           max_results (environ ci_host !! "MGREP_STORE") "foo"
           (compute_cli_path_arg scope workspace).
Proof.
  assert (Hmain :
    main ci_host demo_globals []
    = (inr 0,
       [Log "Running command: /usr/bin/mgrep search -i -m 20 foo (cwd=/ws)";
        Run ["/usr/bin/mgrep"; "search"; "-i"; "-m"; "20"; "foo"] ws;
        Log "mgrep exited with 1: boom"])) by (vm_compute; reflexivity).
  assert (Hreq : request_of ci_host = Some (ci_payload, ci_input, "foo")) by reflexivity.
  refine (main_command_of_request ci_host demo_globals ci_payload ci_input "foo"
            _ _ _ Hreq Hmain _).
  simpl. left. reflexivity.
Defined.

Lemma splitlines_one_line_step (s : string) :
  Forall (fun line => one_line line = true) (splitlines s)
  /\ forall c, Forall (fun line => one_line line = true) (splitlines (String c s)).
Proof.
  induction s as [|c2 r2 [IH1 IH2]].
  - split; [constructor|]. intros c. simpl.
    destruct (is_linebreak c) eqn:E; repeat constructor.
    unfold one_line. simpl. rewrite E. reflexivity.
  - split; [apply IH2|]. intros c.
    change (splitlines (String c (String c2 r2)))
      with (if is_linebreak c
            then if Ascii.eqb c carriage_return && Ascii.eqb c2 newline
                 then EmptyString :: splitlines r2
                 else EmptyString :: splitlines (String c2 r2)
            else match splitlines (String c2 r2) with
                 | [] => [String c EmptyString]
                 | l :: ls => String c l :: ls
                 end).
    destruct (is_linebreak c) eqn:E.
    + destruct (Ascii.eqb c carriage_return && Ascii.eqb c2 newline);
        constructor; try reflexivity; [exact IH1 | apply IH2].
    + specialize (IH2 c2). destruct (splitlines (String c2 r2)) as [|l ls].
      * repeat constructor. unfold one_line. simpl. rewrite E. reflexivity.
      * inversion IH2 as [|? ? Hl Hls]; subst. constructor; [|exact Hls].
        unfold one_line in *. simpl. rewrite E. exact Hl.
Qed.

(** The lines of the response come one by one from the command's output:
    whatever the output and the patterns, every line that glob filtering
    returns is free of line boundaries and is not blank, and the lines are a
    subsequence of the output's lines. Filtering does return when no
    pattern is configured or the path token of every line can be
    resolved. *)
Theorem response_lines_clean (h : Host) (stdout : string) (patterns : list string)
    (workspace : Path.t) :
  (forall lines,
      filter_by_glob h (output_lines stdout) patterns workspace = inr lines ->
      Forall (fun line => one_line line = true /\ Py.strip line <> "") lines
      /\ sublist lines (splitlines stdout))
  /\ (patterns = [] \/ Forall (extracts h workspace) (output_lines stdout) ->
      exists lines,
        filter_by_glob h (output_lines stdout) patterns workspace = inr lines)
  /\ (forall e,
        filter_by_glob h (output_lines stdout) patterns workspace = inl e ->
        exists line,
          In line (output_lines stdout) /\ extract_paths h line workspace = inl e).
Proof.
  assert (Hout : Forall (fun line => one_line line = true /\ Py.strip line <> "")
                        (output_lines stdout)).
  { unfold output_lines. apply List.Forall_forall. intros line Hin.
    apply filter_In in Hin as [Hin Ht]. split; [|apply truthy_true_iff, Ht].
    destruct (splitlines_one_line_step stdout) as [Hall _].
    rewrite List.Forall_forall in Hall. apply Hall, Hin. }
  split.
  - intros lines Hlines.
    assert (Hsub : sublist lines (output_lines stdout)).
    { rewrite filter_by_glob_filter in Hlines.
      destruct patterns; [injection Hlines as <-; reflexivity|].
      destruct (first_raise h workspace (output_lines stdout)); [discriminate|].
      injection Hlines as <-. apply filter_sublist. }
    split.
    + apply List.Forall_forall. intros line Hin.
      rewrite List.Forall_forall in Hout. apply Hout.
      apply list_elem_of_In. eapply elem_of_sublist; [|exact Hsub].
      apply list_elem_of_In, Hin.
    + etransitivity; [exact Hsub|]. unfold output_lines. apply filter_sublist.
  - split.
    + intros [-> | Hall]; [eexists; reflexivity|].
      rewrite filter_by_glob_filter.
      apply first_raise_none in Hall. rewrite Hall.
      destruct patterns; eexists; reflexivity.
    + intros e. rewrite filter_by_glob_filter.
      destruct patterns; [discriminate|].
      destruct (first_raise h workspace (output_lines stdout)) as [e'|] eqn:E;
        [|discriminate].
      intros [= <-]. apply first_raise_some, E.
Qed.

Lemma response_lines_clean_witness :
  sublist ["b.ts:2:y"]
          (splitlines ("a.go:1:x" +:+ nl +:+ "   " +:+ nl +:+ "b.ts:2:y")).
Proof.
  refine (proj2 (proj1 (response_lines_clean (demo_host ∅ JNull (Completed 0 "" ""))
                          ("a.go:1:x" +:+ nl +:+ "   " +:+ nl +:+ "b.ts:2:y")
                          ["*.ts"] ws) ["b.ts:2:y"] _)).
  reflexivity.
Defined.

